(** * TradingApp: the decision-and-lifecycle engine

    A shallow embedding of the server-side trading engine:
    - [SignalDetectionService]   (services/trading-engine.ts)
    - [UltimateStrategy]         (services/ultimate-strategy.ts)
    - [AIMarketAnalysisService]  (services/ai-market-analysis.ts)
    - [TradingRoutes]            (routes/trading.ts, the [calculateATR] helper)
    - [AutomaticTradeExecutor]   (services/automatic-trade-executor.ts)
    - [OptionsTradeService]      (services/options-trading.ts: strikes and
                                  strategy builders)
    - [HistoricalDataService]    (services/historical-data.ts)
    - [TradingEngineService]     (services/trading-engine.ts)

    JavaScript numbers are modelled by exact rationals ([Q]); equality of
    numbers is therefore [Qeq] ([==]).  Arrays are lists, the insertion-ordered
    [Map] of active trades is an association list, and promises that may
    reject are computations in a state-and-error monad over the broker
    gateway. *)

From Stdlib Require Import List String Ascii ZArith QArith Qabs Qminmax Qround.
From Stdlib Require Import Lia Lqa Bool Arith DecimalString Sorted.
Import ListNotations.

Open Scope Q_scope.

(** ** JavaScript array and number helpers *)

Module JS.

(** [x < y] on numbers. *)
Definition ltb (x y : Q) : bool := negb (Qle_bool y x).
(** [x > y]. *)
Definition gtb (x y : Q) : bool := ltb y x.
(** [x <= y]. *)
Definition leb (x y : Q) : bool := Qle_bool x y.
(** [x >= y]. *)
Definition geb (x y : Q) : bool := Qle_bool y x.
(** [x === y] on numbers. *)
Definition eqb (x y : Q) : bool := Qeq_bool x y.

(** A count or period used as a number. *)
Definition num (n : nat) : Q := inject_Z (Z.of_nat n).

(** [xs.reduce((a, b) => a + b, 0)]. *)
Definition sum (xs : list Q) : Q := fold_left Qplus xs 0.

(** [xs.slice(-n)]: the last [n] elements, all of them when the array is
    shorter; [slice(-0)] is [slice(0)], the whole array. *)
Definition slice_last {A} (n : nat) (xs : list A) : list A :=
  match n with
  | O => xs
  | _ => skipn (List.length xs - n) xs
  end.

(** [xs.slice(0, -1)]: everything but the last element. *)
Definition slice_init {A} (xs : list A) : list A := removelast xs.

(** [xs[xs.length - 1]], with a default standing for [undefined]. *)
Definition last_or {A} (xs : list A) (d : A) : A := last xs d.

(** [xs.slice(1).map((c, i) => f(c, xs[i]))]: the callback sees each element
    together with its predecessor. *)
Definition map_with_prev {A B} (f : A -> A -> B) (xs : list A) : list B :=
  map (fun p => f (fst p) (snd p)) (combine (tl xs) xs).

(** [Math.max(a, b, c)]. *)
Definition max3 (a b c : Q) : Q := Qmax (Qmax a b) c.

(** [Math.min(...xs)] and [Math.max(...xs)] on a non-empty array. *)
Definition min_list (xs : list Q) : Q :=
  match xs with
  | [] => 0
  | x :: r => fold_left Qmin r x
  end.
Definition max_list (xs : list Q) : Q :=
  match xs with
  | [] => 0
  | x :: r => fold_left Qmax r x
  end.

(** The number printed by [x.toFixed(2)]: nearest hundredth, ties away from
    zero. *)
Definition toFixed2 (x : Q) : Q :=
  if Qle_bool 0 x
  then inject_Z (Qfloor (x * 100 + (1 # 2))) / 100
  else - (inject_Z (Qfloor ((- x) * 100 + (1 # 2))) / 100).

End JS.

(** ** Candles and indicator opinions *)

Record Candle : Type := mkCandle {
  timestamp : Z;
  open : Q;
  high : Q;
  low : Q;
  close : Q;
  volume : Q
}.

(** ['BUY' | 'SELL']; the [null] opinion is [None]. *)
Inductive Side : Type := BUY | SELL.

Definition Signal : Type := option Side.

Definition Side_eqb (a b : Side) : bool :=
  match a, b with
  | BUY, BUY | SELL, SELL => true
  | _, _ => false
  end.

(** The candle invariant of the data model. *)
Definition candle_ok (c : Candle) : Prop :=
  Qmax (open c) (close c) <= high c /\ low c <= Qmin (open c) (close c).

(** ** services/trading-engine.ts: SignalDetectionService *)

Module SignalDetectionService.

Definition calculateMA (prices : list Q) (period : nat) : Q :=
  if (List.length prices <? period)%nat then 0
  else JS.sum (JS.slice_last period prices) / JS.num period.

(** The loop [for (i = 1; i < prices.length; i++) ema = ...]. *)
Fixpoint ema_loop (multiplier : Q) (ema : Q) (rest : list Q) : Q :=
  match rest with
  | [] => ema
  | p :: rest' => ema_loop multiplier (p * multiplier + ema * (1 - multiplier)) rest'
  end.

Definition calculateEMA (prices : list Q) (period : nat) : Q :=
  match prices with
  | [] => 0
  | p0 :: rest =>
      let multiplier := 2 / (JS.num period + 1) in
      ema_loop multiplier p0 rest
  end.

Definition calculateRSI (candles : list Candle) (period : nat) : Q :=
  let closes := map close candles in
  let changes := JS.map_with_prev (fun c prev => c - prev) closes in
  let gains := filter (fun c => JS.gtb c 0) changes in
  let losses := map Qabs (filter (fun c => JS.ltb c 0) changes) in
  let avgGain := JS.sum gains / JS.num period in
  let avgLoss := JS.sum losses / JS.num period in
  let rs := if JS.eqb avgLoss 0 then 0 else avgGain / avgLoss in
  let rsi := 100 - 100 / (1 + rs) in
  rsi.

Definition detectMAcrossover (candles : list Candle) (shortMA longMA : nat) : Signal :=
  if (List.length candles <? longMA + 1)%nat then None
  else
    let closes := map close candles in
    let shortAvg := calculateMA closes shortMA in
    let longAvg := calculateMA closes longMA in
    let prevShortAvg := calculateMA (JS.slice_init closes) shortMA in
    let prevLongAvg := calculateMA (JS.slice_init closes) longMA in
    if JS.leb prevShortAvg prevLongAvg && JS.gtb shortAvg longAvg then Some BUY
    else if JS.geb prevShortAvg prevLongAvg && JS.ltb shortAvg longAvg then Some SELL
    else None.

Definition detectRSI (candles : list Candle) (period : nat) : Signal :=
  if (List.length candles <? period + 1)%nat then None
  else
    let rsi := calculateRSI candles period in
    if JS.ltb rsi 30 then Some BUY
    else if JS.gtb rsi 70 then Some SELL
    else None.

Definition detectMACD (candles : list Candle) : Signal :=
  if (List.length candles <? 26)%nat then None
  else
    let closes := map close candles in
    let ema12 := calculateEMA closes 12 in
    let ema26 := calculateEMA closes 26 in
    let macd := ema12 - ema26 in
    let prevCloses := JS.slice_init closes in
    let prevEMA12 := calculateEMA prevCloses 12 in
    let prevEMA26 := calculateEMA prevCloses 26 in
    let prevMACD := prevEMA12 - prevEMA26 in
    let signal := calculateEMA [macd] 9 in
    let prevSignal := calculateEMA [prevMACD] 9 in
    if JS.leb prevMACD prevSignal && JS.gtb macd signal then Some BUY
    else if JS.geb prevMACD prevSignal && JS.ltb macd signal then Some SELL
    else None.

Section Bollinger.
(** [Math.sqrt], which has no exact counterpart on rationals, is a
    parameter of the Bollinger detector. *)
Variable Math_sqrt : Q -> Q.

(** [Math.pow(p - mean, 2)] is the square of the difference. *)
Definition calculateStdDev (prices : list Q) (mean : Q) : Q :=
  let squareDiff := map (fun p => (p - mean) * (p - mean)) prices in
  let avgSquareDiff := JS.sum squareDiff / JS.num (List.length prices) in
  Math_sqrt avgSquareDiff.

Definition detectBollingerBands (candles : list Candle) (period : nat) (deviation : Q)
  : Signal :=
  if (List.length candles <? period)%nat then None
  else
    let closes := map close candles in
    let lastPrice := JS.last_or closes 0 in
    let sma := calculateMA closes period in
    let std := calculateStdDev (JS.slice_last period closes) sma in
    let upperBand := sma + deviation * std in
    let lowerBand := sma - deviation * std in
    if JS.leb lastPrice lowerBand then Some BUY
    else if JS.geb lastPrice upperBand then Some SELL
    else None.

End Bollinger.

End SignalDetectionService.

(** ** The broker gateway and the clock, as seen by the engine *)

(** A JavaScript [Error] value, identified by its message. *)
Record Error : Type := mkError { message : string }.

(** The settlement of an awaited promise. *)
Inductive Outcome (A : Type) : Type :=
| Resolved (a : A)
| Rejected (e : Error).
Arguments Resolved {A} a.
Arguments Rejected {A} e.

Record Position : Type := mkPosition {
  instrument_token : Z;
  position_quantity : Q
}.

Record Quote : Type := mkQuote { last_price : Q }.

(** [quote[instrumentToken]?.last_price || 0]. *)
Definition lastPriceOr0 (quote : Z -> option Quote) (token : Z) : Q :=
  match quote token with
  | Some q => last_price q
  | None => 0
  end.

Record BracketOrder : Type := mkBracketOrder {
  bo_symbol : string;
  bo_quantity : Q;
  bo_side : Side;
  bo_price : Q;
  bo_target : Q;
  bo_stoploss : Q
}.

Record OrderResponse : Type := mkOrderResponse { order_id : string }.

(** The requests the engine sends to the gateway, recorded in call order. *)
Inductive GatewayCall : Type :=
| CallGetPositions
| CallGetQuote (tokens : list Z)
| CallGetHistoricalData (token : Z) (interval : string) (fromDate toDate : Z)
| CallPlaceBracketOrder (order : BracketOrder)
| CallCancelOrder (orderId : string).

(** [ZerodhaClient], the capability the engine is constructed with, together
    with the system clock ([Date.now()], [new Date()]).  [W] is the state of
    the outside world; every operation may change it and may reject. *)
Class ZerodhaClient (W : Type) : Type := {
  getPositions : W -> Outcome (list Position) * W;
  getQuote : list Z -> W -> Outcome (Z -> option Quote) * W;
  getHistoricalData : Z -> string -> Z -> Z -> W -> Outcome (list Candle) * W;
  placeBracketOrder : BracketOrder -> W -> Outcome OrderResponse * W;
  cancelOrder : string -> W -> Outcome unit * W;
  Date_now : W -> Z * W
}.

(** A logged request, with the error it was rejected with, if it was. *)
Record LoggedCall : Type := mkLogged {
  call : GatewayCall;
  failure : option Error
}.

(** The outside world with the log of gateway requests made so far. *)
Record World (W : Type) : Type := mkWorld {
  host : W;
  calls : list LoggedCall
}.
Arguments mkWorld {W} host calls.
Arguments host {W} w.
Arguments calls {W} w.

(** ** Promises: a state-and-error monad

    A rejected promise keeps every mutation made before the rejection: the
    state is threaded through both outcomes. *)

Definition M (S A : Type) : Type := S -> Outcome A * S.

Definition ret {S A} (a : A) : M S A := fun s => (Resolved a, s).

Definition throw {S A} (e : Error) : M S A := fun s => (Rejected e, s).

Definition bind {S A B} (m : M S A) (k : A -> M S B) : M S B :=
  fun s =>
    match m s with
    | (Resolved a, s') => k a s'
    | (Rejected e, s') => (Rejected e, s')
    end.

(** [try { m } catch (error) { h(error) }]. *)
Definition try_catch {S A} (m : M S A) (h : Error -> M S A) : M S A :=
  fun s =>
    match m s with
    | (Resolved a, s') => (Resolved a, s')
    | (Rejected e, s') => h e s'
    end.

Definition get {S} : M S S := fun s => (Resolved s, s).
Definition modify {S} (f : S -> S) : M S unit := fun s => (Resolved tt, f s).

Declare Scope promise_scope.
Delimit Scope promise_scope with promise.
Notation "'await' x <- m ;; k" := (bind m (fun x => k))
  (at level 61, x name, m at next level, right associativity) : promise_scope.
Notation "m ;;; k" := (bind m (fun _ => k))
  (at level 61, right associativity) : promise_scope.
Open Scope promise_scope.

(** [console.log] and [console.error] have no effect on the engine. *)
Definition console_log {S} : M S unit := ret tt.

Section GatewayCalls.
Context {W : Type} `{ZerodhaClient W}.

Definition rejection {A} (r : Outcome A) : option Error :=
  match r with
  | Resolved _ => None
  | Rejected e => Some e
  end.

(** One awaited gateway request: it is answered by the host and logged with
    its outcome. *)
Definition request {A} (c : GatewayCall) (op : W -> Outcome A * W) : M (World W) A :=
  fun w =>
    let (r, h') := op (host w) in
    (r, mkWorld h' (calls w ++ [mkLogged c (rejection r)])).

Definition zerodha_getPositions : M (World W) (list Position) :=
  request CallGetPositions getPositions.

Definition zerodha_getQuote (tokens : list Z) : M (World W) (Z -> option Quote) :=
  request (CallGetQuote tokens) (getQuote tokens).

Definition zerodha_getHistoricalData (token : Z) (interval : string) (fromDate toDate : Z)
  : M (World W) (list Candle) :=
  request (CallGetHistoricalData token interval fromDate toDate)
          (getHistoricalData token interval fromDate toDate).

Definition zerodha_placeBracketOrder (order : BracketOrder) : M (World W) OrderResponse :=
  request (CallPlaceBracketOrder order) (placeBracketOrder order).

Definition zerodha_cancelOrder (orderId : string) : M (World W) unit :=
  request (CallCancelOrder orderId) (cancelOrder orderId).

(** Reading the clock is not a gateway request and cannot fail. *)
Definition new_Date : M (World W) Z :=
  fun w =>
    let (t, h') := Date_now (host w) in
    (Resolved t, mkWorld h' (calls w)).

End GatewayCalls.

(** ** services/ultimate-strategy.ts: UltimateStrategy *)

Module UltimateStrategy.

Record UltimateStrategySignal : Type := mkSignal {
  symbol : string;
  instrumentToken : Z;
  signal : Signal;
  confidence : Q;
  signals_matched : list string;
  timestamp : Z;
  price : Q;
  target : Q;
  stoploss : Q;
  risk_reward_ratio : Q
}.

(** [private minConfidenceThreshold = 80]. *)
Definition minConfidenceThreshold : Q := 80.

(** The object built by [runAllSignals]: ten keys, in this order. *)
Record AllSignals : Type := mkAllSignals {
  maCrossover_1h : Signal;
  rsi_1h : Signal;
  macd_1h : Signal;
  bollingerBands_1h : Signal;
  maCrossover_15m : Signal;
  rsi_15m : Signal;
  macd_15m : Signal;
  volumeConfirmation : Signal;
  trendStrength : Signal;
  srBounce : Signal
}.

(** [Object.entries(signals)]. *)
Definition entries (s : AllSignals) : list (string * Signal) :=
  [ ("maCrossover_1h"%string, maCrossover_1h s);
    ("rsi_1h"%string, rsi_1h s);
    ("macd_1h"%string, macd_1h s);
    ("bollingerBands_1h"%string, bollingerBands_1h s);
    ("maCrossover_15m"%string, maCrossover_15m s);
    ("rsi_15m"%string, rsi_15m s);
    ("macd_15m"%string, macd_15m s);
    ("volumeConfirmation"%string, volumeConfirmation s);
    ("trendStrength"%string, trendStrength s);
    ("srBounce"%string, srBounce s) ].

(** [Object.keys(signals)] and [Object.values(signals)]. *)
Definition keys (s : AllSignals) : list string := map fst (entries s).
Definition values (s : AllSignals) : list Signal := map snd (entries s).

(** The counters updated by the [forEach] callbacks. *)
Record Tally : Type := mkTally {
  buySignals : nat;
  sellSignals : nat;
  matchedSignals : list string
}.

Definition tally_entry (t : Tally) (kv : string * Signal) : Tally :=
  match snd kv with
  | Some BUY => mkTally (S (buySignals t)) (sellSignals t) (matchedSignals t ++ [fst kv])
  | Some SELL => mkTally (buySignals t) (S (sellSignals t)) (matchedSignals t ++ [fst kv])
  | None => t
  end.

Definition tally (s : AllSignals) : Tally :=
  fold_left tally_entry (entries s) (mkTally 0 0 []).

Definition calculateConfidence (signals : AllSignals) : Q * list string :=
  let t := tally signals in
  let totalSignals := List.length (keys signals) in
  let confidence :=
    if (sellSignals t <? buySignals t)%nat
    then (JS.num (buySignals t) / JS.num totalSignals) * 100
    else if (buySignals t <? sellSignals t)%nat
    then (JS.num (sellSignals t) / JS.num totalSignals) * 100
    else 0 in
  (confidence, matchedSignals t).

Definition count_value (v : Side) (a : nat) (x : Signal) : nat :=
  match x with
  | Some s => if Side_eqb s v then S a else a
  | None => a
  end.

Definition determineFinalSignal (signals : AllSignals) (confidence : Q) : Signal :=
  if JS.ltb confidence minConfidenceThreshold then None
  else
    let buy := fold_left (count_value BUY) (values signals) O in
    let sell := fold_left (count_value SELL) (values signals) O in
    if (sell <? buy)%nat then Some BUY
    else if (buy <? sell)%nat then Some SELL
    else None.

Definition analyzeVolume (candles : list Candle) : Signal :=
  if (List.length candles <? 2)%nat then None
  else
    match nth_error candles (List.length candles - 1) with
    | None => None
    | Some lastCandle =>
        let avgVolume :=
          fold_left (fun sum c => sum + volume c) (JS.slice_last 10 candles) 0 / 10 in
        if JS.gtb (close lastCandle) (open lastCandle)
           && JS.gtb (volume lastCandle) (avgVolume * (3 # 2))
        then Some BUY
        else if JS.ltb (close lastCandle) (open lastCandle)
                && JS.gtb (volume lastCandle) (avgVolume * (3 # 2))
        then Some SELL
        else None
    end.

(** [xs.slice(1).filter((c, i) => p(c, xs[i])).length]. *)
Definition count_with_prev (p : Candle -> Candle -> bool) (xs : list Candle) : nat :=
  List.length (filter (fun b : bool => b) (JS.map_with_prev p xs)).

Definition analyzeTrendStrength (candles : list Candle) : Signal :=
  if (List.length candles <? 5)%nat then None
  else
    let lastCandles := JS.slice_last 5 candles in
    let higherHighs := count_with_prev (fun c prev => JS.gtb (high c) (high prev)) lastCandles in
    let higherLows := count_with_prev (fun c prev => JS.gtb (low c) (low prev)) lastCandles in
    let lowerHighs := count_with_prev (fun c prev => JS.ltb (high c) (high prev)) lastCandles in
    let lowerLows := count_with_prev (fun c prev => JS.ltb (low c) (low prev)) lastCandles in
    if (3 <=? higherHighs)%nat && (3 <=? higherLows)%nat then Some BUY
    else if (3 <=? lowerHighs)%nat && (3 <=? lowerLows)%nat then Some SELL
    else None.

Definition analyzeSupportResistance (candles : list Candle) : Signal :=
  if (List.length candles <? 20)%nat then None
  else
    let closes := map close candles in
    let minClose := JS.min_list (JS.slice_last 20 closes) in
    let maxClose := JS.max_list (JS.slice_last 20 closes) in
    let currentClose := JS.last_or closes 0 in
    if JS.ltb (Qabs (currentClose - minClose)) ((maxClose - minClose) * (5 # 100))
    then Some BUY
    else if JS.ltb (Qabs (currentClose - maxClose)) ((maxClose - minClose) * (5 # 100))
    then Some SELL
    else None.

(** The true range of a candle given the candle before it. *)
Definition trueRange (c prev : Candle) : Q :=
  JS.max3 (high c - low c) (Qabs (high c - close prev)) (Qabs (low c - close prev)).

Definition calculateATR (candles : list Candle) (period : nat) : Q :=
  if (List.length candles <? period)%nat then 0
  else
    let trList := JS.map_with_prev trueRange candles in
    let atr := JS.sum (JS.slice_last period trList) / JS.num period in
    atr.

Record Levels : Type := mkLevels { lv_target : Q; lv_stoploss : Q }.

Definition calculateRiskManagement (currentPrice : Q) (signal : Signal)
  (candles : list Candle) : Levels :=
  let atr := calculateATR candles 14 in
  let riskFactor := 2 in
  match signal with
  | Some BUY => mkLevels (currentPrice + atr * riskFactor) (currentPrice - atr)
  | Some SELL => mkLevels (currentPrice - atr * riskFactor) (currentPrice + atr)
  | None => mkLevels 0 0
  end.

Definition calculateRiskReward (currentPrice target stoploss : Q) : Q :=
  if JS.eqb stoploss 0 || JS.eqb stoploss currentPrice then 0
  else
    let reward := Qabs (target - currentPrice) in
    let risk := Qabs (currentPrice - stoploss) in
    reward / risk.

Definition msPerDay : Z := 86400000.

(** [getDateBefore(days)]: the calendar day [days] days before the clock
    reading, as the instant that day starts. *)
Definition dateBefore (now : Z) (days : Z) : Z :=
  ((now - days * msPerDay) / msPerDay * msPerDay)%Z.

Section Analysis.
Context {W : Type} `{ZerodhaClient W}.
Variable Math_sqrt : Q -> Q.

Definition getDateBefore (days : Z) : M (World W) Z :=
  await now <- new_Date ;;
  ret (dateBefore now days).

Definition runAllSignals (candles1h candles15m : list Candle) : AllSignals :=
  {| maCrossover_1h := SignalDetectionService.detectMAcrossover candles1h 9 21;
     rsi_1h := SignalDetectionService.detectRSI candles1h 14;
     macd_1h := SignalDetectionService.detectMACD candles1h;
     bollingerBands_1h := SignalDetectionService.detectBollingerBands Math_sqrt candles1h 20 2;
     maCrossover_15m := SignalDetectionService.detectMAcrossover candles15m 5 13;
     rsi_15m := SignalDetectionService.detectRSI candles15m 14;
     macd_15m := SignalDetectionService.detectMACD candles15m;
     volumeConfirmation := analyzeVolume candles1h;
     trendStrength := analyzeTrendStrength candles1h;
     srBounce := analyzeSupportResistance candles1h |}.

(** The synchronous part of [analyzeSymbol], from [runAllSignals] to the
    returned object, once the candles, the quote and the time stamp are in. *)
Definition buildSignal (token : Z) (sym : string) (candles1h candles15m : list Candle)
  (currentPrice : Q) (stamp : Z) : UltimateStrategySignal :=
  let signals := runAllSignals candles1h candles15m in
  let (confidence, matched) := calculateConfidence signals in
  let finalSignal := determineFinalSignal signals confidence in
  let levels := calculateRiskManagement currentPrice finalSignal candles1h in
  let riskRewardRatio :=
    calculateRiskReward currentPrice (lv_target levels) (lv_stoploss levels) in
  {| symbol := sym;
     instrumentToken := token;
     signal := finalSignal;
     confidence := confidence;
     signals_matched := matched;
     timestamp := stamp;
     price := currentPrice;
     target := lv_target levels;
     stoploss := lv_stoploss levels;
     risk_reward_ratio := riskRewardRatio |}.

(** The [try { ... } catch (error) { console.error(...); throw error; }]
    wrapper rethrows the error it caught. *)
Definition analyzeSymbol (token : Z) (sym : string) (quantity : Q)
  : M (World W) UltimateStrategySignal :=
  try_catch
    (await from1h <- getDateBefore 2 ;;
     await to1h <- new_Date ;;
     await candles1h <- zerodha_getHistoricalData token "hour" from1h to1h ;;
     await from15m <- getDateBefore 1 ;;
     await to15m <- new_Date ;;
     await candles15m <- zerodha_getHistoricalData token "15minute" from15m to15m ;;
     await quote <- zerodha_getQuote [token] ;;
     let currentPrice := lastPriceOr0 quote token in
     await stamp <- new_Date ;;
     ret (buildSignal token sym candles1h candles15m currentPrice stamp))
    (fun error => console_log ;;; throw error).

End Analysis.

End UltimateStrategy.

(** ** services/ai-market-analysis.ts: the helpers of AIMarketAnalysisService *)

Module AIMarketAnalysisService.

Definition calculateRSI (prices : list Q) (period : nat) : Q :=
  if (List.length prices <? period + 1)%nat then 50
  else
    let changes := JS.map_with_prev (fun p prev => p - prev) prices in
    let gains := JS.sum (filter (fun c => JS.gtb c 0) changes) in
    let losses := Qabs (JS.sum (filter (fun c => JS.ltb c 0) changes)) in
    let avgGain := gains / JS.num period in
    let avgLoss := losses / JS.num period in
    let rs := if JS.eqb avgLoss 0 then 100 else avgGain / avgLoss in
    100 - 100 / (1 + rs).

(** [candles.map((c, i) => i === 0 ? c.high - c.low : Math.max(tr1, tr2, tr3))]. *)
Definition trueRanges (candles : list Candle) : list Q :=
  match candles with
  | [] => []
  | c0 :: _ => (high c0 - low c0) :: JS.map_with_prev UltimateStrategy.trueRange candles
  end.

Definition calculateATR (candles : list Candle) (period : nat) : Q :=
  if (List.length candles <? period)%nat then 0
  else JS.sum (JS.slice_last period (trueRanges candles)) / JS.num period.

(** *** The rest of the service: scores, patterns, prediction, [analyzeMarket] *)

(** ['STRONG_BUY' | 'BUY' | 'NEUTRAL' | 'SELL' | 'STRONG_SELL']. *)
Inductive Trend : Type := T_STRONG_BUY | T_BUY | T_NEUTRAL | T_SELL | T_STRONG_SELL.

Definition Trend_toString (t : Trend) : string :=
  match t with
  | T_STRONG_BUY => "STRONG_BUY"
  | T_BUY => "BUY"
  | T_NEUTRAL => "NEUTRAL"
  | T_SELL => "SELL"
  | T_STRONG_SELL => "STRONG_SELL"
  end.

(** ['UP' | 'DOWN']. *)
Inductive Direction : Type := UP | DOWN.

(** [s.includes(sub)]. *)
Definition includes (s sub : string) : bool :=
  match String.index 0 sub s with
  | Some _ => true
  | None => false
  end.

(** The [signals] object of [calculateAllSignals]. *)
Record Signals : Type := mkSignals {
  price : Q;
  ma20 : Q;
  ma50 : Q;
  ma200 : Q;
  rsi : Q;
  macd : Q;
  bollingerUpper : Q;
  bollingerLower : Q;
  atr : Q
}.

Record MarketAnalysisResult : Type := mkResult {
  symbol : string;
  timeframe : string;
  trend : Trend;
  confidence : Q;
  aiScore : Q;
  technicalScore : Q;
  sentimentScore : Q;
  volatility : Q;
  momentum : Q;
  patterns : list string;
  signals : Signals;
  predictedDirection : Direction;
  predictedProbability : Q;
  recommendations : list string
}.

(** [xs[i]], with 0 standing for [undefined]; [analyzeMarket] only indexes
    inside its fifty or more candles. *)
Definition at_ (xs : list Q) (i : nat) : Q := nth i xs 0.

(** [Math.max(0, Math.min(100, score))]. *)
Definition clamp100 (score : Q) : Q := Qmax 0 (Qmin 100 score).

Definition calculateMA (prices : list Q) (period : nat) : Q :=
  if (List.length prices <? period)%nat then at_ prices (List.length prices - 1)
  else JS.sum (JS.slice_last period prices) / JS.num period.

Definition calculateEMA (prices : list Q) (period : nat) : Q :=
  match prices with
  | [] => 0
  | p0 :: rest =>
      let multiplier := 2 / (JS.num period + 1) in
      SignalDetectionService.ema_loop multiplier p0 rest
  end.

Definition calculateMACD (prices : list Q) : Q :=
  if (List.length prices <? 26)%nat then 0
  else
    let ema12 := calculateEMA prices 12 in
    let ema26 := calculateEMA prices 26 in
    ema12 - ema26.

(** [candles.slice(-10).reduce((sum, c) => sum + c.volume, 0) / 10]. *)
Definition avgVolume10 (candles : list Candle) : Q :=
  fold_left (fun sum c => sum + volume c) (JS.slice_last 10 candles) 0 / 10.

Definition calculateTechnicalScore (signals : Signals) (candles : list Candle) : Q :=
  let score := 50 in
  let score :=
    if JS.gtb (price signals) (ma20 signals) && JS.gtb (ma20 signals) (ma50 signals)
       && JS.gtb (ma50 signals) (ma200 signals)
    then score + 20
    else if JS.ltb (price signals) (ma20 signals) && JS.ltb (ma20 signals) (ma50 signals)
            && JS.ltb (ma50 signals) (ma200 signals)
    then score - 20
    else score in
  let score :=
    if JS.ltb (rsi signals) 30 then score + 15
    else if JS.gtb (rsi signals) 70 then score - 15
    else if JS.gtb (rsi signals) 45 && JS.ltb (rsi signals) 55 then score + 5
    else score in
  let score := if JS.gtb (macd signals) 0 then score + 10 else score - 10 in
  let score :=
    if JS.gtb (price signals) (bollingerUpper signals) then score - 10
    else if JS.ltb (price signals) (bollingerLower signals) then score + 10
    else score in
  let avgVolume := avgVolume10 candles in
  let lastVolume :=
    match nth_error candles (List.length candles - 1) with
    | Some c => volume c
    | None => 0
    end in
  let score := if JS.gtb lastVolume (avgVolume * (3 # 2)) then score + 5 else score in
  clamp100 score.

Definition calculateSentimentScore (candles : list Candle) : Q :=
  let upMoves :=
    List.length (filter (fun b : bool => b)
      (JS.map_with_prev (fun c prev => JS.gtb (close c) (close prev)) candles)) in
  let downMoves :=
    List.length (filter (fun b : bool => b)
      (JS.map_with_prev (fun c prev => JS.ltb (close c) (close prev)) candles)) in
  let upPercent := (JS.num upMoves / JS.num (upMoves + downMoves)) * 100 in
  (upPercent - 50) * 2.

Definition detectPatterns (candles : list Candle) : list string :=
  let closes := map close candles in
  let n := List.length closes in
  let last1 := at_ closes (n - 1) in
  let last2 := at_ closes (n - 2) in
  let last3 := at_ closes (n - 3) in
  let patterns := [] in
  let patterns :=
    if JS.gtb last1 last2 && JS.ltb last2 last3
    then patterns ++ ["DOUBLE_BOTTOM"%string] else patterns in
  let patterns :=
    if JS.ltb last1 last2 && JS.gtb last2 last3
    then patterns ++ ["DOUBLE_TOP"%string] else patterns in
  let recent5 := JS.slice_last 5 closes in
  let patterns :=
    if JS.gtb (at_ recent5 4) (at_ recent5 3) && JS.gtb (at_ recent5 3) (at_ recent5 2)
       && JS.gtb (at_ recent5 2) (at_ recent5 1)
    then patterns ++ ["HIGHER_HIGHS"%string] else patterns in
  let patterns :=
    if JS.ltb (at_ recent5 4) (at_ recent5 3) && JS.ltb (at_ recent5 3) (at_ recent5 2)
       && JS.ltb (at_ recent5 2) (at_ recent5 1)
    then patterns ++ ["LOWER_HIGHS"%string] else patterns in
  let opens := map open candles in
  let open1 := at_ opens (n - 1) in
  let open2 := at_ opens (n - 2) in
  let patterns :=
    if JS.gtb last1 open1 && JS.ltb last2 open2 && JS.ltb open1 last2
    then patterns ++ ["BULLISH_ENGULFING"%string] else patterns in
  let patterns :=
    if JS.ltb last1 open1 && JS.gtb last2 open2 && JS.gtb open1 last2
    then patterns ++ ["BEARISH_ENGULFING"%string] else patterns in
  patterns.

Definition calculateMomentum (candles : list Candle) : Q :=
  let closes := map close candles in
  let n := List.length closes in
  at_ closes (n - 1) - at_ closes (n - 10).

Record Prediction : Type := mkPrediction { direction : Direction; probability : Q }.

Definition predictMarketDirection (candles : list Candle) (signals : Signals)
  (aiScore technicalScore : Q) : Prediction :=
  let closes := map close candles in
  let n := List.length closes in
  let combinedScore := (aiScore * (1 # 2) + technicalScore * (1 # 2) + rsi signals) / 3 in
  let probability := Qabs (combinedScore - 50) / 50 in
  let recentTrend := (at_ closes (n - 1) - at_ closes (n - 5)) / at_ closes (n - 5) in
  let probability :=
    if JS.gtb recentTrend 0 then probability + 10 else probability - 10 in
  let probability := Qmax (1 # 2) (Qmin (99 # 100) probability) in
  let direction := if JS.gtb combinedScore 50 then UP else DOWN in
  mkPrediction direction (probability * 100).

Definition determineTrend (aiScore technicalScore sentimentScore : Q) : Trend :=
  let combinedScore := (aiScore + technicalScore) / 2 in
  if JS.gtb combinedScore 75 && JS.gtb sentimentScore 40 then T_STRONG_BUY
  else if JS.gtb combinedScore 60 && JS.gtb sentimentScore 20 then T_BUY
  else if JS.gtb combinedScore 40 && JS.ltb combinedScore 60 then T_NEUTRAL
  else if JS.ltb combinedScore 40 && JS.ltb sentimentScore (-20) then T_SELL
  else T_STRONG_SELL.

Definition calculateConfidence (aiScore technicalScore : Q) (patterns : list string) : Q :=
  let confidence := (aiScore + technicalScore) / 2 in
  let confidence :=
    if (0 <? List.length patterns)%nat
    then confidence + JS.num (List.length patterns) * 5
    else confidence in
  Qmin 100 confidence.

(** [patterns.includes(name)]. *)
Definition has_pattern (patterns : list string) (name : string) : bool :=
  existsb (String.eqb name) patterns.

Definition generateRecommendations (trend : string) (signals : Signals)
  (patterns : list string) (volatility momentum : Q) : list string :=
  let recommendations :=
    if includes trend "BUY" then
      ["Consider BUY position"%string]
      ++ (if JS.ltb volatility 2
          then ["Low volatility - good entry opportunity"%string] else [])
      ++ (if JS.gtb momentum 0 then ["Positive momentum confirmation"%string] else [])
      ++ (if JS.ltb (rsi signals) 40 then ["RSI showing room for upside"%string] else [])
    else if includes trend "SELL" then
      ["Consider SELL position"%string]
      ++ (if JS.gtb volatility 4
          then ["High volatility - use wider stops"%string] else [])
      ++ (if JS.ltb momentum 0 then ["Negative momentum confirmation"%string] else [])
      ++ (if JS.gtb (rsi signals) 60 then ["RSI showing weakness"%string] else [])
    else
      ["Market in consolidation - wait for breakout"%string;
       "Use range trading strategy"%string] in
  recommendations
  ++ (if has_pattern patterns "BULLISH_ENGULFING"
      then ["Bullish engulfing pattern detected - strong BUY signal"%string] else [])
  ++ (if has_pattern patterns "BEARISH_ENGULFING"
      then ["Bearish engulfing pattern detected - strong SELL signal"%string] else [])
  ++ (if has_pattern patterns "DOUBLE_BOTTOM"
      then ["Double bottom pattern - potential reversal UP"%string] else [])
  ++ (if has_pattern patterns "DOUBLE_TOP"
      then ["Double top pattern - potential reversal DOWN"%string] else []).

Section Analysis.
(** [Math.sqrt] is a parameter, as in the Bollinger detector. *)
Variable Math_sqrt : Q -> Q.

(** The population standard deviation of the last [period] prices around
    their mean, as both Bollinger helpers compute it. *)
Definition bollingerStdDev (prices : list Q) (period : nat) (sma : Q) : Q :=
  let values := JS.slice_last period prices in
  let variance :=
    fold_left (fun sum p => sum + (p - sma) * (p - sma)) values 0 / JS.num period in
  Math_sqrt variance.

Definition calculateBollingerUpper (prices : list Q) (period : nat) : Q :=
  if (List.length prices <? period)%nat then at_ prices (List.length prices - 1)
  else
    let sma := calculateMA prices period in
    sma + 2 * bollingerStdDev prices period sma.

Definition calculateBollingerLower (prices : list Q) (period : nat) : Q :=
  if (List.length prices <? period)%nat then at_ prices (List.length prices - 1)
  else
    let sma := calculateMA prices period in
    sma - 2 * bollingerStdDev prices period sma.

Definition calculateAllSignals (candles : list Candle) : Signals :=
  let closes := map close candles in
  {| price := at_ closes (List.length closes - 1);
     ma20 := calculateMA closes 20;
     ma50 := calculateMA closes 50;
     ma200 := calculateMA closes 200;
     rsi := calculateRSI closes 14;
     macd := calculateMACD closes;
     bollingerUpper := calculateBollingerUpper closes 20;
     bollingerLower := calculateBollingerLower closes 20;
     atr := calculateATR candles 14 |}.

Definition calculateVolatility (candles : list Candle) : Q :=
  let closes := map close candles in
  let returns := JS.map_with_prev (fun c prev => (c - prev) / prev) closes in
  let mean := JS.sum returns / JS.num (List.length returns) in
  let variance :=
    fold_left (fun sum r => sum + (r - mean) * (r - mean)) returns 0
    / JS.num (List.length returns) in
  let stdDev := Math_sqrt variance in
  stdDev * 100.

Definition calculateAIScore (candles : list Candle) (signals : Signals) : Q :=
  let score := 50 in
  let closes := map close candles in
  let n := List.length closes in
  let upCandles :=
    List.length (filter (fun c => JS.gtb (close c) (open c)) (JS.slice_last 10 candles)) in
  let score :=
    if (7 <? upCandles)%nat then score + 15
    else if (upCandles <? 3)%nat then score - 15
    else score in
  let recentVolatility := calculateVolatility (JS.slice_last 20 candles) in
  let historicalVolatility := calculateVolatility (JS.slice_last 50 candles) in
  let score :=
    if JS.ltb recentVolatility (historicalVolatility * (7 # 10)) then score + 10
    else score in
  let min20 := JS.min_list (JS.slice_last 20 closes) in
  let max20 := JS.max_list (JS.slice_last 20 closes) in
  let current := at_ closes (n - 1) in
  let score :=
    if JS.ltb (Qabs (current - min20)) ((max20 - min20) * (5 # 100)) then score + 12
    else if JS.ltb (Qabs (current - max20)) ((max20 - min20) * (5 # 100)) then score - 12
    else score in
  let roc := ((at_ closes (n - 1) - at_ closes (n - 10)) / at_ closes (n - 10)) * 100 in
  let score := if JS.gtb (Qabs roc) 5 then score + 8 else score in
  clamp100 score.

(** [analyzeMarket(candles, symbol)]: throws on fewer than 50 candles. *)
Definition analyzeMarket (candles : list Candle) (sym : string)
  : Outcome MarketAnalysisResult :=
  if (List.length candles <? 50)%nat
  then Rejected (mkError "Insufficient data for analysis. Need at least 50 candles.")
  else
    let signals := calculateAllSignals candles in
    let technicalScore := calculateTechnicalScore signals candles in
    let aiScore := calculateAIScore candles signals in
    let sentimentScore := calculateSentimentScore candles in
    let patterns := detectPatterns candles in
    let volatility := calculateVolatility candles in
    let momentum := calculateMomentum candles in
    let prediction := predictMarketDirection candles signals aiScore technicalScore in
    let trend := determineTrend aiScore technicalScore sentimentScore in
    let confidence := calculateConfidence aiScore technicalScore patterns in
    let recommendations :=
      generateRecommendations (Trend_toString trend) signals patterns volatility momentum in
    Resolved
      {| symbol := sym;
         timeframe := "1H";
         trend := trend;
         confidence := confidence;
         aiScore := aiScore;
         technicalScore := technicalScore;
         sentimentScore := sentimentScore;
         volatility := volatility;
         momentum := momentum;
         patterns := patterns;
         signals := signals;
         predictedDirection := direction prediction;
         predictedProbability := probability prediction;
         recommendations := recommendations |}.

End Analysis.

End AIMarketAnalysisService.

(** ** routes/trading.ts: the module-level ATR helper *)

Module TradingRoutes.

Definition calculateATR (candles : list Candle) (period : nat) : Q :=
  let trs := AIMarketAnalysisService.trueRanges candles in
  JS.sum (JS.slice_last period trs) / JS.num period.

End TradingRoutes.

(** ** The insertion-ordered [Map<string, V>] *)

Module JSMap.

Definition t (V : Type) : Type := list (string * V).

Definition get {V} (m : t V) (k : string) : option V :=
  match find (fun kv => String.eqb (fst kv) k) m with
  | Some kv => Some (snd kv)
  | None => None
  end.

Definition has {V} (m : t V) (k : string) : bool :=
  match get m k with Some _ => true | None => false end.

(** [m.set(k, v)]: an existing key keeps its place, a new key goes last. *)
Fixpoint set {V} (m : t V) (k : string) (v : V) : t V :=
  match m with
  | [] => [(k, v)]
  | (k', v') :: r => if String.eqb k' k then (k, v) :: r else (k', v') :: set r k v
  end.

(** [m.delete(k)]. *)
Definition delete {V} (m : t V) (k : string) : t V :=
  filter (fun kv => negb (String.eqb (fst kv) k)) m.

Definition size {V} (m : t V) : nat := List.length m.

(** [Array.from(m.values())]. *)
Definition values {V} (m : t V) : list V := map snd m.

End JSMap.

(** ** services/automatic-trade-executor.ts: AutomaticTradeExecutor *)

Module AutomaticTradeExecutor.

Record AutomaticTradeConfig : Type := mkConfig {
  cfg_symbol : string;
  cfg_instrumentToken : Z;
  cfg_quantity : Q;
  cfg_minConfidence : Q;
  cfg_maxRiskPerTrade : Q;
  cfg_maxOpenTrades : Q
}.

Inductive Status : Type := PENDING | EXECUTED | FILLED | CANCELLED | CLOSED.

Definition Status_eqb (a b : Status) : bool :=
  match a, b with
  | PENDING, PENDING | EXECUTED, EXECUTED | FILLED, FILLED
  | CANCELLED, CANCELLED | CLOSED, CLOSED => true
  | _, _ => false
  end.

(** The optional fields [closedAt?], [exitPrice?] and [pnl?] are [None] while
    they are [undefined]. *)
Record ExecutedTrade : Type := mkTrade {
  id : string;
  symbol : string;
  type : Side;
  entryPrice : Q;
  quantity : Q;
  target : Q;
  stoploss : Q;
  orderId : string;
  status : Status;
  confidence : Q;
  createdAt : Z;
  closedAt : option Z;
  exitPrice : option Q;
  pnl : option Q
}.

(** Field assignments on a trade object. *)
Definition set_status (s : Status) (t : ExecutedTrade) : ExecutedTrade :=
  mkTrade (id t) (symbol t) (type t) (entryPrice t) (quantity t) (target t) (stoploss t)
          (orderId t) s (confidence t) (createdAt t) (closedAt t) (exitPrice t) (pnl t).
Definition set_closedAt (d : Z) (t : ExecutedTrade) : ExecutedTrade :=
  mkTrade (id t) (symbol t) (type t) (entryPrice t) (quantity t) (target t) (stoploss t)
          (orderId t) (status t) (confidence t) (createdAt t) (Some d) (exitPrice t) (pnl t).
Definition set_exitPrice (p : Q) (t : ExecutedTrade) : ExecutedTrade :=
  mkTrade (id t) (symbol t) (type t) (entryPrice t) (quantity t) (target t) (stoploss t)
          (orderId t) (status t) (confidence t) (createdAt t) (closedAt t) (Some p) (pnl t).
Definition set_pnl (p : Q) (t : ExecutedTrade) : ExecutedTrade :=
  mkTrade (id t) (symbol t) (type t) (entryPrice t) (quantity t) (target t) (stoploss t)
          (orderId t) (status t) (confidence t) (createdAt t) (closedAt t) (exitPrice t) (Some p).

(** The executor object: its map of active trades, and the world it talks
    to.  A trade object is owned by the map entry that holds it, so assigning
    to a field of a trade in the map replaces the entry's value. *)
Record Executor (W : Type) : Type := mkExecutor {
  activeTrades : JSMap.t ExecutedTrade;
  world : World W
}.
Arguments mkExecutor {W} activeTrades world.
Arguments activeTrades {W} e.
Arguments world {W} e.

(** The figures of [getStatistics]; the three formatted fields hold the
    number that [toFixed(2)] prints. *)
Record Statistics : Type := mkStatistics {
  activeTradesCount : nat;
  closedTradesCount : nat;
  profitableTradesCount : nat;
  winRate : Q;
  totalPnL : Q;
  avgConfidence : Q
}.

(** [`${symbol}_${Date.now()}`]. *)
Definition trade_id (sym : string) (now : Z) : string :=
  (sym ++ "_" ++ NilZero.string_of_int (Z.to_int now))%string.

(** The P&L of leaving a trade at [exit]. *)
Definition pnl_at (t : ExecutedTrade) (exit : Q) : Q :=
  match type t with
  | BUY => (exit - entryPrice t) * quantity t
  | SELL => (entryPrice t - exit) * quantity t
  end.

Section Lifecycle.
Context {W : Type} `{ZerodhaClient W}.
Variable Math_sqrt : Q -> Q.
Variable config : AutomaticTradeConfig.

(** A strategy or gateway step run from inside the executor. *)
Definition liftW {A} (m : M (World W) A) : M (Executor W) A :=
  fun e =>
    let (r, w') := m (world e) in
    (r, mkExecutor (activeTrades e) w').

Definition activeTrades_set (k : string) (t : ExecutedTrade) : M (Executor W) unit :=
  modify (fun e => mkExecutor (JSMap.set (activeTrades e) k t) (world e)).

Definition activeTrades_delete (k : string) : M (Executor W) unit :=
  modify (fun e => mkExecutor (JSMap.delete (activeTrades e) k) (world e)).

Definition executeTrade (signal : UltimateStrategy.UltimateStrategySignal) (side : Side)
  : M (Executor W) ExecutedTrade :=
  try_catch
    (console_log ;;;
     await orderResponse <- liftW (zerodha_placeBracketOrder
       {| bo_symbol := UltimateStrategy.symbol signal;
          bo_quantity := cfg_quantity config;
          bo_side := side;
          bo_price := UltimateStrategy.price signal;
          bo_target := UltimateStrategy.target signal;
          bo_stoploss := UltimateStrategy.stoploss signal |}) ;;
     await now <- liftW new_Date ;;
     await created <- liftW new_Date ;;
     let trade :=
       {| id := trade_id (UltimateStrategy.symbol signal) now;
          symbol := UltimateStrategy.symbol signal;
          type := side;
          entryPrice := UltimateStrategy.price signal;
          quantity := cfg_quantity config;
          target := UltimateStrategy.target signal;
          stoploss := UltimateStrategy.stoploss signal;
          orderId := order_id orderResponse;
          status := EXECUTED;
          confidence := UltimateStrategy.confidence signal;
          createdAt := created;
          closedAt := None;
          exitPrice := None;
          pnl := None |} in
     activeTrades_set (id trade) trade ;;;
     console_log ;;;
     ret trade)
    (fun error => console_log ;;; throw error).

Definition executeTradeSignals : M (Executor W) (option ExecutedTrade) :=
  try_catch
    (await e <- get ;;
     if JS.geb (JS.num (JSMap.size (activeTrades e))) (cfg_maxOpenTrades config)
     then console_log ;;; ret None
     else
       await signal <- liftW (UltimateStrategy.analyzeSymbol Math_sqrt
                                (cfg_instrumentToken config) (cfg_symbol config)
                                (cfg_quantity config)) ;;
       console_log ;;;
       match UltimateStrategy.signal signal with
       | None => console_log ;;; ret None
       | Some side =>
           if JS.ltb (UltimateStrategy.confidence signal) (cfg_minConfidence config)
           then console_log ;;; ret None
           else
             await trade <- executeTrade signal side ;;
             ret (Some trade)
       end)
    (fun error => console_log ;;; throw error).

(** The body of the [for ... of this.activeTrades] loop for one entry;
    [closedTrades] is the array being filled. *)
Definition monitor_step (closedTrades : list ExecutedTrade) (entry : string * ExecutedTrade)
  : M (Executor W) (list ExecutedTrade) :=
  let (tradeId, trade) := entry in
  try_catch
    (await positions <- liftW zerodha_getPositions ;;
     match find (fun p => (instrument_token p =? cfg_instrumentToken config)%Z) positions with
     | None =>
         await now <- liftW new_Date ;;
         let trade' := set_closedAt now (set_status CLOSED trade) in
         activeTrades_delete tradeId ;;;
         ret (closedTrades ++ [trade'])
     | Some position =>
         (if JS.eqb (position_quantity position) 0
          then activeTrades_set tradeId (set_status FILLED trade)
          else ret tt) ;;;
         ret closedTrades
     end)
    (fun error => console_log ;;; ret closedTrades).

Fixpoint monitor_loop (closedTrades : list ExecutedTrade)
  (entries : list (string * ExecutedTrade)) : M (Executor W) (list ExecutedTrade) :=
  match entries with
  | [] => ret closedTrades
  | entry :: rest =>
      await closedTrades' <- monitor_step closedTrades entry ;;
      monitor_loop closedTrades' rest
  end.

Definition monitorActiveTrades : M (Executor W) (list ExecutedTrade) :=
  await e <- get ;;
  monitor_loop [] (activeTrades e).

Definition getActiveTrades (e : Executor W) : list ExecutedTrade :=
  JSMap.values (activeTrades e).

Definition getTradeHistory : M (Executor W) (list ExecutedTrade) :=
  await e <- get ;;
  ret (getActiveTrades e).

Definition closeTrade (tradeId : string) : M (Executor W) bool :=
  try_catch
    (await e <- get ;;
     match JSMap.get (activeTrades e) tradeId with
     | None => throw (mkError ("Trade " ++ tradeId ++ " not found"))
     | Some trade =>
         await quote <- liftW (zerodha_getQuote [cfg_instrumentToken config]) ;;
         let exit := lastPriceOr0 quote (cfg_instrumentToken config) in
         let pnlValue := pnl_at trade exit in
         await now <- liftW new_Date ;;
         let trade' :=
           set_closedAt now (set_pnl pnlValue (set_exitPrice exit (set_status CLOSED trade))) in
         activeTrades_set tradeId trade' ;;;
         liftW (zerodha_cancelOrder (orderId trade')) ;;;
         activeTrades_delete tradeId ;;;
         console_log ;;;
         ret true
     end)
    (fun error => console_log ;;; throw error).

(** [if (trade.pnl) totalPnL += trade.pnl]: an absent or zero P&L is falsy. *)
Definition add_pnl (totalPnL : Q) (trade : ExecutedTrade) : Q :=
  match pnl trade with
  | Some p => if JS.eqb p 0 then totalPnL else totalPnL + p
  | None => totalPnL
  end.

Definition calculateTotalPnL (e : Executor W) : Q :=
  fold_left add_pnl (JSMap.values (activeTrades e)) 0.

(** [t.pnl && t.pnl > 0]. *)
Definition is_profitable (t : ExecutedTrade) : bool :=
  match pnl t with
  | Some p => JS.gtb p 0
  | None => false
  end.

Definition getStatistics (e : Executor W) : Statistics :=
  let trades := JSMap.values (activeTrades e) in
  let closedTrades := filter (fun t => Status_eqb (status t) CLOSED) trades in
  let profitableTrades := filter is_profitable closedTrades in
  let total := calculateTotalPnL e in
  let rate :=
    if (0 <? List.length closedTrades)%nat
    then (JS.num (List.length profitableTrades) / JS.num (List.length closedTrades)) * 100
    else 0 in
  let avg :=
    if (0 <? List.length trades)%nat
    then fold_left (fun sum t => sum + confidence t) trades 0 / JS.num (List.length trades)
    else 0 in
  {| activeTradesCount :=
       List.length (filter (fun t => negb (Status_eqb (status t) CLOSED)) trades);
     closedTradesCount := List.length closedTrades;
     profitableTradesCount := List.length profitableTrades;
     winRate := JS.toFixed2 rate;
     totalPnL := JS.toFixed2 total;
     avgConfidence := JS.toFixed2 avg |}.

End Lifecycle.

End AutomaticTradeExecutor.

(** ** The MACD detector as the specification words it

    The signal line is the 9-period EMA of the rolling MACD-line history, the
    MACD line being taken on every prefix of the closes. *)

Module MACDSpec.

Definition macdLine (closes : list Q) : Q :=
  SignalDetectionService.calculateEMA closes 12 - SignalDetectionService.calculateEMA closes 26.

(** The non-empty prefixes of a series, shortest first. *)
Definition prefixes {A} (xs : list A) : list (list A) :=
  map (fun n => firstn n xs) (seq 1 (List.length xs)).

Definition macdHistory (closes : list Q) : list Q := map macdLine (prefixes closes).

Definition macdSignal (closes : list Q) : Q :=
  SignalDetectionService.calculateEMA (macdHistory closes) 9.

Definition detectMACD (candles : list Candle) : Signal :=
  if (List.length candles <? 26)%nat then None
  else
    let closes := map close candles in
    let prevCloses := JS.slice_init closes in
    let macd := macdLine closes in
    let signal := macdSignal closes in
    let prevMACD := macdLine prevCloses in
    let prevSignal := macdSignal prevCloses in
    if JS.leb prevMACD prevSignal && JS.gtb macd signal then Some BUY
    else if JS.geb prevMACD prevSignal && JS.ltb macd signal then Some SELL
    else None.

End MACDSpec.

(** ** Sample market data *)

Module Samples.

(** A candle that opens, trades and closes at one price. *)
Definition flat (t : Z) (p : Q) : Candle := mkCandle t p p p p 1.

Definition flat_series (ps : list Q) : list Candle := map (flat 0) ps.

(** Twenty-six closes at 100 followed by a close at 110: the MACD line leaves
    zero while its signal line lags behind. *)
Definition macd_cross : list Candle := flat_series (repeat 100 26 ++ [110]).

(** Fifteen strictly increasing closes. *)
Definition rising15 : list Candle :=
  flat_series [1; 2; 3; 4; 5; 6; 7; 8; 9; 10; 11; 12; 13; 14; 15].

(** The two candles of the specification's ATR scenario. *)
Definition atr_pair : list Candle :=
  [ mkCandle 0 9 10 8 9 1; mkCandle 1 9 12 9 11 1 ].

(** Fourteen candles, each ranging from 9 to 12 and closing at 11. *)
Definition fourteen : list Candle := repeat (mkCandle 0 10 12 9 11 1) 14.

(** [Math.sqrt] to six decimal places, for evaluating the Bollinger detector
    on sample data. *)
Definition sqrt6 (x : Q) : Q :=
  inject_Z (Z.sqrt (Qfloor (x * 1000000000000))) / 1000000.

(** Hourly candles on which the eight detectors that can fire all say BUY,
    with a 14-period ATR of exactly 2 and a last close of 100:
    closes 195, then 12 at 105, 8 at 106, and a final 100 on high volume. *)
Definition hourly_buy : list Candle :=
  [ mkCandle 0 195 195 195 195 1000 ]
  ++ map (fun t => mkCandle t 105 105 105 105 1000) [1; 2; 3; 4; 5; 6; 7]%Z
  ++ map (fun t => mkCandle t 105 (1062 # 10) (1038 # 10) 105 1000) [8; 9; 10; 11; 12]%Z
  ++ [ mkCandle 13 106 106 106 106 1000 ]
  ++ map (fun t => mkCandle t 106 107 105 106 1000) [14; 15; 16]%Z
  ++ [ mkCandle 17 106 (1061 # 10) (1056 # 10) 106 1000;
       mkCandle 18 106 (1062 # 10) (1057 # 10) 106 1000;
       mkCandle 19 106 (1063 # 10) (1058 # 10) 106 1000;
       mkCandle 20 106 (1064 # 10) (1059 # 10) 106 1000;
       mkCandle 21 99 100 99 100 5000 ].

(** Fifteen-minute candles on which the MA crossover (5, 13) and the RSI
    both say BUY. *)
Definition quarter_buy : list Candle :=
  flat_series ([200; 200] ++ repeat 100 12 ++ [101]).

End Samples.

(** ** A scripted gateway, for running the engine on concrete data *)

Module Sim.

Record Host : Type := mkHost {
  clock : Z;
  candles_hour : Outcome (list Candle);
  candles_15minute : Outcome (list Candle);
  quotes : list (Outcome (Z -> option Quote));
  positions : list (Outcome (list Position));
  order : Outcome OrderResponse;
  cancel : Outcome unit
}.

(** Successive [getQuote] requests are answered from the script; an
    exhausted script answers with an empty quote object. *)
Definition sim_getQuote (tokens : list Z) (h : Host)
  : Outcome (Z -> option Quote) * Host :=
  match quotes h with
  | [] => (Resolved (fun _ => None), h)
  | r :: rest =>
      (r, mkHost (clock h) (candles_hour h) (candles_15minute h) rest (positions h)
                 (order h) (cancel h))
  end.

(** Successive [getPositions] requests are answered from the script; an
    exhausted script answers with no positions. *)
Definition sim_getPositions (h : Host) : Outcome (list Position) * Host :=
  match positions h with
  | [] => (Resolved [], h)
  | r :: rest =>
      (r, mkHost (clock h) (candles_hour h) (candles_15minute h) (quotes h) rest
                 (order h) (cancel h))
  end.

Definition sim_getHistoricalData (token : Z) (interval : string) (fromDate toDate : Z)
  (h : Host) : Outcome (list Candle) * Host :=
  if String.eqb interval "hour" then (candles_hour h, h) else (candles_15minute h, h).

(** The clock advances by one millisecond at every reading. *)
Definition sim_now (h : Host) : Z * Host :=
  (clock h,
   mkHost (clock h + 1) (candles_hour h) (candles_15minute h) (quotes h) (positions h)
          (order h) (cancel h)).

#[global] Instance client : ZerodhaClient Host := {|
  getPositions := sim_getPositions;
  getQuote := sim_getQuote;
  getHistoricalData := sim_getHistoricalData;
  placeBracketOrder := fun _ h => (order h, h);
  cancelOrder := fun _ h => (cancel h, h);
  Date_now := sim_now
|}.

Definition quote_at (p : Q) : Outcome (Z -> option Quote) :=
  Resolved (fun _ => Some (mkQuote p)).

Definition networkError : Error := mkError "Network Error".

(** A market in which the strategy says BUY at 80% confidence; successive
    quotes are [prices], orders are answered by [ordered], cancellations by
    [cancelled] and position queries by [script]. *)
Definition buy_market (prices : list Q) (ordered : Outcome OrderResponse)
  (cancelled : Outcome unit) (script : list (Outcome (list Position))) : Host :=
  {| clock := 1700000000000;
     candles_hour := Resolved Samples.hourly_buy;
     candles_15minute := Resolved Samples.quarter_buy;
     quotes := map quote_at prices;
     positions := script;
     order := ordered;
     cancel := cancelled |}.

Definition accepted : Outcome OrderResponse := Resolved (mkOrderResponse "ORD1").

Definition config : AutomaticTradeExecutor.AutomaticTradeConfig :=
  {| AutomaticTradeExecutor.cfg_symbol := "RELIANCE";
     AutomaticTradeExecutor.cfg_instrumentToken := 738561;
     AutomaticTradeExecutor.cfg_quantity := 1;
     AutomaticTradeExecutor.cfg_minConfidence := 80;
     AutomaticTradeExecutor.cfg_maxRiskPerTrade := 2;
     AutomaticTradeExecutor.cfg_maxOpenTrades := 5 |}.

(** A freshly constructed executor talking to host [h]. *)
Definition fresh (h : Host) : AutomaticTradeExecutor.Executor Host :=
  AutomaticTradeExecutor.mkExecutor [] (mkWorld h []).

(** One analysis of the configured symbol in the BUY market quoted at [p]. *)
Definition analysis (p : Q)
  : Outcome UltimateStrategy.UltimateStrategySignal * World Host :=
  UltimateStrategy.analyzeSymbol Samples.sqrt6 738561 "RELIANCE" 1
    (mkWorld (buy_market [p] accepted (Resolved tt) []) []).

(** One run of the execution loop on a fresh executor: the BUY quoted at 100
    is executed.  A later quote is 110. *)
Definition execute_once (cancelled : Outcome unit)
  (script : list (Outcome (list Position)))
  : Outcome (option AutomaticTradeExecutor.ExecutedTrade)
    * AutomaticTradeExecutor.Executor Host :=
  AutomaticTradeExecutor.executeTradeSignals Samples.sqrt6 config
    (fresh (buy_market [100; 110] accepted cancelled script)).

(** The executor after that run, holding one open trade. *)
Definition opened (cancelled : Outcome unit) (script : list (Outcome (list Position)))
  : AutomaticTradeExecutor.Executor Host :=
  snd (execute_once cancelled script).

(** The identifier of that trade. *)
Definition opened_id : string := "RELIANCE_1700000000005".

End Sim.

(** ** Counting opinions *)

(** The number of opinions in favour of direction [d]. *)
Definition votes (d : Side) (vs : list Signal) : nat :=
  List.length
    (filter (fun v => match v with Some x => Side_eqb x d | None => false end) vs).

(** ** Statistics as the specification words them

    Win rate over every trade ever closed, average confidence over the full
    tracked set (active and closed), total P&L over every trade that has one. *)

Module StatisticsSpec.

Import AutomaticTradeExecutor.

Definition winRate (closed : list ExecutedTrade) : Q :=
  match closed with
  | [] => 0
  | _ => JS.num (List.length (filter is_profitable closed))
         / JS.num (List.length closed) * 100
  end.

Definition avgConfidence (active closed : list ExecutedTrade) : Q :=
  match active ++ closed with
  | [] => 0
  | tracked => JS.sum (map confidence tracked) / JS.num (List.length tracked)
  end.

Definition totalPnL (active closed : list ExecutedTrade) : Q :=
  JS.sum (flat_map (fun t => match pnl t with Some p => [p] | None => [] end)
                   (active ++ closed)).

End StatisticsSpec.

(** ** Observing the gateway *)

(** The gateway operation [op] answered with [a] in some state of the host. *)
Definition answers {W A} (op : W -> Outcome A * W) (a : A) : Prop :=
  exists h h', op h = (Resolved a, h').


(** A request logged in [new] was rejected with [err]. *)
Definition failed_with (new : list LoggedCall) (err : Error) : Prop :=
  exists c, In (mkLogged c (Some err)) new.

(** A computation reports gateway failures when every request it makes is
    appended to the log and a rejected request makes it reject with the very
    error of that request. *)
Definition reports_failures {S A} (log : S -> list LoggedCall) (m : M S A) : Prop :=
  forall s r s', m s = (r, s') ->
    exists new, log s' = log s ++ new
                /\ forall err, failed_with new err -> r = Rejected err.

(** A computation that leaves the map of active trades as it found it. *)
Definition keeps_trades {W A} (m : M (AutomaticTradeExecutor.Executor W) A) : Prop :=
  forall e r e', m e = (r, e') ->
    AutomaticTradeExecutor.activeTrades e' = AutomaticTradeExecutor.activeTrades e.

(** A computation whose rejection leaves the map of active trades as it
    found it. *)
Definition atomic {W A} (m : M (AutomaticTradeExecutor.Executor W) A) : Prop :=
  forall e err e', m e = (Rejected err, e') ->
    AutomaticTradeExecutor.activeTrades e' = AutomaticTradeExecutor.activeTrades e.

(** A computation that always resolves. *)
Definition never_rejects {S A} (m : M S A) : Prop :=
  forall s r s', m s = (r, s') -> exists a, r = Resolved a.

(** The request log of an executor. *)
Definition exec_log {W} (e : AutomaticTradeExecutor.Executor W) : list LoggedCall :=
  calls (AutomaticTradeExecutor.world e).

(** ** services/options-trading.ts: OptionsTradeService *)

Module OptionsTradeService.

Inductive OptionType : Type := CE | PE.
Inductive ExpiryType : Type := WEEKLY | MONTHLY.

Record Greeks : Type := mkGreeks {
  delta : Q;
  gamma : Q;
  theta : Q;
  vega : Q;
  rho : Q
}.

Record OptionContract : Type := mkContract {
  symbol : string;
  baseSymbol : string;
  optionType : OptionType;
  strikePrice : Q;
  expiryType : ExpiryType;
  expiryDate : string;
  instrumentToken : Z;
  currentPrice : Q;
  impliedVolatility : Q;
  greeks : Greeks;
  bid : Q;
  ask : Q;
  openInterest : Q;
  volume : Q
}.

Inductive StrategyType : Type :=
| BULL_CALL | BEAR_CALL | BULL_PUT | BEAR_PUT | IRON_CONDOR | STRADDLE | STRANGLE.

(** A number that may be [Infinity]. *)
Inductive Amount : Type :=
| Finite (q : Q)
| Infinity.

Record OptionsStrategy : Type := mkStrategy {
  name : string;
  type : StrategyType;
  description : string;
  maxProfit : Amount;
  maxLoss : Q;
  breakEvenLow : Q;
  breakEvenHigh : Q;
  contracts : list OptionContract;
  netDebit : Q;
  netCredit : Q
}.






Inductive MarketTrend : Type := MT_BUY | MT_SELL | MT_NEUTRAL.

Definition suggestStrategy (marketTrend : MarketTrend) (volatility basePrice : Q)
  (currentOptions : list OptionContract) : list string :=
  match marketTrend with
  | MT_BUY =>
      ["BULL_CALL - Good risk/reward in bullish market"%string]
      ++ (if JS.gtb volatility 30
          then ["BULL_CALL_SPREAD - Reduce cost in high IV environment"%string] else [])
  | MT_SELL =>
      ["BEAR_CALL - Good risk/reward in bearish market"%string]
      ++ (if JS.gtb volatility 30
          then ["BEAR_CALL_SPREAD - Reduce cost in high IV environment"%string] else [])
  | MT_NEUTRAL =>
      ["IRON_CONDOR - Best for range-bound markets"%string]
      ++ (if JS.gtb volatility 35
          then ["SHORT_STRADDLE - High IV great for selling premium"%string] else [])
      ++ (if JS.ltb volatility 15
          then ["LONG_STRADDLE - Low IV good for high-risk traders"%string] else [])
  end.

Section Builders.
(** The conversion of a number to a string inside a template literal. *)
Variable Number_toString : Q -> string.


Definition createIronCondor (longCall shortCall longPut shortPut : OptionContract)
  : OptionsStrategy :=
  let callSpreadWidth := strikePrice shortCall - strikePrice longCall in
  let putSpreadWidth := strikePrice shortPut - strikePrice longPut in
  let totalCredit :=
    currentPrice shortCall + currentPrice shortPut
    - currentPrice longCall - currentPrice longPut in
  let maxProfit := totalCredit in
  let maxLoss := Qmax callSpreadWidth putSpreadWidth - totalCredit in
  let lowerBreakEven := strikePrice shortPut - totalCredit in
  let upperBreakEven := strikePrice shortCall + totalCredit in
  {| name := "Iron Condor";
     type := IRON_CONDOR;
     description :=
       ("Sell " ++ Number_toString (strikePrice shortCall) ++ " CE, Buy "
        ++ Number_toString (strikePrice longCall) ++ " CE, Sell "
        ++ Number_toString (strikePrice shortPut) ++ " PE, Buy "
        ++ Number_toString (strikePrice longPut) ++ " PE")%string;
     maxProfit := Finite maxProfit;
     maxLoss := maxLoss;
     breakEvenLow := lowerBreakEven;
     breakEvenHigh := upperBreakEven;
     contracts := [longCall; shortCall; longPut; shortPut];
     netDebit := 0;
     netCredit := totalCredit |}.

Definition createStraddle (call put : OptionContract) : OptionsStrategy :=
  let totalCost := currentPrice call + currentPrice put in
  let lowerBreakEven := strikePrice call - totalCost in
  let upperBreakEven := strikePrice put + totalCost in
  {| name := "Long Straddle";
     type := STRADDLE;
     description :=
       ("Buy " ++ Number_toString (strikePrice call) ++ " CE, Buy "
        ++ Number_toString (strikePrice put) ++ " PE")%string;
     maxProfit := Infinity;
     maxLoss := totalCost;
     breakEvenLow := lowerBreakEven;
     breakEvenHigh := upperBreakEven;
     contracts := [call; put];
     netDebit := totalCost;
     netCredit := 0 |}.

End Builders.

End OptionsTradeService.

(** ** services/historical-data.ts: HistoricalDataService *)

Module HistoricalDataService.

Record HistoricalDataCache : Type := mkCache {
  symbol : string;
  instrumentToken : Z;
  interval : string;
  data : list Candle;
  lastUpdated : Z;
  expiryTime : Z
}.

(** The service object: its cache, whether it was given a Zerodha client, and
    the world it talks to. *)
Record Service (W : Type) : Type := mkService {
  cache : JSMap.t HistoricalDataCache;
  zerodhaClient : bool;
  world : World W
}.
Arguments mkService {W} cache zerodhaClient world.
Arguments cache {W} s.
Arguments zerodhaClient {W} s.
Arguments world {W} s.

(** [private cacheExpiry = 5 * 60 * 1000]. *)
Definition cacheExpiry : Z := (5 * 60 * 1000)%Z.

(** [`${symbol}_${interval}`]. *)
Definition cacheKey (sym itv : string) : string := (sym ++ "_" ++ itv)%string.

(** A string argument that is present and not empty. *)
Definition truthy (s : option string) : bool :=
  match s with
  | Some x => negb (String.eqb x "")
  | None => false
  end.

Definition text (s : option string) : string :=
  match s with
  | Some x => x
  | None => ""%string
  end.





Section Fetching.
Context {W : Type} `{ZerodhaClient W}.

Definition liftW {A} (m : M (World W) A) : M (Service W) A :=
  fun s =>
    let (r, w') := m (world s) in
    (r, mkService (cache s) (zerodhaClient s) w').

Definition cache_set (k : string) (c : HistoricalDataCache) : M (Service W) unit :=
  modify (fun s => mkService (JSMap.set (cache s) k c) (zerodhaClient s) (world s)).

(** [getDateBefore(days)], the same code as in the strategy. *)
Definition getDateBefore (days : Z) : M (World W) Z :=
  await now <- new_Date ;;
  ret (UltimateStrategy.dateBefore now days).

(** The fetch-and-cache part of [getHistoricalData], inside its
    [try]/[catch]: the error is logged and thrown again. *)
Definition fetchAndCache (token : Z) (sym itv : string) (daysBack : Z)
  : M (Service W) (list Candle) :=
  try_catch
    (await fromDate <- liftW (getDateBefore daysBack) ;;
     await toDate <- liftW new_Date ;;
     await fetched <- liftW (zerodha_getHistoricalData token itv fromDate toDate) ;;
     await updated <- liftW new_Date ;;
     cache_set (cacheKey sym itv)
       {| symbol := sym;
          instrumentToken := token;
          interval := itv;
          data := fetched;
          lastUpdated := updated;
          expiryTime := cacheExpiry |} ;;;
     ret fetched)
    (fun error => console_log ;;; throw error).

(** The clock is read for the freshness test only when an entry exists. *)
Definition getHistoricalData (token : Z) (sym itv : string) (daysBack : Z)
  : M (Service W) (list Candle) :=
  await s <- get ;;
  if negb (zerodhaClient s) then throw (mkError "Zerodha client not initialized")
  else
    match JSMap.get (cache s) (cacheKey sym itv) with
    | Some cached =>
        await now <- liftW new_Date ;;
        if (now <? lastUpdated cached + expiryTime cached)%Z
        then console_log ;;; ret (data cached)
        else fetchAndCache token sym itv daysBack
    | None => fetchAndCache token sym itv daysBack
    end.

Definition getIntradayData (token : Z) (sym itv : string) : M (Service W) (list Candle) :=
  getHistoricalData token sym itv 1.

Definition getSwingData (token : Z) (sym itv : string) : M (Service W) (list Candle) :=
  getHistoricalData token sym itv 5.

Definition getPositionalData (token : Z) (sym : string) : M (Service W) (list Candle) :=
  getHistoricalData token sym "day" 30.

(** [clearCache(symbol?, interval?)]. *)
Definition clearCache (sym itv : option string) (s : Service W) : Service W :=
  if truthy sym && truthy itv then
    mkService (JSMap.delete (cache s) (cacheKey (text sym) (text itv)))
              (zerodhaClient s) (world s)
  else if truthy sym then
    mkService (filter (fun kv => negb (String.prefix (text sym) (fst kv))) (cache s))
              (zerodhaClient s) (world s)
  else mkService [] (zerodhaClient s) (world s).

End Fetching.

End HistoricalDataService.

(** ** services/trading-engine.ts: TradingEngineService *)

Module TradingEngineService.

Record TradingSignal : Type := mkTradingSignal {
  sig_symbol : string;
  sig_action : Side;
  sig_entry : Q;
  sig_target : Q;
  sig_stoploss : Q;
  sig_quantity : Q;
  sig_confidence : Q;
  sig_reason : string;
  sig_timestamp : Z
}.

Inductive TradeStatus : Type :=
| PENDING | ENTRY_FILLED | TARGET_HIT | STOPLOSS_HIT | CANCELLED.

Record AutomaticTrade : Type := mkAutomaticTrade {
  id : string;
  symbol : string;
  action : Side;
  entryPrice : Q;
  targetPrice : Q;
  stoplossPrice : Q;
  quantity : Q;
  entryOrderId : option string;
  targetOrderId : option string;
  stoplossOrderId : option string;
  status : TradeStatus;
  profit : option Q;
  profitPercent : option Q;
  createdAt : Z;
  updatedAt : Z
}.

(** [trade.status = 'CANCELLED'; trade.updatedAt = new Date()]. *)
Definition cancelled_at (now : Z) (t : AutomaticTrade) : AutomaticTrade :=
  mkAutomaticTrade (id t) (symbol t) (action t) (entryPrice t) (targetPrice t)
    (stoplossPrice t) (quantity t) (entryOrderId t) (targetOrderId t) (stoplossOrderId t)
    CANCELLED (profit t) (profitPercent t) (createdAt t) now.

Record Engine (W : Type) : Type := mkEngine {
  activeTrades : JSMap.t AutomaticTrade;
  world : World W
}.
Arguments mkEngine {W} activeTrades world.
Arguments activeTrades {W} e.
Arguments world {W} e.

Definition calculateRiskReward (entry target stoploss : Q) : Q :=
  let reward := Qabs (target - entry) in
  let risk := Qabs (entry - stoploss) in
  if JS.gtb risk 0 then reward / risk else 0.

(** [`TRADE_${Date.now()}`]. *)
Definition trade_id (now : Z) : string :=
  ("TRADE_" ++ NilZero.string_of_int (Z.to_int now))%string.

Section Engine.
Context {W : Type} `{ZerodhaClient W}.

Definition liftW {A} (m : M (World W) A) : M (Engine W) A :=
  fun e =>
    let (r, w') := m (world e) in
    (r, mkEngine (activeTrades e) w').

Definition activeTrades_set (k : string) (t : AutomaticTrade) : M (Engine W) unit :=
  modify (fun e => mkEngine (JSMap.set (activeTrades e) k t) (world e)).

(** The six arguments of the [placeBracketOrder] call are the six fields of
    the order.  Every error is caught, logged and turned into [null]. *)
Definition executeSignal (signal : TradingSignal) : M (Engine W) (option AutomaticTrade) :=
  try_catch
    (let riskReward :=
       calculateRiskReward (sig_entry signal) (sig_target signal) (sig_stoploss signal) in
     if JS.ltb riskReward (3 # 2) then console_log ;;; ret None
     else
       await orderResponse <- liftW (zerodha_placeBracketOrder
         {| bo_symbol := sig_symbol signal;
            bo_quantity := sig_quantity signal;
            bo_side := sig_action signal;
            bo_price := sig_entry signal;
            bo_target := sig_target signal;
            bo_stoploss := sig_stoploss signal |}) ;;
       await now <- liftW new_Date ;;
       await created <- liftW new_Date ;;
       await updated <- liftW new_Date ;;
       let trade :=
         {| id := trade_id now;
            symbol := sig_symbol signal;
            action := sig_action signal;
            entryPrice := sig_entry signal;
            targetPrice := sig_target signal;
            stoplossPrice := sig_stoploss signal;
            quantity := sig_quantity signal;
            entryOrderId := Some (order_id orderResponse);
            targetOrderId := None;
            stoplossOrderId := None;
            status := PENDING;
            profit := None;
            profitPercent := None;
            createdAt := created;
            updatedAt := updated |} in
       activeTrades_set (id trade) trade ;;;
       ret (Some trade))
    (fun error => console_log ;;; ret None).

Definition getActiveTrades (e : Engine W) : list AutomaticTrade :=
  JSMap.values (activeTrades e).

(** [!trade || !trade.entryOrderId]: an empty order id is as falsy as a
    missing one. *)
Definition cancelTrade (tradeId : string) : M (Engine W) bool :=
  try_catch
    (await e <- get ;;
     match JSMap.get (activeTrades e) tradeId with
     | None => ret false
     | Some trade =>
         match entryOrderId trade with
         | None => ret false
         | Some orderId =>
             if String.eqb orderId "" then ret false
             else
               liftW (zerodha_cancelOrder orderId) ;;;
               await now <- liftW new_Date ;;
               activeTrades_set tradeId (cancelled_at now trade) ;;;
               ret true
         end
     end)
    (fun error => console_log ;;; ret false).

End Engine.

End TradingEngineService.

(** ** Sample option contracts *)

Module OptionSamples.
Import OptionsTradeService.

Definition no_greeks : Greeks := mkGreeks 0 0 0 0 0.

Definition contract (t : OptionType) (strike premium : Q) : OptionContract :=
  {| symbol := "NIFTY"; baseSymbol := "NIFTY"; optionType := t;
     strikePrice := strike; expiryType := WEEKLY; expiryDate := "2024-01-25";
     instrumentToken := 0%Z; currentPrice := premium; impliedVolatility := 20;
     greeks := no_greeks; bid := premium; ask := premium;
     openInterest := 0; volume := 0 |}.

(** An iron condor around 2750 with a call wing of 200 and a put wing of 100. *)
Definition longCall : OptionContract := contract CE 3000 5.
Definition shortCall : OptionContract := contract CE 2800 20.
Definition longPut : OptionContract := contract PE 2600 4.
Definition shortPut : OptionContract := contract PE 2700 18.

End OptionSamples.

(** ** Sample data for the market analysis *)

Module MarketSamples.

(** Fifty candles closing at 100, 101, ..., 149. *)
Definition rising50 : list Candle :=
  Samples.flat_series (map (fun k => inject_Z (Z.of_nat k)) (seq 100 50)).

(** Forty-nine candles closing at 1 and a last one closing at 2. *)
Definition late_rise : list Candle := Samples.flat_series (repeat 1 49 ++ [2]).

End MarketSamples.

(** ** A historical-data service on the scripted gateway *)

Module HistorySamples.

(** A service constructed with a client, its cache empty, talking to [h]. *)
Definition fresh (h : Sim.Host) : HistoricalDataService.Service Sim.Host :=
  HistoricalDataService.mkService [] true (mkWorld h []).

(** The scripted BUY market. *)
Definition market : Sim.Host := Sim.buy_market [] Sim.accepted (Resolved tt) [].

(** A gateway that rejects every candle request with a network error. *)
Definition offline : Sim.Host :=
  {| Sim.clock := 1700000000000;
     Sim.candles_hour := Rejected Sim.networkError;
     Sim.candles_15minute := Rejected Sim.networkError;
     Sim.quotes := [];
     Sim.positions := [];
     Sim.order := Sim.accepted;
     Sim.cancel := Resolved tt |}.

(** The service after one successful request for RELIANCE hourly candles. *)
Definition warmed : HistoricalDataService.Service Sim.Host :=
  snd (HistoricalDataService.getHistoricalData 738561 "RELIANCE" "hour" 5 (fresh market)).

(** A cache holding daily candles for NIFTY, NIFTYBANK and TCS. *)
Definition entry (sym : string) : string * HistoricalDataService.HistoricalDataCache :=
  (HistoricalDataService.cacheKey sym "day",
   HistoricalDataService.mkCache sym 0 "day" [] 1700000000000
     HistoricalDataService.cacheExpiry).

Definition three_symbols : HistoricalDataService.Service Sim.Host :=
  HistoricalDataService.mkService [entry "NIFTY"; entry "NIFTYBANK"; entry "TCS"] true
    (mkWorld market []).

End HistorySamples.

(** ** A trading engine on the scripted gateway *)

Module EngineSamples.

(** BUY 1 RELIANCE at 100, target 104, stoploss 98: a risk/reward of 2. *)
Definition buy_signal : TradingEngineService.TradingSignal :=
  {| TradingEngineService.sig_symbol := "RELIANCE";
     TradingEngineService.sig_action := BUY;
     TradingEngineService.sig_entry := 100;
     TradingEngineService.sig_target := 104;
     TradingEngineService.sig_stoploss := 98;
     TradingEngineService.sig_quantity := 1;
     TradingEngineService.sig_confidence := 80;
     TradingEngineService.sig_reason := "consensus";
     TradingEngineService.sig_timestamp := 1700000000000 |}.

(** SELL 2 TCS at 200, target 190, stoploss 205. *)
Definition sell_signal : TradingEngineService.TradingSignal :=
  {| TradingEngineService.sig_symbol := "TCS";
     TradingEngineService.sig_action := SELL;
     TradingEngineService.sig_entry := 200;
     TradingEngineService.sig_target := 190;
     TradingEngineService.sig_stoploss := 205;
     TradingEngineService.sig_quantity := 2;
     TradingEngineService.sig_confidence := 80;
     TradingEngineService.sig_reason := "consensus";
     TradingEngineService.sig_timestamp := 1700000000000 |}.

(** A freshly constructed engine talking to the scripted BUY market. *)
Definition fresh : TradingEngineService.Engine Sim.Host :=
  TradingEngineService.mkEngine []
    (mkWorld (Sim.buy_market [] Sim.accepted (Resolved tt) []) []).

(** The engine after executing the BUY signal. *)
Definition bought : TradingEngineService.Engine Sim.Host :=
  snd (TradingEngineService.executeSignal buy_signal fresh).

(** A gateway whose clock stands still: every reading falls into the same
    millisecond. *)
Record StillHost : Type := mkStill { still : Sim.Host }.

Definition still_client : ZerodhaClient StillHost := {|
  getPositions := fun h => let (r, h') := Sim.sim_getPositions (still h) in (r, mkStill h');
  getQuote := fun tokens h =>
    let (r, h') := Sim.sim_getQuote tokens (still h) in (r, mkStill h');
  getHistoricalData := fun token interval fromDate toDate h =>
    let (r, h') := Sim.sim_getHistoricalData token interval fromDate toDate (still h) in
    (r, mkStill h');
  placeBracketOrder := fun _ h => (Sim.order (still h), h);
  cancelOrder := fun _ h => (Sim.cancel (still h), h);
  Date_now := fun h => (Sim.clock (still h), h)
|}.

Definition fresh_still : TradingEngineService.Engine StillHost :=
  TradingEngineService.mkEngine []
    (mkWorld (mkStill (Sim.buy_market [] Sim.accepted (Resolved tt) [])) []).

End EngineSamples.

(** * Properties *)

(** ** Numbers and arrays *)

Lemma ltb_lt (x y : Q) : JS.ltb x y = true <-> x < y.
Proof.
  unfold JS.ltb. rewrite negb_true_iff, <- not_true_iff_false, Qle_bool_iff.
  split; [apply Qnot_le_lt | apply Qlt_not_le].
Qed.

Lemma ltb_ge (x y : Q) : JS.ltb x y = false <-> y <= x.
Proof.
  unfold JS.ltb. rewrite negb_false_iff. apply Qle_bool_iff.
Qed.

Lemma gtb_gt (x y : Q) : JS.gtb x y = true <-> y < x.
Proof. apply ltb_lt. Qed.

Lemma leb_le (x y : Q) : JS.leb x y = true <-> x <= y.
Proof. apply Qle_bool_iff. Qed.

Lemma eqb_eq (x y : Q) : JS.eqb x y = true <-> x == y.
Proof. apply Qeq_bool_iff. Qed.

Lemma eqb_neq (x y : Q) : JS.eqb x y = false <-> ~ x == y.
Proof.
  unfold JS.eqb. split.
  - intros E Heq. apply Qeq_bool_iff in Heq. congruence.
  - intros N. destruct (Qeq_bool x y) eqn:E; [|reflexivity].
    apply Qeq_bool_iff in E. contradiction.
Qed.

Lemma ltb_irrefl (x : Q) : JS.ltb x x = false.
Proof. apply ltb_ge, Qle_refl. Qed.

Lemma gtb_irrefl (x : Q) : JS.gtb x x = false.
Proof. apply ltb_irrefl. Qed.

Lemma num_pos (n : nat) : (1 <= n)%nat -> 0 < JS.num n.
Proof.
  intros Hn. unfold JS.num. change 0 with (inject_Z 0).
  rewrite <- Zlt_Qlt. lia.
Qed.

Lemma fold_plus_nonneg (xs : list Q) (a : Q) :
  0 <= a -> Forall (fun x => 0 <= x) xs -> 0 <= fold_left Qplus xs a.
Proof.
  revert a. induction xs as [|x xs IH]; intros a Ha Hxs; simpl.
  - exact Ha.
  - inversion Hxs; subst. apply IH; [lra | assumption].
Qed.

Lemma sum_nonneg (xs : list Q) : Forall (fun x => 0 <= x) xs -> 0 <= JS.sum xs.
Proof. apply fold_plus_nonneg. lra. Qed.

Lemma Forall_slice_last {A} (P : A -> Prop) (n : nat) (xs : list A) :
  Forall P xs -> Forall P (JS.slice_last n xs).
Proof.
  intros Hxs. destruct n; simpl; [assumption|].
  rewrite Forall_forall in *. intros x Hx. apply Hxs.
  rewrite <- (firstn_skipn (List.length xs - S n) xs). apply in_or_app. now right.
Qed.

Lemma Forall_map_with_prev {A B} (P : B -> Prop) (f : A -> A -> B) (xs : list A) :
  (forall c prev, P (f c prev)) -> Forall P (JS.map_with_prev f xs).
Proof.
  intros Hf. unfold JS.map_with_prev. rewrite Forall_forall. intros y Hy.
  apply in_map_iff in Hy. destruct Hy as [[c prev] [<- _]]. apply Hf.
Qed.

Lemma div_nonneg (a b : Q) : 0 <= a -> 0 < b -> 0 <= a / b.
Proof.
  intros Ha Hb. apply Qle_shift_div_l; [assumption | lra].
Qed.

Lemma filter_none {A} (f : A -> bool) (xs : list A) :
  Forall (fun x => f x = false) xs -> filter f xs = [].
Proof.
  induction 1 as [|x xs Hx _ IH]; simpl; [reflexivity|]. now rewrite Hx.
Qed.

(** ** MACD *)

Lemma calculateEMA_single (x : Q) (period : nat) :
  SignalDetectionService.calculateEMA [x] period = x.
Proof. reflexivity. Qed.

(** Whatever the candles, the detector compares each MACD value with itself:
    its "signal line" is the EMA of a one-element array. *)
Lemma detectMACD_none (candles : list Candle) :
  SignalDetectionService.detectMACD candles = None.
Proof.
  unfold SignalDetectionService.detectMACD.
  destruct (List.length candles <? 26)%nat; [reflexivity|].
  cbv zeta. rewrite !calculateEMA_single, gtb_irrefl, ltb_irrefl, !andb_false_r.
  reflexivity.
Qed.

(** C4: on candle sequences of at least 26 candles the MACD detector should
    return BUY when the MACD line crosses above the EMA9 of its rolling
    history.  The code returns no signal on every input.  On
    [Samples.macd_cross] (27 candles) the MACD line and its signal line are
    both 0 on the previous window and the MACD line is above the signal line
    on the current one, so the detector worded as the specification does
    returns BUY, and the code returns nothing. *)
Theorem C4_detectMACD_never_fires :
  (forall candles, SignalDetectionService.detectMACD candles = None)
  /\ (26 <= List.length Samples.macd_cross)%nat
  /\ (let closes := map close Samples.macd_cross in
      let prevCloses := JS.slice_init closes in
      MACDSpec.macdLine prevCloses <= MACDSpec.macdSignal prevCloses
      /\ MACDSpec.macdSignal closes < MACDSpec.macdLine closes)
  /\ MACDSpec.detectMACD Samples.macd_cross = Some BUY
  /\ SignalDetectionService.detectMACD Samples.macd_cross = None.
Proof.
  split; [exact detectMACD_none|].
  split; [vm_compute; lia|].
  split.
  { cbv zeta. split; [apply leb_le | apply ltb_lt]; vm_compute; reflexivity. }
  split; [vm_compute; reflexivity | apply detectMACD_none].
Qed.

(** ** RSI *)

(** Without a negative change the average loss is 0, the guard sets RS to 0
    and the RSI comes out as 0. *)
Lemma calculateRSI_no_losses (candles : list Candle) (period : nat) :
  Forall (fun c => 0 <= c) (JS.map_with_prev (fun c prev => c - prev) (map close candles)) ->
  SignalDetectionService.calculateRSI candles period == 0.
Proof.
  intros Hup. unfold SignalDetectionService.calculateRSI. cbv zeta.
  rewrite (filter_none (fun c => JS.ltb c 0)).
  - change (JS.sum (map Qabs [])) with 0.
    assert (E : JS.eqb (0 / JS.num period) 0 = true).
    { apply eqb_eq. unfold Qdiv. ring. }
    rewrite E. reflexivity.
  - eapply Forall_impl; [|exact Hup]. intros c Hc. now apply ltb_ge.
Qed.

(** C5: RSI on a series without losses should be 100.  On every series
    without a negative change the detector's RSI is 0.  On fifteen strictly
    increasing closes at period 14 it is 0 (read as oversold, BUY), and the
    market-analysis RSI is 10000/101; neither is 100. *)
Theorem C5_rsi_without_losses :
  (forall candles period,
      Forall (fun c => 0 <= c)
             (JS.map_with_prev (fun c prev => c - prev) (map close candles)) ->
      SignalDetectionService.calculateRSI candles period == 0)
  /\ Forall (fun c => 0 < c)
            (JS.map_with_prev (fun c prev => c - prev) (map close Samples.rising15))
  /\ List.length Samples.rising15 = 15%nat
  /\ SignalDetectionService.calculateRSI Samples.rising15 14 == 0
  /\ SignalDetectionService.detectRSI Samples.rising15 14 = Some BUY
  /\ AIMarketAnalysisService.calculateRSI (map close Samples.rising15) 14 == 10000 # 101
  /\ ~ SignalDetectionService.calculateRSI Samples.rising15 14 == 100
  /\ ~ AIMarketAnalysisService.calculateRSI (map close Samples.rising15) 14 == 100.
Proof.
  split; [exact calculateRSI_no_losses|].
  split; [repeat constructor|].
  repeat split; try (vm_compute; reflexivity); vm_compute; discriminate.
Qed.

(** ** Average true range *)

Lemma max3_nonneg_r (a b c : Q) : 0 <= c -> 0 <= JS.max3 a b c.
Proof.
  intros Hc. unfold JS.max3. apply Qle_trans with c; [assumption | apply Q.le_max_r].
Qed.

Lemma trueRange_nonneg (c prev : Candle) : 0 <= UltimateStrategy.trueRange c prev.
Proof. apply max3_nonneg_r, Qabs_nonneg. Qed.

(** The strategy's ATR is never negative, on any candles. *)
Lemma calculateATR_nonneg (candles : list Candle) (period : nat) :
  (1 <= period)%nat -> 0 <= UltimateStrategy.calculateATR candles period.
Proof.
  intros Hp. unfold UltimateStrategy.calculateATR.
  destruct (List.length candles <? period)%nat; [lra|]. cbv zeta.
  apply div_nonneg; [|now apply num_pos].
  apply sum_nonneg, Forall_slice_last, Forall_map_with_prev, trueRange_nonneg.
Qed.

(** The strategy's guard: fewer candles than the period give 0. *)
Lemma calculateATR_below_period (candles : list Candle) (period : nat) :
  (List.length candles < period)%nat -> UltimateStrategy.calculateATR candles period = 0.
Proof.
  intros Hlen. unfold UltimateStrategy.calculateATR.
  apply Nat.ltb_lt in Hlen. now rewrite Hlen.
Qed.

Lemma candle_ok_range (c : Candle) : candle_ok c -> 0 <= high c - low c.
Proof.
  intros [Hh Hl].
  pose proof (Q.le_max_l (open c) (close c)).
  pose proof (Q.le_min_l (open c) (close c)).
  lra.
Qed.

Lemma trueRanges_nonneg (candles : list Candle) :
  Forall candle_ok candles ->
  Forall (fun x => 0 <= x) (AIMarketAnalysisService.trueRanges candles).
Proof.
  intros Hok. destruct candles as [|c0 rest]; simpl; [constructor|].
  constructor.
  - inversion Hok; subst. now apply candle_ok_range.
  - apply (Forall_map_with_prev (fun x => 0 <= x)), trueRange_nonneg.
Qed.

(** The two ATR variants that start from the first candle's own range are
    non-negative on candles that satisfy the candle invariant. *)
Lemma route_calculateATR_nonneg (candles : list Candle) (period : nat) :
  (1 <= period)%nat -> Forall candle_ok candles ->
  0 <= TradingRoutes.calculateATR candles period.
Proof.
  intros Hp Hok. unfold TradingRoutes.calculateATR. cbv zeta.
  apply div_nonneg; [|now apply num_pos].
  now apply sum_nonneg, Forall_slice_last, trueRanges_nonneg.
Qed.

Lemma analysis_calculateATR_nonneg (candles : list Candle) (period : nat) :
  (1 <= period)%nat -> Forall candle_ok candles ->
  0 <= AIMarketAnalysisService.calculateATR candles period.
Proof.
  intros Hp Hok. unfold AIMarketAnalysisService.calculateATR.
  destruct (List.length candles <? period)%nat; [lra|].
  now apply route_calculateATR_nonneg.
Qed.

Lemma candle_ok_dec (c : Candle) :
  JS.leb (Qmax (open c) (close c)) (high c) && JS.leb (low c) (Qmin (open c) (close c)) = true ->
  candle_ok c.
Proof.
  intros Hb. apply andb_true_iff in Hb. destruct Hb as [H1 H2].
  split; now apply leb_le.
Qed.

Lemma candles_ok_dec (candles : list Candle) :
  forallb (fun c => JS.leb (Qmax (open c) (close c)) (high c)
                    && JS.leb (low c) (Qmin (open c) (close c))) candles = true ->
  Forall candle_ok candles.
Proof.
  intros Hb. rewrite forallb_forall in Hb. apply Forall_forall.
  intros c Hc. apply candle_ok_dec, Hb, Hc.
Qed.

(** C6: ATR is non-negative and should be 0 whenever there are at most
    [period] candles.  The strategy's ATR is non-negative and is 0 below
    [period] candles, but with exactly [period] candles it is not 0: fourteen
    well-formed candles at period 14 give 39/14 (thirteen true ranges of 3,
    divided by 14), and the specification's two candles at period 2 give 3/2.
    The route helper has no guard at all: one candle at period 14 gives 1/7. *)
Theorem C6_atr_with_exactly_period_candles :
  (forall candles period,
      (1 <= period)%nat -> 0 <= UltimateStrategy.calculateATR candles period)
  /\ (forall candles period,
        (List.length candles < period)%nat ->
        UltimateStrategy.calculateATR candles period = 0)
  /\ Forall candle_ok Samples.fourteen
  /\ (List.length Samples.fourteen <= 14)%nat
  /\ UltimateStrategy.calculateATR Samples.fourteen 14 == 39 # 14
  /\ ~ UltimateStrategy.calculateATR Samples.fourteen 14 == 0
  /\ UltimateStrategy.calculateATR Samples.atr_pair 2 == 3 # 2
  /\ TradingRoutes.calculateATR [mkCandle 0 9 10 8 9 1] 14 == 1 # 7.
Proof.
  split; [exact calculateATR_nonneg|].
  split; [exact calculateATR_below_period|].
  split; [apply candles_ok_dec; vm_compute; reflexivity|].
  split; [vm_compute; lia|].
  repeat split; try (vm_compute; reflexivity).
  vm_compute. discriminate.
Qed.

(** ** Promises *)

Lemma try_catch_rethrow {S A} (m : M S A) (s : S) :
  try_catch m (fun error => console_log ;;; throw error) s = m s.
Proof.
  unfold try_catch, bind, console_log, ret, throw.
  destruct (m s) as [[a|e] s']; reflexivity.
Qed.

Lemma bind_resolved {S A B} (m : M S A) (k : A -> M S B) (s s' : S) (b : B) :
  bind m k s = (Resolved b, s') ->
  exists a s1, m s = (Resolved a, s1) /\ k a s1 = (Resolved b, s').
Proof.
  unfold bind. destruct (m s) as [[a|e] s1]; intros Hk; [eauto | discriminate].
Qed.

Lemma bind_rejected {S A B} (m : M S A) (k : A -> M S B) (s s' : S) (e : Error) :
  bind m k s = (Rejected e, s') ->
  m s = (Rejected e, s')
  \/ exists a s1, m s = (Resolved a, s1) /\ k a s1 = (Rejected e, s').
Proof.
  unfold bind. destruct (m s) as [[a|e0] s1]; intros Hk; [eauto | left; congruence].
Qed.

Lemma ret_run {S A} (a : A) (s : S) : ret a s = (Resolved a, s).
Proof. reflexivity. Qed.

Section GatewayFacts.
Context {W : Type} `{ZerodhaClient W}.

Lemma new_Date_run (w : World W) :
  new_Date w =
  (Resolved (fst (Date_now (host w))), mkWorld (snd (Date_now (host w))) (calls w)).
Proof. unfold new_Date. destruct (Date_now (host w)); reflexivity. Qed.

Lemma request_run {A} (c : GatewayCall) (op : W -> Outcome A * W) (w : World W) :
  request c op w =
  (fst (op (host w)),
   mkWorld (snd (op (host w)))
           (calls w ++ [mkLogged c (rejection (fst (op (host w))))])).
Proof. unfold request. destruct (op (host w)); reflexivity. Qed.

Lemma request_resolved {A} (c : GatewayCall) (op : W -> Outcome A * W)
  (w w' : World W) (a : A) :
  request c op w = (Resolved a, w') -> answers op a.
Proof.
  rewrite request_run. intros E. inversion E as [[Ha Hw]].
  exists (host w), (snd (op (host w))). destruct (op (host w)); simpl in *. now subst.
Qed.

(** A resolved analysis is [buildSignal] on what the gateway delivered: the
    hourly candles, the 15-minute candles and the quote. *)
Lemma analyzeSymbol_resolved (sqrt : Q -> Q) (token : Z) (sym : string) (qty : Q)
  (w w' : World W) (sig : UltimateStrategy.UltimateStrategySignal) :
  UltimateStrategy.analyzeSymbol sqrt token sym qty w = (Resolved sig, w') ->
  exists candles1h candles15m quote stamp,
    (exists fromDate toDate,
        answers (getHistoricalData token "hour" fromDate toDate) candles1h)
    /\ (exists fromDate toDate,
        answers (getHistoricalData token "15minute" fromDate toDate) candles15m)
    /\ answers (getQuote [token]) quote
    /\ sig = UltimateStrategy.buildSignal sqrt token sym candles1h candles15m
              (lastPriceOr0 quote token) stamp.
Proof.
  unfold UltimateStrategy.analyzeSymbol. rewrite try_catch_rethrow. intros Hrun.
  apply bind_resolved in Hrun. destruct Hrun as (from1h & ? & _ & Hrun).
  apply bind_resolved in Hrun. destruct Hrun as (to1h & ? & _ & Hrun).
  apply bind_resolved in Hrun. destruct Hrun as (candles1h & ? & E1 & Hrun).
  apply bind_resolved in Hrun. destruct Hrun as (from15m & ? & _ & Hrun).
  apply bind_resolved in Hrun. destruct Hrun as (to15m & ? & _ & Hrun).
  apply bind_resolved in Hrun. destruct Hrun as (candles15m & ? & E2 & Hrun).
  apply bind_resolved in Hrun. destruct Hrun as (quote & ? & E3 & Hrun).
  apply bind_resolved in Hrun. destruct Hrun as (stamp & ? & _ & Hrun).
  rewrite ret_run in Hrun. inversion Hrun; subst.
  apply request_resolved in E1, E2, E3.
  exists candles1h, candles15m, quote, stamp. eauto 8.
Qed.

End GatewayFacts.

(** ** Consensus *)

Lemma votes_cons (d : Side) (v : Signal) (vs : list Signal) :
  votes d (v :: vs) =
  ((match v with Some x => if Side_eqb x d then 1 else 0 | None => 0 end) + votes d vs)%nat.
Proof.
  unfold votes. simpl. destruct v as [x|]; [destruct (Side_eqb x d)|]; reflexivity.
Qed.

(** The two counters kept by [calculateConfidence] are the vote counts. *)
Lemma tally_fold (kvs : list (string * Signal)) (t : UltimateStrategy.Tally) :
  let t' := fold_left UltimateStrategy.tally_entry kvs t in
  UltimateStrategy.buySignals t' = (UltimateStrategy.buySignals t + votes BUY (map snd kvs))%nat
  /\ UltimateStrategy.sellSignals t' = (UltimateStrategy.sellSignals t + votes SELL (map snd kvs))%nat.
Proof.
  revert t. induction kvs as [|[k v] kvs IH]; intros t; simpl.
  - unfold votes; simpl. lia.
  - specialize (IH (UltimateStrategy.tally_entry t (k, v))). simpl in IH.
    rewrite !votes_cons. destruct IH as [IHb IHs]. rewrite IHb, IHs.
    unfold UltimateStrategy.tally_entry; simpl.
    destruct v as [[|]|]; simpl; lia.
Qed.

Lemma tally_votes (s : UltimateStrategy.AllSignals) :
  UltimateStrategy.buySignals (UltimateStrategy.tally s) = votes BUY (UltimateStrategy.values s)
  /\ UltimateStrategy.sellSignals (UltimateStrategy.tally s) = votes SELL (UltimateStrategy.values s).
Proof.
  unfold UltimateStrategy.tally, UltimateStrategy.values.
  pose proof (tally_fold (UltimateStrategy.entries s) (UltimateStrategy.mkTally 0 0 [])) as Ht.
  cbv zeta in Ht. destruct Ht as [Hb Hs]. rewrite Hb, Hs. split; reflexivity.
Qed.

(** So are the counters of [determineFinalSignal]. *)
Lemma count_value_fold (d : Side) (vs : list Signal) (a : nat) :
  fold_left (UltimateStrategy.count_value d) vs a = (a + votes d vs)%nat.
Proof.
  revert a. induction vs as [|v vs IH]; intros a; simpl.
  - unfold votes; simpl. lia.
  - rewrite IH, votes_cons. unfold UltimateStrategy.count_value.
    destruct v as [x|]; [destruct (Side_eqb x d)|]; lia.
Qed.

Lemma ten_opinions (s : UltimateStrategy.AllSignals) :
  List.length (UltimateStrategy.values s) = 10%nat
  /\ List.length (UltimateStrategy.keys s) = 10%nat.
Proof. split; reflexivity. Qed.

Lemma confidence_of_votes (s : UltimateStrategy.AllSignals) :
  let b := votes BUY (UltimateStrategy.values s) in
  let c := votes SELL (UltimateStrategy.values s) in
  fst (UltimateStrategy.calculateConfidence s) =
  if (c <? b)%nat then JS.num b / JS.num 10 * 100
  else if (b <? c)%nat then JS.num c / JS.num 10 * 100
  else 0.
Proof.
  unfold UltimateStrategy.calculateConfidence. cbv zeta.
  destruct (tally_votes s) as [-> ->]. reflexivity.
Qed.

Lemma final_of_votes (s : UltimateStrategy.AllSignals) (confidence : Q) :
  let b := votes BUY (UltimateStrategy.values s) in
  let c := votes SELL (UltimateStrategy.values s) in
  UltimateStrategy.determineFinalSignal s confidence =
  if JS.ltb confidence 80 then None
  else if (c <? b)%nat then Some BUY
  else if (b <? c)%nat then Some SELL
  else None.
Proof.
  unfold UltimateStrategy.determineFinalSignal. cbv zeta.
  rewrite !count_value_fold. reflexivity.
Qed.

Lemma buildSignal_fields (sqrt : Q -> Q) (token : Z) (sym : string)
  (candles1h candles15m : list Candle) (p : Q) (stamp : Z) :
  let s := UltimateStrategy.runAllSignals sqrt candles1h candles15m in
  let sig := UltimateStrategy.buildSignal sqrt token sym candles1h candles15m p stamp in
  UltimateStrategy.confidence sig = fst (UltimateStrategy.calculateConfidence s)
  /\ UltimateStrategy.signal sig =
     UltimateStrategy.determineFinalSignal s (fst (UltimateStrategy.calculateConfidence s))
  /\ UltimateStrategy.price sig = p
  /\ UltimateStrategy.target sig =
     UltimateStrategy.lv_target
       (UltimateStrategy.calculateRiskManagement p (UltimateStrategy.signal sig) candles1h)
  /\ UltimateStrategy.stoploss sig =
     UltimateStrategy.lv_stoploss
       (UltimateStrategy.calculateRiskManagement p (UltimateStrategy.signal sig) candles1h)
  /\ UltimateStrategy.risk_reward_ratio sig =
     UltimateStrategy.calculateRiskReward p (UltimateStrategy.target sig)
       (UltimateStrategy.stoploss sig).
Proof.
  unfold UltimateStrategy.buildSignal. cbv zeta.
  destruct (UltimateStrategy.calculateConfidence
              (UltimateStrategy.runAllSignals sqrt candles1h candles15m)).
  simpl. repeat split.
Qed.

(** C1: every analysis evaluates ten opinions; its confidence is the vote
    count of the majority direction over ten, times 100; and it has no
    direction when the two counts tie (the confidence is then 0) and whenever
    the confidence is below the threshold of 80. *)
Theorem C1_consensus_confidence {W : Type} `{ZerodhaClient W}
  (sqrt : Q -> Q) (token : Z) (sym : string) (qty : Q) (w w' : World W)
  (sig : UltimateStrategy.UltimateStrategySignal) :
  UltimateStrategy.analyzeSymbol sqrt token sym qty w = (Resolved sig, w') ->
  exists candles1h candles15m,
    let opinions :=
      UltimateStrategy.values (UltimateStrategy.runAllSignals sqrt candles1h candles15m) in
    let buyCount := votes BUY opinions in
    let sellCount := votes SELL opinions in
    (exists fromDate toDate,
        answers (getHistoricalData token "hour" fromDate toDate) candles1h)
    /\ (exists fromDate toDate,
        answers (getHistoricalData token "15minute" fromDate toDate) candles15m)
    /\ List.length opinions = 10%nat
    /\ ((sellCount < buyCount)%nat ->
        UltimateStrategy.confidence sig == JS.num buyCount / JS.num 10 * 100)
    /\ ((buyCount < sellCount)%nat ->
        UltimateStrategy.confidence sig == JS.num sellCount / JS.num 10 * 100)
    /\ (buyCount = sellCount ->
        UltimateStrategy.signal sig = None /\ UltimateStrategy.confidence sig == 0)
    /\ (UltimateStrategy.confidence sig < 80 -> UltimateStrategy.signal sig = None).
Proof.
  intros Hrun.
  destruct (analyzeSymbol_resolved _ _ _ _ _ _ _ Hrun)
    as (candles1h & candles15m & quote & stamp & Hhour & Hquarter & _ & ->).
  exists candles1h, candles15m. cbv zeta.
  split; [exact Hhour|]. split; [exact Hquarter|].
  destruct (buildSignal_fields sqrt token sym candles1h candles15m
              (lastPriceOr0 quote token) stamp) as (Hc & Hs & _).
  cbv zeta in Hc, Hs. rewrite Hs, Hc. clear Hc Hs.
  rewrite final_of_votes, confidence_of_votes.
  set (s := UltimateStrategy.runAllSignals sqrt candles1h candles15m).
  set (b := votes BUY (UltimateStrategy.values s)).
  set (c := votes SELL (UltimateStrategy.values s)).
  split; [reflexivity|].
  split; [|split; [|split]].
  - intros Hlt. apply Nat.ltb_lt in Hlt. rewrite Hlt. reflexivity.
  - intros Hlt. assert (Hn : (c <? b)%nat = false) by (apply Nat.ltb_ge; lia).
    apply Nat.ltb_lt in Hlt. rewrite Hn, Hlt. reflexivity.
  - intros Heq. rewrite Heq, Nat.ltb_irrefl. split; [|reflexivity].
    now destruct (JS.ltb 0 80).
  - intros Hlow. apply ltb_lt in Hlow. now rewrite Hlow.
Qed.

(** The sample BUY market: the analysis resolves with eight BUY votes out of
    ten, that is confidence 80 and direction BUY. *)
Example analysis_of_buy_market :
  exists sig w',
    Sim.analysis 100 = (Resolved sig, w')
    /\ votes BUY (UltimateStrategy.values
                    (UltimateStrategy.runAllSignals Samples.sqrt6
                       Samples.hourly_buy Samples.quarter_buy)) = 8%nat
    /\ UltimateStrategy.signal sig = Some BUY
    /\ UltimateStrategy.confidence sig == 80.
Proof.
  eexists. eexists. split; [vm_compute; reflexivity|].
  repeat split; vm_compute; reflexivity.
Qed.

(** The theorem at the analysis of the sample BUY market. *)
Lemma C1_consensus_confidence_witness :
  exists sig w',
    Sim.analysis 100 = (Resolved sig, w')
    /\ exists candles1h candles15m,
         let opinions :=
           UltimateStrategy.values
             (UltimateStrategy.runAllSignals Samples.sqrt6 candles1h candles15m) in
         let buyCount := votes BUY opinions in
         let sellCount := votes SELL opinions in
         (exists fromDate toDate,
             answers (getHistoricalData 738561 "hour" fromDate toDate) candles1h)
         /\ (exists fromDate toDate,
             answers (getHistoricalData 738561 "15minute" fromDate toDate) candles15m)
         /\ List.length opinions = 10%nat
         /\ ((sellCount < buyCount)%nat ->
             UltimateStrategy.confidence sig == JS.num buyCount / JS.num 10 * 100)
         /\ ((buyCount < sellCount)%nat ->
             UltimateStrategy.confidence sig == JS.num sellCount / JS.num 10 * 100)
         /\ (buyCount = sellCount ->
             UltimateStrategy.signal sig = None /\ UltimateStrategy.confidence sig == 0)
         /\ (UltimateStrategy.confidence sig < 80 -> UltimateStrategy.signal sig = None).
Proof.
  eexists. eexists. split; [vm_compute; reflexivity|].
  eapply (C1_consensus_confidence Samples.sqrt6 738561 "RELIANCE" 1
            (mkWorld (Sim.buy_market [100] Sim.accepted (Resolved tt) []) [])).
  vm_compute. reflexivity.
Defined.

(** ** Risk levels *)





(** The specification's scenario, run through the gateway: BUY quoted at 100
    on hourly candles whose ATR is 2. *)
Example buy_at_100_with_atr_2 :
  UltimateStrategy.calculateATR Samples.hourly_buy 14 == 2
  /\ exists sig w',
       Sim.analysis 100 = (Resolved sig, w')
       /\ UltimateStrategy.signal sig = Some BUY
       /\ UltimateStrategy.price sig == 100
       /\ UltimateStrategy.target sig == 104
       /\ UltimateStrategy.stoploss sig == 98
       /\ UltimateStrategy.risk_reward_ratio sig == 2.
Proof.
  split; [vm_compute; reflexivity|].
  eexists. eexists. split; [vm_compute; reflexivity|].
  repeat split; vm_compute; reflexivity.
Qed.


(** ** Failure reporting, compositionally *)

Lemma failed_with_nil (err : Error) : ~ failed_with [] err.
Proof. intros [c []]. Qed.

Lemma failed_with_app (n1 n2 : list LoggedCall) (err : Error) :
  failed_with (n1 ++ n2) err -> failed_with n1 err \/ failed_with n2 err.
Proof.
  intros [c Hin]. apply in_app_or in Hin. destruct Hin; [left | right]; now exists c.
Qed.

Section Reporting.
Context {S : Type} (log : S -> list LoggedCall).

Lemma reports_silent {A} (m : M S A) :
  (forall s r s', m s = (r, s') -> log s' = log s) -> reports_failures log m.
Proof.
  intros Hm s r s' Hrun. exists []. rewrite app_nil_r. split.
  - eauto.
  - intros err Hf. now apply failed_with_nil in Hf.
Qed.

Lemma reports_ret {A} (a : A) : reports_failures log (ret a).
Proof. apply reports_silent. intros s r s' E. now inversion E. Qed.

Lemma reports_throw {A} (e : Error) : reports_failures log (@throw S A e).
Proof. apply reports_silent. intros s r s' E. now inversion E. Qed.

Lemma reports_get : reports_failures log get.
Proof. apply reports_silent. intros s r s' E. now inversion E. Qed.

Lemma reports_console_log : reports_failures log console_log.
Proof. apply reports_ret. Qed.

Lemma reports_bind {A B} (m : M S A) (k : A -> M S B) :
  reports_failures log m -> (forall a, reports_failures log (k a)) ->
  reports_failures log (bind m k).
Proof.
  intros Hm Hk s r s' Hrun. unfold bind in Hrun.
  destruct (m s) as [[a|e] s1] eqn:Em.
  - destruct (Hm _ _ _ Em) as (n1 & L1 & F1).
    destruct (Hk a _ _ _ Hrun) as (n2 & L2 & F2).
    exists (n1 ++ n2). split; [now rewrite L2, L1, app_assoc|].
    intros err Hf. apply failed_with_app in Hf. destruct Hf as [Hf|Hf].
    + specialize (F1 err Hf). discriminate.
    + now apply F2.
  - inversion Hrun; subst. destruct (Hm _ _ _ Em) as (n1 & L1 & F1).
    exists n1. split; [exact L1|].
    intros err Hf. specialize (F1 err Hf). congruence.
Qed.

Lemma reports_rethrow {A} (m : M S A) :
  reports_failures log m ->
  reports_failures log (try_catch m (fun error => console_log ;;; throw error)).
Proof.
  intros Hm s r s' Hrun. rewrite try_catch_rethrow in Hrun. eauto.
Qed.

End Reporting.

Section LifecycleReports.
Context {W : Type} `{ZerodhaClient W}.
Variable Math_sqrt : Q -> Q.
Variable config : AutomaticTradeExecutor.AutomaticTradeConfig.

Import AutomaticTradeExecutor.

Lemma reports_request {A} (c : GatewayCall) (op : W -> Outcome A * W) :
  reports_failures calls (request c op).
Proof.
  intros w r w' Hrun. rewrite request_run in Hrun. inversion Hrun; subst; clear Hrun.
  eexists. split; [reflexivity|].
  intros err [c' [Hin|[]]]. inversion Hin; subst.
  destruct (fst (op (host w))); simpl in *; congruence.
Qed.

Lemma reports_new_Date : reports_failures (@calls W) new_Date.
Proof.
  apply reports_silent. intros w r w' E. rewrite new_Date_run in E. now inversion E.
Qed.

Lemma liftW_run {A} (m : M (World W) A) (e : Executor W) :
  liftW m e = (fst (m (world e)), mkExecutor (activeTrades e) (snd (m (world e)))).
Proof. unfold liftW. destruct (m (world e)); reflexivity. Qed.

Lemma reports_liftW {A} (m : M (World W) A) :
  reports_failures calls m -> reports_failures exec_log (liftW m).
Proof.
  intros Hm e r e' Hrun. rewrite liftW_run in Hrun. inversion Hrun; subst; clear Hrun.
  unfold exec_log; simpl. apply Hm. now destruct (m (world e)).
Qed.

Lemma reports_modify (f : Executor W -> Executor W) :
  (forall e, world (f e) = world e) -> reports_failures exec_log (modify f).
Proof.
  intros Hf. apply reports_silent. intros e r e' E. inversion E. unfold exec_log.
  now rewrite Hf.
Qed.

Lemma analyzeSymbol_reports (token : Z) (sym : string) (qty : Q) :
  reports_failures calls (UltimateStrategy.analyzeSymbol Math_sqrt token sym qty).
Proof.
  unfold UltimateStrategy.analyzeSymbol, UltimateStrategy.getDateBefore,
    zerodha_getHistoricalData, zerodha_getQuote.
  apply reports_rethrow.
  repeat first
    [ apply reports_bind; [|intros ?]
    | apply reports_new_Date
    | apply reports_request
    | apply reports_ret ].
Qed.

Lemma executeTrade_reports (signal : UltimateStrategy.UltimateStrategySignal) (side : Side) :
  reports_failures exec_log (executeTrade config signal side).
Proof.
  unfold executeTrade, zerodha_placeBracketOrder, activeTrades_set.
  apply reports_rethrow.
  repeat first
    [ apply reports_bind; [|intros ?]
    | apply reports_liftW
    | apply reports_new_Date
    | apply reports_request
    | apply reports_console_log
    | apply reports_modify; reflexivity
    | apply reports_ret ].
Qed.

Lemma executeTradeSignals_reports :
  reports_failures exec_log (executeTradeSignals Math_sqrt config).
Proof.
  unfold executeTradeSignals. apply reports_rethrow.
  apply reports_bind; [apply reports_get | intros e].
  destruct (JS.geb _ _).
  { apply reports_bind; [apply reports_console_log | intros _; apply reports_ret]. }
  apply reports_bind; [apply reports_liftW, analyzeSymbol_reports | intros signal].
  apply reports_bind; [apply reports_console_log | intros _].
  destruct (UltimateStrategy.signal signal) as [side|].
  - destruct (JS.ltb _ _).
    + apply reports_bind; [apply reports_console_log | intros _; apply reports_ret].
    + apply reports_bind; [apply executeTrade_reports | intros t; apply reports_ret].
  - apply reports_bind; [apply reports_console_log | intros _; apply reports_ret].
Qed.

Lemma closeTrade_reports (tradeId : string) :
  reports_failures exec_log (closeTrade config tradeId).
Proof.
  unfold closeTrade, zerodha_getQuote, zerodha_cancelOrder, activeTrades_set,
    activeTrades_delete.
  apply reports_rethrow.
  apply reports_bind; [apply reports_get | intros e].
  destruct (JSMap.get _ _) as [trade|]; [|apply reports_throw].
  repeat first
    [ apply reports_bind; [|intros ?]
    | apply reports_liftW
    | apply reports_new_Date
    | apply reports_request
    | apply reports_console_log
    | apply reports_modify; reflexivity
    | apply reports_ret ].
Qed.

End LifecycleReports.

(** ** What a rejection leaves behind *)

Section Atomicity.
Context {W : Type} `{ZerodhaClient W}.
Variable Math_sqrt : Q -> Q.
Variable config : AutomaticTradeExecutor.AutomaticTradeConfig.

Import AutomaticTradeExecutor.

Lemma keeps_liftW {A} (m : M (World W) A) : keeps_trades (liftW m).
Proof. intros e r e' E. rewrite liftW_run in E. now inversion E. Qed.

Lemma keeps_ret {A} (a : A) : keeps_trades (@ret (Executor W) A a).
Proof. intros e r e' E. now inversion E. Qed.

Lemma keeps_get : keeps_trades (@get (Executor W)).
Proof. intros e r e' E. now inversion E. Qed.

Lemma keeps_bind {A B} (m : M (Executor W) A) (k : A -> M (Executor W) B) :
  keeps_trades m -> (forall a, keeps_trades (k a)) -> keeps_trades (bind m k).
Proof.
  intros Hm Hk e r e' E. unfold bind in E. destruct (m e) as [[a|err] e1] eqn:Em.
  - rewrite (Hk a _ _ _ E). exact (Hm _ _ _ Em).
  - inversion E; subst. exact (Hm _ _ _ Em).
Qed.

Lemma atomic_keeps {A} (m : M (Executor W) A) : keeps_trades m -> atomic m.
Proof. intros Hm e err e' E. exact (Hm _ _ _ E). Qed.

Lemma atomic_never {A} (m : M (Executor W) A) : never_rejects m -> atomic m.
Proof. intros Hm e err e' E. destruct (Hm _ _ _ E) as [a Ha]. discriminate. Qed.

Lemma atomic_bind {A B} (m : M (Executor W) A) (k : A -> M (Executor W) B) :
  keeps_trades m -> (forall a, atomic (k a)) -> atomic (bind m k).
Proof.
  intros Hm Hk e err e' E. apply bind_rejected in E.
  destruct E as [E | (a & e1 & Em & Ek)].
  - exact (Hm _ _ _ E).
  - rewrite (Hk a _ _ _ Ek). exact (Hm _ _ _ Em).
Qed.

Lemma atomic_then {A B} (m : M (Executor W) A) (k : A -> M (Executor W) B) :
  atomic m -> (forall a, never_rejects (k a)) -> atomic (bind m k).
Proof.
  intros Hm Hk e err e' E. apply bind_rejected in E.
  destruct E as [E | (a & e1 & Em & Ek)].
  - exact (Hm _ _ _ E).
  - destruct (Hk a _ _ _ Ek) as [b Hb]. discriminate.
Qed.

Lemma atomic_rethrow {A} (m : M (Executor W) A) :
  atomic m -> atomic (try_catch m (fun error => console_log ;;; throw error)).
Proof. intros Hm e err e' E. rewrite try_catch_rethrow in E. eauto. Qed.

Lemma never_ret {S A} (a : A) : never_rejects (@ret S A a).
Proof. intros s r s' E. inversion E. eauto. Qed.

Lemma never_modify {S} (f : S -> S) : never_rejects (modify f).
Proof. intros s r s' E. inversion E. eauto. Qed.

Lemma never_bind {S A B} (m : M S A) (k : A -> M S B) :
  never_rejects m -> (forall a, never_rejects (k a)) -> never_rejects (bind m k).
Proof.
  intros Hm Hk s r s' E. unfold bind in E. destruct (m s) as [[a|err] s1] eqn:Em.
  - exact (Hk a _ _ _ E).
  - destruct (Hm _ _ _ Em) as [a Ha]. discriminate.
Qed.

Lemma never_try_catch {S A} (m : M S A) (h : Error -> M S A) :
  (forall e, never_rejects (h e)) -> never_rejects (try_catch m h).
Proof.
  intros Hh s r s' E. unfold try_catch in E. destruct (m s) as [[a|err] s1] eqn:Em.
  - inversion E. eauto.
  - exact (Hh err _ _ _ E).
Qed.

(** The only write of [executeTrade] is its last step, which cannot fail. *)
Lemma executeTrade_atomic (signal : UltimateStrategy.UltimateStrategySignal) (side : Side) :
  atomic (executeTrade config signal side).
Proof.
  unfold executeTrade. apply atomic_rethrow.
  apply atomic_bind; [apply keeps_ret | intros _].
  apply atomic_bind; [apply keeps_liftW | intros orderResponse].
  apply atomic_bind; [apply keeps_liftW | intros now].
  apply atomic_bind; [apply keeps_liftW | intros created].
  apply atomic_never.
  apply never_bind; [apply never_modify | intros _].
  apply never_bind; [apply never_ret | intros _]. apply never_ret.
Qed.

Lemma executeTradeSignals_atomic : atomic (executeTradeSignals Math_sqrt config).
Proof.
  unfold executeTradeSignals. apply atomic_rethrow.
  apply atomic_bind; [apply keeps_get | intros e].
  destruct (JS.geb _ _).
  { apply atomic_keeps, keeps_bind; [apply keeps_ret | intros _; apply keeps_ret]. }
  apply atomic_bind; [apply keeps_liftW | intros signal].
  apply atomic_bind; [apply keeps_ret | intros _].
  destruct (UltimateStrategy.signal signal) as [side|].
  - destruct (JS.ltb _ _).
    + apply atomic_keeps, keeps_bind; [apply keeps_ret | intros _; apply keeps_ret].
    + apply atomic_then; [apply executeTrade_atomic | intros t; apply never_ret].
  - apply atomic_keeps, keeps_bind; [apply keeps_ret | intros _; apply keeps_ret].
Qed.

Lemma log_suffix_nil (l new : list LoggedCall) : l = l ++ new -> new = [].
Proof.
  intros E. apply (app_inv_head l). now rewrite app_nil_r, <- E.
Qed.

(** A failed quote fetch leaves the trade to be closed untouched. *)
Lemma closeTrade_quote_failure (tradeId : string) (e e' : Executor W)
  (r : Outcome bool) (new : list LoggedCall) (tokens : list Z) (err : Error) :
  closeTrade config tradeId e = (r, e') ->
  exec_log e' = exec_log e ++ new ->
  In (mkLogged (CallGetQuote tokens) (Some err)) new ->
  activeTrades e' = activeTrades e.
Proof.
  unfold closeTrade. rewrite try_catch_rethrow.
  unfold bind at 1, get. destruct (JSMap.get (activeTrades e) tradeId) as [trade|].
  - unfold bind at 1. rewrite liftW_run. unfold zerodha_getQuote. rewrite request_run.
    simpl fst. simpl snd.
    destruct (getQuote [cfg_instrumentToken config] (host (world e))) as [[quote|err0] h1].
    + simpl fst. simpl snd. unfold bind at 1. rewrite liftW_run, new_Date_run.
      simpl fst. simpl snd.
      unfold bind at 1, activeTrades_set, modify. unfold bind at 1.
      rewrite liftW_run. unfold zerodha_cancelOrder. rewrite request_run.
      simpl fst. simpl snd.
      match goal with
      | |- context [cancelOrder ?o ?h] => destruct (cancelOrder o h) as [[u|err1] h2]
      end; simpl; intros E L Hin; inversion E; subst; clear E;
        unfold exec_log in L; simpl in L; rewrite <- app_assoc in L;
        apply app_inv_head in L; subst new; simpl in Hin;
        destruct Hin as [Hin|[Hin|[]]]; discriminate.
    + simpl. intros E _ _. now inversion E.
  - unfold throw. intros E L Hin. inversion E; subst.
    apply log_suffix_nil in L. subst new. destruct Hin.
Qed.

End Atomicity.

(** ** The map of active trades *)

Lemma JSMap_get_delete_other {V} (m : JSMap.t V) (k k' : string) :
  k <> k' -> JSMap.get (JSMap.delete m k') k = JSMap.get m k.
Proof.
  intros Hne. unfold JSMap.get, JSMap.delete.
  induction m as [|[k0 v0] m IH]; simpl; [reflexivity|].
  destruct (String.eqb k0 k') eqn:E0; simpl.
  - apply String.eqb_eq in E0. subst k0.
    assert (En : String.eqb k' k = false) by (apply String.eqb_neq; congruence).
    now rewrite En.
  - destruct (String.eqb k0 k); [reflexivity | exact IH].
Qed.

Lemma JSMap_get_set_other {V} (m : JSMap.t V) (k k' : string) (v : V) :
  k <> k' -> JSMap.get (JSMap.set m k' v) k = JSMap.get m k.
Proof.
  intros Hne. unfold JSMap.get.
  assert (En : String.eqb k' k = false) by (apply String.eqb_neq; congruence).
  induction m as [|[k0 v0] m IH]; simpl.
  - now rewrite En.
  - destruct (String.eqb k0 k') eqn:E0; simpl.
    + apply String.eqb_eq in E0. subst k0. now rewrite En.
    + destruct (String.eqb k0 k); [reflexivity | exact IH].
Qed.

Lemma JSMap_get_absent {V} (m : JSMap.t V) (k : string) :
  ~ In k (map fst m) -> JSMap.get m k = None.
Proof.
  unfold JSMap.get. induction m as [|[k0 v0] m IH]; simpl; intros Hn; [reflexivity|].
  destruct (String.eqb k0 k) eqn:E0.
  - apply String.eqb_eq in E0. tauto.
  - apply IH. tauto.
Qed.

Lemma JSMap_get_delete_same {V} (m : JSMap.t V) (k : string) :
  JSMap.get (JSMap.delete m k) k = None.
Proof.
  apply JSMap_get_absent. unfold JSMap.delete. intros Hin.
  apply in_map_iff in Hin. destruct Hin as ([k0 v0] & Hk & Hin). simpl in Hk. subst k0.
  apply filter_In in Hin. destruct Hin as [_ Hneq]. simpl in Hneq.
  now rewrite String.eqb_refl in Hneq.
Qed.

(** In a map, whose keys are distinct, the entry at any position is the one
    [get] finds. *)
Lemma JSMap_get_nth {V} (m : JSMap.t V) (i : nat) (k : string) (v : V) :
  NoDup (map fst m) -> nth_error m i = Some (k, v) -> JSMap.get m k = Some v.
Proof.
  revert i. induction m as [|[k0 v0] m IH]; intros i Hnd Hi.
  - destruct i; discriminate.
  - simpl in Hnd. inversion Hnd as [|? ? Hnotin Hnd']; subst.
    destruct i as [|i]; simpl in Hi.
    + inversion Hi; subst. unfold JSMap.get. simpl. now rewrite String.eqb_refl.
    + assert (Hin : In k (map fst m)).
      { apply nth_error_In in Hi. now apply (in_map fst) in Hi. }
      unfold JSMap.get. simpl.
      destruct (String.eqb k0 k) eqn:E0.
      * apply String.eqb_eq in E0. subst. contradiction.
      * exact (IH i Hnd' Hi).
Qed.

(** ** Monitoring *)

Section Monitoring.
Context {W : Type} `{ZerodhaClient W}.
Variable config : AutomaticTradeExecutor.AutomaticTradeConfig.

Import AutomaticTradeExecutor.

(** One iteration of the monitoring loop: exactly one position query is
    logged; when it fails the error is swallowed and nothing changes; when it
    succeeds only the entry of the monitored trade can change, and a trade
    without a position is stamped CLOSED, with its exit price and P&L as they
    were, and leaves the map. *)
Lemma monitor_step_spec (closed : list ExecutedTrade) (k : string) (t : ExecutedTrade)
  (e e' : Executor W) (r : Outcome (list ExecutedTrade)) :
  monitor_step config closed (k, t) e = (r, e') ->
  exists l,
    exec_log e' = exec_log e ++ [l]
    /\ ((exists err, failure l = Some err)
        /\ r = Resolved closed /\ activeTrades e' = activeTrades e
        \/ failure l = None
           /\ ((exists now,
                  r = Resolved (closed ++ [set_closedAt now (set_status CLOSED t)])
                  /\ activeTrades e' = JSMap.delete (activeTrades e) k)
               \/ r = Resolved closed
                  /\ (activeTrades e' = activeTrades e
                      \/ activeTrades e' =
                         JSMap.set (activeTrades e) k (set_status FILLED t)))).
Proof.
  unfold monitor_step, try_catch. unfold bind at 1. rewrite liftW_run.
  unfold zerodha_getPositions. rewrite request_run. simpl fst. simpl snd.
  destruct (getPositions (host (world e))) as [[positions|err] h1]; simpl fst; simpl snd.
  - cbv beta iota.
    match goal with
    | |- context [find ?f positions] => destruct (find f positions) as [position|]
    end.
    + unfold bind at 1.
      destruct (JS.eqb (position_quantity position) 0); simpl;
        intros E; inversion E; subst; clear E;
        (eexists; split; [reflexivity|]); right; (split; [reflexivity|]); right;
        (split; [reflexivity|]); [right | left]; reflexivity.
    + unfold bind at 1. rewrite liftW_run, new_Date_run. simpl.
      intros E; inversion E; subst; clear E.
      eexists; split; [reflexivity|]. right. split; [reflexivity|]. left.
      eexists. split; reflexivity.
  - simpl. intros E; inversion E; subst; clear E.
    eexists; split; [reflexivity|]. left. simpl. split; [eauto|]. split; reflexivity.
Qed.

(** A trade for which the gateway reports no position. *)
Lemma monitor_step_no_position (closed : list ExecutedTrade) (k : string)
  (t : ExecutedTrade) (e : Executor W) (positions : list Position) (h1 : W) :
  getPositions (host (world e)) = (Resolved positions, h1) ->
  find (fun p => (instrument_token p =? cfg_instrumentToken config)%Z) positions = None ->
  exists now e',
    monitor_step config closed (k, t) e
    = (Resolved (closed ++ [set_closedAt now (set_status CLOSED t)]), e')
    /\ activeTrades e' = JSMap.delete (activeTrades e) k.
Proof.
  intros Hpos Hfind.
  unfold monitor_step, try_catch. unfold bind at 1. rewrite liftW_run.
  unfold zerodha_getPositions. rewrite request_run, Hpos. simpl fst. simpl snd.
  cbv beta iota. rewrite Hfind.
  unfold bind at 1. rewrite liftW_run, new_Date_run. simpl.
  eexists. eexists. split; reflexivity.
Qed.

Lemma monitor_step_other (closed : list ExecutedTrade) (k k' : string)
  (t : ExecutedTrade) (e e' : Executor W) (r : Outcome (list ExecutedTrade)) :
  monitor_step config closed (k, t) e = (r, e') -> k' <> k ->
  JSMap.get (activeTrades e') k' = JSMap.get (activeTrades e) k'.
Proof.
  intros E Hne. destruct (monitor_step_spec _ _ _ _ _ _ E) as (l & _ & Hcases).
  destruct Hcases as [(_ & _ & ->) | (_ & [(now & _ & ->) | (_ & [-> | ->])])].
  - reflexivity.
  - now apply JSMap_get_delete_other.
  - reflexivity.
  - now apply JSMap_get_set_other.
Qed.

(** The whole loop: one query per entry, never a rejection, and an entry
    whose query failed is found unchanged afterwards. *)
Lemma monitor_loop_spec (entries : list (string * ExecutedTrade)) :
  forall (closed : list ExecutedTrade) (e e' : Executor W)
         (r : Outcome (list ExecutedTrade)),
    monitor_loop config closed entries e = (r, e') ->
    NoDup (map fst entries) ->
    exists new,
      exec_log e' = exec_log e ++ new
      /\ List.length new = List.length entries
      /\ (exists closed', r = Resolved closed')
      /\ (forall k, ~ In k (map fst entries) ->
            JSMap.get (activeTrades e') k = JSMap.get (activeTrades e) k)
      /\ (forall i k t,
            nth_error entries i = Some (k, t) ->
            (exists c err, nth_error new i = Some (mkLogged c (Some err))) ->
            JSMap.get (activeTrades e') k = JSMap.get (activeTrades e) k).
Proof.
  induction entries as [|[k0 t0] rest IH]; intros closed e e' r Hrun Hnd.
  - simpl in Hrun. inversion Hrun; subst. exists []. rewrite app_nil_r.
    repeat split; eauto; intros i k t Hi; destruct i; discriminate.
  - change (monitor_loop config closed ((k0, t0) :: rest) e)
      with (bind (monitor_step config closed (k0, t0))
                 (fun closed' => monitor_loop config closed' rest) e) in Hrun.
    unfold bind in Hrun.
    destruct (monitor_step config closed (k0, t0) e) as [[closed1|err] e1] eqn:Estep.
    2:{ destruct (monitor_step_spec _ _ _ _ _ _ Estep)
          as (l & _ & [(_ & Hr & _) | (_ & [(now & Hr & _) | (Hr & _)])]);
        discriminate. }
    simpl in Hnd. inversion Hnd as [|? ? Hnotin Hnd']; subst.
    destruct (IH _ _ _ _ Hrun Hnd') as (new & Hlog & Hlen & Hres & Hout & Hin).
    destruct (monitor_step_spec _ _ _ _ _ _ Estep) as (l & Hlog1 & Hcases).
    exists (l :: new). split; [|split; [|split; [|split]]].
    + rewrite Hlog, Hlog1, <- app_assoc. reflexivity.
    + simpl. now rewrite Hlen.
    + exact Hres.
    + intros k Hk. simpl in Hk. rewrite Hout by tauto.
      apply (monitor_step_other _ _ _ _ _ _ _ Estep). intros ->. tauto.
    + intros i k t Hi Hfail. destruct i as [|i]; simpl in Hi, Hfail.
      * inversion Hi; subst k t.
        destruct Hfail as (c & err & Hl). inversion Hl; subst l.
        rewrite Hout by assumption.
        destruct Hcases as [(_ & _ & ->) | (Hnone & _)]; [reflexivity|].
        simpl in Hnone. discriminate.
      * rewrite (Hin i k t Hi Hfail).
        apply (monitor_step_other _ _ _ _ _ _ _ Estep). intros ->.
        apply Hnotin. apply nth_error_In in Hi. now apply (in_map fst) in Hi.
Qed.

End Monitoring.

(** ** Trade lifecycle *)

Section Opening.
Context {W : Type} `{ZerodhaClient W}.
Variable Math_sqrt : Q -> Q.
Variable config : AutomaticTradeExecutor.AutomaticTradeConfig.

Import AutomaticTradeExecutor.

Lemma executeTrade_resolved (signal : UltimateStrategy.UltimateStrategySignal)
  (side : Side) (e e' : Executor W) (t : ExecutedTrade) :
  executeTrade config signal side e = (Resolved t, e') ->
  status t = EXECUTED /\ closedAt t = None /\ exitPrice t = None /\ pnl t = None
  /\ type t = side
  /\ activeTrades e' = JSMap.set (activeTrades e) (id t) t.
Proof.
  unfold executeTrade. rewrite try_catch_rethrow. intros Hrun.
  apply bind_resolved in Hrun. destruct Hrun as (? & e0 & E0 & Hrun). inversion E0; subst e0.
  apply bind_resolved in Hrun. destruct Hrun as (resp & e1 & E1 & Hrun).
  apply bind_resolved in Hrun. destruct Hrun as (now & e2 & E2 & Hrun).
  apply bind_resolved in Hrun. destruct Hrun as (created & e3 & E3 & Hrun).
  apply keeps_liftW in E1, E2, E3.
  cbv zeta in Hrun. unfold bind, activeTrades_set, modify, console_log, ret in Hrun.
  inversion Hrun; subst; clear Hrun. simpl.
  repeat split. congruence.
Qed.

(** A trade created by the execution loop starts EXECUTED, with no closing
    data, and is stored under its id. *)
Lemma executeTradeSignals_resolved (e e' : Executor W) (t : ExecutedTrade) :
  executeTradeSignals Math_sqrt config e = (Resolved (Some t), e') ->
  status t = EXECUTED /\ closedAt t = None /\ exitPrice t = None /\ pnl t = None
  /\ activeTrades e' = JSMap.set (activeTrades e) (id t) t.
Proof.
  unfold executeTradeSignals. rewrite try_catch_rethrow. intros Hrun.
  apply bind_resolved in Hrun. destruct Hrun as (e0 & e0' & E0 & Hrun).
  inversion E0; subst e0 e0'; clear E0.
  destruct (JS.geb _ _).
  { apply bind_resolved in Hrun. destruct Hrun as (? & ? & _ & Hrun). discriminate. }
  apply bind_resolved in Hrun. destruct Hrun as (signal & e1 & E1 & Hrun).
  apply keeps_liftW in E1.
  apply bind_resolved in Hrun. destruct Hrun as (? & e2 & E2 & Hrun).
  inversion E2; subst e2; clear E2.
  destruct (UltimateStrategy.signal signal) as [side|].
  - destruct (JS.ltb _ _).
    + apply bind_resolved in Hrun. destruct Hrun as (? & ? & _ & Hrun). discriminate.
    + apply bind_resolved in Hrun. destruct Hrun as (t' & e3 & E3 & Hrun).
      inversion Hrun; subst; clear Hrun.
      destruct (executeTrade_resolved _ _ _ _ _ E3) as (Hs & Hc & Hx & Hp & _ & Hm).
      rewrite E1 in Hm. tauto.
  - apply bind_resolved in Hrun. destruct Hrun as (? & ? & _ & Hrun). discriminate.
Qed.

(** A manual close that succeeds answers [true] and forgets the trade. *)
Lemma closeTrade_resolved (tradeId : string) (e e' : Executor W) (b : bool) :
  closeTrade config tradeId e = (Resolved b, e') ->
  b = true /\ JSMap.get (activeTrades e') tradeId = None.
Proof.
  unfold closeTrade. rewrite try_catch_rethrow. intros Hrun.
  apply bind_resolved in Hrun. destruct Hrun as (e0 & e0' & E0 & Hrun).
  inversion E0; subst e0 e0'; clear E0.
  destruct (JSMap.get (activeTrades e) tradeId) as [trade|]; [|discriminate].
  apply bind_resolved in Hrun. destruct Hrun as (quote & e1 & _ & Hrun).
  apply bind_resolved in Hrun. destruct Hrun as (now & e2 & _ & Hrun).
  cbv zeta in Hrun.
  apply bind_resolved in Hrun. destruct Hrun as (? & e3 & _ & Hrun).
  apply bind_resolved in Hrun. destruct Hrun as (? & e4 & _ & Hrun).
  apply bind_resolved in Hrun. destruct Hrun as (? & e5 & E5 & Hrun).
  apply bind_resolved in Hrun. destruct Hrun as (? & e6 & E6 & Hrun).
  inversion E5; subst. inversion E6; subst. inversion Hrun; subst.
  split; [reflexivity|]. simpl. apply JSMap_get_delete_same.
Qed.

End Opening.

(** What monitoring writes on a trade it finds closed: the status and the
    closing time, and neither an exit price nor a P&L. *)
Lemma closed_by_monitor (now : Z) (t : AutomaticTradeExecutor.ExecutedTrade) :
  let t' := AutomaticTradeExecutor.set_closedAt now
              (AutomaticTradeExecutor.set_status AutomaticTradeExecutor.CLOSED t) in
  AutomaticTradeExecutor.status t' = AutomaticTradeExecutor.CLOSED
  /\ AutomaticTradeExecutor.closedAt t' = Some now
  /\ AutomaticTradeExecutor.exitPrice t' = AutomaticTradeExecutor.exitPrice t
  /\ AutomaticTradeExecutor.pnl t' = AutomaticTradeExecutor.pnl t.
Proof. repeat split. Qed.

(** C2: a trade opened by the execution loop starts EXECUTED, and a monitor
    call that finds no position for it closes it, stamps it, removes it from
    the active set and returns it; it should also record the P&L.  Whatever
    the trade, the monitoring step writes the status and the closing time and
    leaves the exit price and the P&L as they were.  On the sample market
    (BUY 1 at 100, then no position reported) the returned trade is CLOSED
    with a closing time, and has neither exit price nor P&L. *)
Theorem C2_monitor_closes_without_pnl :
  (forall (W : Type) (client : ZerodhaClient W)
          (config : AutomaticTradeExecutor.AutomaticTradeConfig)
          (closed : list AutomaticTradeExecutor.ExecutedTrade) (k : string)
          (t : AutomaticTradeExecutor.ExecutedTrade)
          (e : AutomaticTradeExecutor.Executor W) (positions : list Position) (h1 : W),
      getPositions (host (AutomaticTradeExecutor.world e)) = (Resolved positions, h1) ->
      find (fun p => (instrument_token p
                      =? AutomaticTradeExecutor.cfg_instrumentToken config)%Z)
           positions = None ->
      exists t' e',
        AutomaticTradeExecutor.monitor_step config closed (k, t) e
        = (Resolved (closed ++ [t']), e')
        /\ AutomaticTradeExecutor.status t' = AutomaticTradeExecutor.CLOSED
        /\ (exists now, AutomaticTradeExecutor.closedAt t' = Some now)
        /\ AutomaticTradeExecutor.activeTrades e'
           = JSMap.delete (AutomaticTradeExecutor.activeTrades e) k
        /\ AutomaticTradeExecutor.exitPrice t' = AutomaticTradeExecutor.exitPrice t
        /\ AutomaticTradeExecutor.pnl t' = AutomaticTradeExecutor.pnl t)
  /\ exists t e1 t' e2,
       Sim.execute_once (Resolved tt) [] = (Resolved (Some t), e1)
       /\ AutomaticTradeExecutor.status t = AutomaticTradeExecutor.EXECUTED
       /\ AutomaticTradeExecutor.type t = BUY
       /\ AutomaticTradeExecutor.entryPrice t == 100
       /\ AutomaticTradeExecutor.quantity t == 1
       /\ AutomaticTradeExecutor.activeTrades e1 = [(AutomaticTradeExecutor.id t, t)]
       /\ AutomaticTradeExecutor.monitorActiveTrades Sim.config e1 = (Resolved [t'], e2)
       /\ AutomaticTradeExecutor.id t' = AutomaticTradeExecutor.id t
       /\ AutomaticTradeExecutor.status t' = AutomaticTradeExecutor.CLOSED
       /\ AutomaticTradeExecutor.closedAt t' = Some 1700000000007%Z
       /\ AutomaticTradeExecutor.activeTrades e2 = []
       /\ AutomaticTradeExecutor.exitPrice t' = None
       /\ AutomaticTradeExecutor.pnl t' = None.
Proof.
  split.
  - intros W client config closed k t e positions h1 Hpos Hfind.
    destruct (monitor_step_no_position config closed k t e positions h1 Hpos Hfind)
      as (now & e' & Hrun & Hmap).
    exists (AutomaticTradeExecutor.set_closedAt now
              (AutomaticTradeExecutor.set_status AutomaticTradeExecutor.CLOSED t)), e'.
    split; [exact Hrun|].
    destruct (closed_by_monitor now t) as (Hs & Hc & Hx & Hp).
    repeat split; eauto.
  - do 4 eexists.
    split; [vm_compute; reflexivity|].
    do 5 (split; [vm_compute; reflexivity|]).
    split; [vm_compute; reflexivity|].
    repeat split; vm_compute; reflexivity.
Qed.

(** ** Gateway failures *)

(** C3 (as amended): a gateway failure during the execution loop or a manual
    close is propagated unmodified to the caller.  A failed execution leaves
    the active-trade set as it was, and so does a manual close whose quote
    fetch fails.  Monitoring does not propagate: it never rejects, and a trade
    whose position query failed keeps its recorded state and its place in the
    active set. *)
Theorem C3_gateway_failures {W : Type} `{ZerodhaClient W}
  (sqrt : Q -> Q) (config : AutomaticTradeExecutor.AutomaticTradeConfig) :
  (forall e r e' new err,
     AutomaticTradeExecutor.executeTradeSignals sqrt config e = (r, e') ->
     exec_log e' = exec_log e ++ new ->
     failed_with new err ->
     r = Rejected err
     /\ AutomaticTradeExecutor.activeTrades e' = AutomaticTradeExecutor.activeTrades e)
  /\ (forall tradeId e r e' new err,
        AutomaticTradeExecutor.closeTrade config tradeId e = (r, e') ->
        exec_log e' = exec_log e ++ new ->
        failed_with new err ->
        r = Rejected err
        /\ ((exists tokens, In (mkLogged (CallGetQuote tokens) (Some err)) new) ->
            AutomaticTradeExecutor.activeTrades e' = AutomaticTradeExecutor.activeTrades e))
  /\ (forall e r e' new,
        AutomaticTradeExecutor.monitorActiveTrades config e = (r, e') ->
        NoDup (map fst (AutomaticTradeExecutor.activeTrades e)) ->
        exec_log e' = exec_log e ++ new ->
        (exists closed, r = Resolved closed)
        /\ forall i k t,
             nth_error (AutomaticTradeExecutor.activeTrades e) i = Some (k, t) ->
             (exists c err, nth_error new i = Some (mkLogged c (Some err))) ->
             JSMap.get (AutomaticTradeExecutor.activeTrades e') k = Some t).
Proof.
  split; [|split].
  - intros e r e' new err Hrun Hlog Hfail.
    destruct (executeTradeSignals_reports sqrt config _ _ _ Hrun) as (new' & Hlog' & Hrep).
    rewrite Hlog in Hlog'. apply app_inv_head in Hlog'. subst new'.
    assert (Hr : r = Rejected err) by now apply Hrep.
    split; [exact Hr|]. subst r.
    exact (executeTradeSignals_atomic sqrt config _ _ _ Hrun).
  - intros tradeId e r e' new err Hrun Hlog Hfail.
    destruct (closeTrade_reports config tradeId _ _ _ Hrun) as (new' & Hlog' & Hrep).
    rewrite Hlog in Hlog'. apply app_inv_head in Hlog'. subst new'.
    split; [now apply Hrep|].
    intros [tokens Hin]. exact (closeTrade_quote_failure config _ _ _ _ _ _ _ Hrun Hlog Hin).
  - intros e r e' new Hrun Hnd Hlog.
    unfold AutomaticTradeExecutor.monitorActiveTrades, bind, get in Hrun.
    destruct (monitor_loop_spec config _ _ _ _ _ Hrun Hnd)
      as (new' & Hlog' & _ & Hres & _ & Hkeep).
    rewrite Hlog in Hlog'. apply app_inv_head in Hlog'. subst new'.
    split; [exact Hres|].
    intros i k t Hi Hfail. rewrite (Hkeep i k t Hi Hfail).
    exact (JSMap_get_nth _ _ _ _ Hnd Hi).
Qed.

(** An order rejected by the gateway: the execution loop rejects with the
    gateway's error and the active-trade set stays empty. *)
Lemma C3_gateway_failures_witness :
  let e := Sim.fresh (Sim.buy_market [100] (Rejected Sim.networkError) (Resolved tt) []) in
  exists r e' new,
    AutomaticTradeExecutor.executeTradeSignals Samples.sqrt6 Sim.config e = (r, e')
    /\ exec_log e' = exec_log e ++ new
    /\ failed_with new Sim.networkError
    /\ r = Rejected Sim.networkError
    /\ AutomaticTradeExecutor.activeTrades e' = AutomaticTradeExecutor.activeTrades e.
Proof.
  intros e.
  assert (Hrun : exists e' new,
             AutomaticTradeExecutor.executeTradeSignals Samples.sqrt6 Sim.config e
             = (Rejected Sim.networkError, e')
             /\ exec_log e' = exec_log e ++ new
             /\ failed_with new Sim.networkError).
  { do 2 eexists. split; [vm_compute; reflexivity|].
    split; [vm_compute; reflexivity|].
    eexists. right. right. right. left. reflexivity. }
  destruct Hrun as (e' & new & Hrun & Hlog & Hfail).
  exists (Rejected Sim.networkError), e', new.
  split; [exact Hrun|]. split; [exact Hlog|]. split; [exact Hfail|].
  exact (proj1 (C3_gateway_failures Samples.sqrt6 Sim.config) e _ e' new _ Hrun Hlog Hfail).
Defined.

(** The claim as first stated fails for monitoring: the position query is
    rejected with a network error, and the monitor call resolves with an empty
    list instead of rejecting. *)
Lemma C3_counterexample :
  let e := Sim.opened (Resolved tt) [Rejected Sim.networkError] in
  exists e',
    AutomaticTradeExecutor.monitorActiveTrades Sim.config e = (Resolved [], e')
    /\ exec_log e' = exec_log e ++ [mkLogged CallGetPositions (Some Sim.networkError)]
    /\ failed_with [mkLogged CallGetPositions (Some Sim.networkError)] Sim.networkError
    /\ fst (AutomaticTradeExecutor.monitorActiveTrades Sim.config e)
       <> Rejected Sim.networkError.
Proof.
  intros e. eexists. split; [vm_compute; reflexivity|].
  split; [vm_compute; reflexivity|].
  split; [exists CallGetPositions; left; reflexivity|].
  vm_compute. discriminate.
Qed.

(** A manual close whose order cancellation is rejected: the error is
    propagated, but the trade has already been rewritten.  It is still in the
    active set, now CLOSED, with exit price 110 and P&L 10. *)
Example closeTrade_cancel_rejected :
  let e := Sim.opened (Rejected Sim.networkError) [] in
  exists t e' t',
    AutomaticTradeExecutor.activeTrades e = [(Sim.opened_id, t)]
    /\ AutomaticTradeExecutor.status t = AutomaticTradeExecutor.EXECUTED
    /\ AutomaticTradeExecutor.pnl t = None
    /\ AutomaticTradeExecutor.closeTrade Sim.config Sim.opened_id e
       = (Rejected Sim.networkError, e')
    /\ AutomaticTradeExecutor.activeTrades e' = [(Sim.opened_id, t')]
    /\ AutomaticTradeExecutor.status t' = AutomaticTradeExecutor.CLOSED
    /\ AutomaticTradeExecutor.exitPrice t' = Some 110
    /\ (exists p, AutomaticTradeExecutor.pnl t' = Some p /\ p == 10)
    /\ AutomaticTradeExecutor.closedAt t' = Some 1700000000007%Z.
Proof.
  intros e. do 3 eexists.
  split; [vm_compute; reflexivity|].
  split; [vm_compute; reflexivity|].
  split; [vm_compute; reflexivity|].
  split; [vm_compute; reflexivity|].
  split; [vm_compute; reflexivity|].
  split; [vm_compute; reflexivity|].
  split; [vm_compute; reflexivity|].
  split; [eexists; split; vm_compute; reflexivity|].
  vm_compute; reflexivity.
Qed.

(** ** Closing an unknown trade *)

(** C10: closing an id that is not in the active set rejects with the
    'Trade <id> not found' error instead of returning false, and the executor
    and the world are exactly as before: no request reached the gateway and
    the active set is unchanged. *)
Theorem C10_closeTrade_unknown_id {W : Type} `{ZerodhaClient W}
  (config : AutomaticTradeExecutor.AutomaticTradeConfig) (tradeId : string)
  (e : AutomaticTradeExecutor.Executor W) :
  JSMap.get (AutomaticTradeExecutor.activeTrades e) tradeId = None ->
  AutomaticTradeExecutor.closeTrade config tradeId e
  = (Rejected (mkError ("Trade " ++ tradeId ++ " not found")), e).
Proof.
  intros Habsent. unfold AutomaticTradeExecutor.closeTrade.
  rewrite try_catch_rethrow. unfold bind, get. now rewrite Habsent.
Qed.

(** The theorem at an executor holding one open trade under another id. *)
Lemma C10_closeTrade_unknown_id_witness :
  let e := Sim.opened (Resolved tt) [] in
  JSMap.get (AutomaticTradeExecutor.activeTrades e) "TCS_1" = None
  /\ AutomaticTradeExecutor.closeTrade Sim.config "TCS_1" e
     = (Rejected (mkError "Trade TCS_1 not found"), e).
Proof.
  intros e.
  assert (Habsent : JSMap.get (AutomaticTradeExecutor.activeTrades e) "TCS_1" = None)
    by (vm_compute; reflexivity).
  split; [exact Habsent|].
  exact (C10_closeTrade_unknown_id Sim.config "TCS_1" e Habsent).
Defined.

(** ** Statistics *)

(** C8: the statistics should cover every trade ever closed.  A manual
    close that succeeds removes the trade from the only map the statistics
    read.  After the sample BUY at 100 is closed by hand at 110, for a P&L of
    10 at confidence 80, the executor reports no closed trade, a win rate of
    0, a total P&L of 0 and an average confidence of 0, where the
    specification's figures over that closed trade are 100, 10 and 80. *)
Theorem C8_statistics_forget_closed_trades :
  (forall (W : Type) (client : ZerodhaClient W)
          (config : AutomaticTradeExecutor.AutomaticTradeConfig) (tradeId : string)
          (e e' : AutomaticTradeExecutor.Executor W) (b : bool),
      AutomaticTradeExecutor.closeTrade config tradeId e = (Resolved b, e') ->
      b = true /\ JSMap.get (AutomaticTradeExecutor.activeTrades e') tradeId = None)
  /\ exists t e1 e2,
       Sim.execute_once (Resolved tt) [] = (Resolved (Some t), e1)
       /\ AutomaticTradeExecutor.closeTrade Sim.config (AutomaticTradeExecutor.id t) e1
          = (Resolved true, e2)
       /\ AutomaticTradeExecutor.pnl_at t 110 == 10
       /\ AutomaticTradeExecutor.activeTrades e2 = []
       /\ let closed :=
            AutomaticTradeExecutor.set_closedAt 1700000000007
              (AutomaticTradeExecutor.set_pnl (AutomaticTradeExecutor.pnl_at t 110)
                 (AutomaticTradeExecutor.set_exitPrice 110
                    (AutomaticTradeExecutor.set_status AutomaticTradeExecutor.CLOSED t))) in
          let stats := AutomaticTradeExecutor.getStatistics e2 in
          AutomaticTradeExecutor.closedTradesCount stats = 0%nat
          /\ AutomaticTradeExecutor.winRate stats == 0
          /\ AutomaticTradeExecutor.totalPnL stats == 0
          /\ AutomaticTradeExecutor.avgConfidence stats == 0
          /\ StatisticsSpec.winRate [closed] == 100
          /\ StatisticsSpec.totalPnL [] [closed] == 10
          /\ StatisticsSpec.avgConfidence [] [closed] == 80.
Proof.
  split.
  - intros W client config tradeId e e' b Hrun.
    exact (closeTrade_resolved config tradeId e e' b Hrun).
  - do 3 eexists.
    split; [vm_compute; reflexivity|].
    split; [vm_compute; reflexivity|].
    split; [vm_compute; reflexivity|].
    split; [vm_compute; reflexivity|].
    cbv zeta. repeat split; vm_compute; reflexivity.
Qed.

(** ** Option strikes *)


Lemma num_nonneg (k : nat) : 0 <= JS.num k.
Proof.
  unfold JS.num. change 0 with (inject_Z 0). rewrite <- Zle_Qle. lia.
Qed.

Lemma num_le (j k : nat) : (j <= k)%nat -> JS.num j <= JS.num k.
Proof.
  intros Hjk. unfold JS.num. rewrite <- Zle_Qle. lia.
Qed.


Section StrikeLoop.
Variables (lo hi step : Q).
Hypothesis step_pos : 0 < step.

Import OptionsTradeService.




End StrikeLoop.










(** ** Option strategies *)


(** X4: in an iron condor whose long call is not below its short call and
    whose long put is not above its short put, [createIronCondor] takes the
    put wing alone for the max loss: max loss = put width - credit, the max
    profit is the credit, and the break-evens are the short strikes moved
    outwards by the credit. *)
Theorem iron_condor_payoff (toString : Q -> string)
  (longCall shortCall longPut shortPut : OptionsTradeService.OptionContract) :
  OptionsTradeService.strikePrice shortCall <= OptionsTradeService.strikePrice longCall ->
  OptionsTradeService.strikePrice longPut <= OptionsTradeService.strikePrice shortPut ->
  let s := OptionsTradeService.createIronCondor toString longCall shortCall longPut shortPut in
  let credit := OptionsTradeService.netCredit s in
  OptionsTradeService.maxProfit s = OptionsTradeService.Finite credit
  /\ OptionsTradeService.maxLoss s
     == OptionsTradeService.strikePrice shortPut - OptionsTradeService.strikePrice longPut
        - credit
  /\ OptionsTradeService.breakEvenLow s == OptionsTradeService.strikePrice shortPut - credit
  /\ OptionsTradeService.breakEvenHigh s == OptionsTradeService.strikePrice shortCall + credit.
Proof.
  intros Hcall Hput. cbv zeta. simpl.
  split; [reflexivity|]. split; [|split; reflexivity].
  rewrite Q.max_r by lra. reflexivity.
Qed.

Lemma iron_condor_payoff_witness :
  OptionsTradeService.strikePrice OptionSamples.shortCall
    <= OptionsTradeService.strikePrice OptionSamples.longCall
  /\ OptionsTradeService.strikePrice OptionSamples.longPut
       <= OptionsTradeService.strikePrice OptionSamples.shortPut
  /\ OptionsTradeService.maxLoss
       (OptionsTradeService.createIronCondor (fun _ => EmptyString)
          OptionSamples.longCall OptionSamples.shortCall
          OptionSamples.longPut OptionSamples.shortPut)
     == 100 - 29.
Proof.
  assert (Hcall : OptionsTradeService.strikePrice OptionSamples.shortCall
                  <= OptionsTradeService.strikePrice OptionSamples.longCall)
    by discriminate.
  assert (Hput : OptionsTradeService.strikePrice OptionSamples.longPut
                 <= OptionsTradeService.strikePrice OptionSamples.shortPut)
    by discriminate.
  split; [exact Hcall|]. split; [exact Hput|].
  destruct (iron_condor_payoff (fun _ => EmptyString) _ _ _ _ Hcall Hput)
    as (_ & Hloss & _).
  rewrite Hloss. reflexivity.
Defined.

(** X5: [suggestStrategy] always suggests one or two strategies, and two
    exactly when the volatility is beyond the trend's threshold: above 30 in a
    BUY or SELL market, above 35 or below 15 in a neutral one. *)
Theorem suggestStrategy_count (marketTrend : OptionsTradeService.MarketTrend)
  (volatility basePrice : Q)
  (currentOptions : list OptionsTradeService.OptionContract) :
  let suggestions :=
    OptionsTradeService.suggestStrategy marketTrend volatility basePrice currentOptions in
  (1 <= List.length suggestions <= 2)%nat
  /\ (List.length suggestions = 2%nat
      <-> match marketTrend with
          | OptionsTradeService.MT_NEUTRAL => 35 < volatility \/ volatility < 15
          | _ => 30 < volatility
          end).
Proof.
  cbv zeta. unfold OptionsTradeService.suggestStrategy.
  destruct marketTrend.
  - destruct (JS.gtb volatility 30) eqn:E; simpl.
    + apply gtb_gt in E. split; [lia|]. split; [intros _; exact E | reflexivity].
    + apply ltb_ge in E. split; [lia|]. split; [discriminate | lra].
  - destruct (JS.gtb volatility 30) eqn:E; simpl.
    + apply gtb_gt in E. split; [lia|]. split; [intros _; exact E | reflexivity].
    + apply ltb_ge in E. split; [lia|]. split; [discriminate | lra].
  - destruct (JS.gtb volatility 35) eqn:E; destruct (JS.ltb volatility 15) eqn:F; simpl.
    + apply gtb_gt in E. apply ltb_lt in F. lra.
    + apply gtb_gt in E. split; [lia|]. split; [intros _; now left | reflexivity].
    + apply ltb_lt in F. split; [lia|]. split; [intros _; now right | reflexivity].
    + apply ltb_ge in E. apply ltb_ge in F. split; [lia|].
      split; [discriminate | intros [H|H]; lra].
Qed.

(** ** RSI, once more: range and the two implementations *)

Lemma sum_acc (xs : list Q) (a : Q) : fold_left Qplus xs a == a + JS.sum xs.
Proof.
  unfold JS.sum. revert a. induction xs as [|x xs IH]; intros a; simpl; [ring|].
  rewrite (IH (a + x)), (IH (0 + x)). ring.
Qed.

Lemma sum_cons (x : Q) (xs : list Q) : JS.sum (x :: xs) == x + JS.sum xs.
Proof. unfold JS.sum at 1. simpl. rewrite sum_acc. ring. Qed.

Lemma sum_nonpos (xs : list Q) : Forall (fun x => x <= 0) xs -> JS.sum xs <= 0.
Proof.
  induction 1 as [|x xs Hx _ IH]; [discriminate|]. cbv beta in Hx. rewrite sum_cons. lra.
Qed.

Lemma sum_neg (xs : list Q) :
  Forall (fun x => x < 0) xs -> xs <> [] -> JS.sum xs < 0.
Proof.
  intros Hall Hne. destruct Hall as [|x xs Hx Hxs]; [congruence|].
  cbv beta in Hx. rewrite sum_cons.
  assert (JS.sum xs <= 0).
  { apply sum_nonpos. eapply Forall_impl; [|exact Hxs]. cbv beta; intros; lra. }
  lra.
Qed.

Lemma sum_abs_of_negative (xs : list Q) :
  Forall (fun x => x < 0) xs -> JS.sum (map Qabs xs) == Qabs (JS.sum xs).
Proof.
  intros Hall.
  assert (Hopp : JS.sum (map Qabs xs) == - JS.sum xs).
  { induction Hall as [|x xs Hx _ IH]; [reflexivity|].
    cbv beta in Hx. simpl map. rewrite !sum_cons, IH, Qabs_neg by lra. ring. }
  rewrite Hopp, Qabs_neg; [reflexivity|].
  apply sum_nonpos. eapply Forall_impl; [|exact Hall]. cbv beta; intros; lra.
Qed.

Lemma Forall_filter_gt (xs : list Q) :
  Forall (fun c => 0 <= c) (filter (fun c => JS.gtb c 0) xs).
Proof.
  apply Forall_forall. intros c Hc. apply filter_In in Hc. destruct Hc as [_ Hc].
  apply gtb_gt in Hc. lra.
Qed.

Lemma Forall_filter_lt (xs : list Q) :
  Forall (fun c => c < 0) (filter (fun c => JS.ltb c 0) xs).
Proof.
  apply Forall_forall. intros c Hc. apply filter_In in Hc. destruct Hc as [_ Hc].
  now apply ltb_lt in Hc.
Qed.

(** [100 - 100 / (1 + rs)] for a relative strength that is not negative. *)
Lemma rsi_of_strength (rs : Q) : 0 <= rs -> 0 <= 100 - 100 / (1 + rs) /\ 100 - 100 / (1 + rs) < 100.
Proof.
  intros Hrs.
  assert (Hinv : 0 < / (1 + rs)) by (apply Qinv_lt_0_compat; lra).
  assert (Hone : (1 + rs) * / (1 + rs) == 1) by (apply Qmult_inv_r; lra).
  assert (Hle : / (1 + rs) <= 1).
  { assert (Hm : 0 <= rs * / (1 + rs)) by (apply Qmult_le_0_compat; lra). lra. }
  unfold Qdiv. split; lra.
Qed.




(** X7: on enough candles the detector's RSI and the market-analysis RSI are
    the same number as soon as one close is below the one before it; on a
    series without such a fall they part: the detector's guard gives 0, the
    market-analysis guard gives 100 - 100/101. *)
Theorem rsi_implementations_compared (candles : list Candle) (period : nat) :
  (1 <= period)%nat ->
  (period + 1 <= List.length candles)%nat ->
  let changes := JS.map_with_prev (fun c prev => c - prev) (map close candles) in
  (Exists (fun c => c < 0) changes ->
     SignalDetectionService.calculateRSI candles period
     == AIMarketAnalysisService.calculateRSI (map close candles) period)
  /\ (Forall (fun c => 0 <= c) changes ->
        SignalDetectionService.calculateRSI candles period == 0
        /\ AIMarketAnalysisService.calculateRSI (map close candles) period == 10000 # 101).
Proof.
  intros Hperiod Hlen changes. pose proof (num_pos period Hperiod) as Hn.
  assert (Hlong : (List.length (map close candles) <? period + 1)%nat = false).
  { apply Nat.ltb_ge. rewrite length_map. exact Hlen. }
  split.
  - intros Hfall.
    unfold SignalDetectionService.calculateRSI, AIMarketAnalysisService.calculateRSI.
    rewrite Hlong. cbv zeta. fold changes.
    set (negs := filter (fun c => JS.ltb c 0) changes).
    set (gains := JS.sum (filter (fun c => JS.gtb c 0) changes)).
    assert (Hnegs : Forall (fun c => c < 0) negs) by apply Forall_filter_lt.
    assert (Hne : negs <> []).
    { apply Exists_exists in Hfall. destruct Hfall as (c & Hin & Hc).
      assert (Hc' : In c negs) by (apply filter_In; split; [exact Hin | now apply ltb_lt]).
      intros E. rewrite E in Hc'. exact Hc'. }
    pose proof (sum_abs_of_negative negs Hnegs) as Habs.
    pose proof (sum_neg negs Hnegs Hne) as Hsum.
    assert (Hloss : 0 < Qabs (JS.sum negs)) by (rewrite Qabs_neg; lra).
    assert (Hinv : 0 < / JS.num period) by now apply Qinv_lt_0_compat.
    assert (Hal : 0 < Qabs (JS.sum negs) / JS.num period).
    { unfold Qdiv. apply Qmult_lt_0_compat; assumption. }
    assert (E1 : JS.eqb (JS.sum (map Qabs negs) / JS.num period) 0 = false).
    { apply eqb_neq. rewrite Habs. lra. }
    assert (E2 : JS.eqb (Qabs (JS.sum negs) / JS.num period) 0 = false).
    { apply eqb_neq. lra. }
    rewrite E1, E2, Habs. reflexivity.
  - intros Hup. split; [now apply calculateRSI_no_losses|].
    unfold AIMarketAnalysisService.calculateRSI. rewrite Hlong. cbv zeta. fold changes.
    rewrite (filter_none (fun c => JS.ltb c 0)).
    + change (JS.sum []) with 0.
      assert (E : JS.eqb (Qabs 0 / JS.num period) 0 = true).
      { apply eqb_eq. unfold Qdiv. simpl Qabs. ring. }
      rewrite E. reflexivity.
    + eapply Forall_impl; [|exact Hup]. intros c Hc. now apply ltb_ge.
Qed.

(** The hourly sample falls from 195 to 105 and from 106 to 100: the two
    functions agree on it; the rising sample has no fall. *)
Lemma rsi_implementations_compared_witness :
  (1 <= 14)%nat /\ (14 + 1 <= List.length Samples.hourly_buy)%nat
  /\ Exists (fun c => c < 0)
       (JS.map_with_prev (fun c prev => c - prev) (map close Samples.hourly_buy))
  /\ SignalDetectionService.calculateRSI Samples.hourly_buy 14
     == AIMarketAnalysisService.calculateRSI (map close Samples.hourly_buy) 14.
Proof.
  assert (Hperiod : (1 <= 14)%nat) by lia.
  assert (Hlen : (14 + 1 <= List.length Samples.hourly_buy)%nat) by (vm_compute; lia).
  assert (Hfall : Exists (fun c => c < 0)
            (JS.map_with_prev (fun c prev => c - prev) (map close Samples.hourly_buy))).
  { apply Exists_cons_hd. reflexivity. }
  split; [exact Hperiod|]. split; [exact Hlen|]. split; [exact Hfall|].
  exact (proj1 (rsi_implementations_compared Samples.hourly_buy 14 Hperiod Hlen) Hfall).
Defined.

(** ** Moving averages stay inside the prices *)









(** ** Unanimity *)

(** The vote of one opinion for direction [d]. *)
Lemma votes_one (d : Side) (v : Signal) :
  let i := match v with Some x => if Side_eqb x d then 1%nat else 0%nat | None => 0%nat end in
  (i <= 1)%nat /\ (i = 1%nat -> v = Some d).
Proof.
  destruct v as [[|]|]; destruct d; simpl; split; (lia || congruence || reflexivity).
Qed.

Lemma votes_exclusive (v : Signal) :
  ((match v with Some x => if Side_eqb x BUY then 1 else 0 | None => 0 end)
   + (match v with Some x => if Side_eqb x SELL then 1 else 0 | None => 0 end) <= 1)%nat.
Proof. destruct v as [[|]|]; simpl; lia. Qed.

Lemma confidence_of_count (n : nat) : JS.num n / JS.num 10 * 100 == 10 * JS.num n.
Proof. change (JS.num 10) with 10. field. Qed.

(** Both MACD opinions are absent, so at most eight opinions can agree. *)
Lemma buildSignal_consensus (sqrt : Q -> Q) (token : Z) (sym : string)
  (candles1h candles15m : list Candle) (p : Q) (stamp : Z) :
  let s := UltimateStrategy.runAllSignals sqrt candles1h candles15m in
  let sig := UltimateStrategy.buildSignal sqrt token sym candles1h candles15m p stamp in
  UltimateStrategy.macd_1h s = None
  /\ UltimateStrategy.macd_15m s = None
  /\ UltimateStrategy.confidence sig <= 80
  /\ forall d,
       UltimateStrategy.signal sig = Some d ->
       UltimateStrategy.confidence sig == 80
       /\ Forall (fun v => v = Some d)
            [ UltimateStrategy.maCrossover_1h s; UltimateStrategy.rsi_1h s;
              UltimateStrategy.bollingerBands_1h s; UltimateStrategy.maCrossover_15m s;
              UltimateStrategy.rsi_15m s; UltimateStrategy.volumeConfirmation s;
              UltimateStrategy.trendStrength s; UltimateStrategy.srBounce s ].
Proof.
  intros s sig.
  assert (Hm1 : UltimateStrategy.macd_1h s = None) by apply detectMACD_none.
  assert (Hm2 : UltimateStrategy.macd_15m s = None) by apply detectMACD_none.
  split; [exact Hm1|]. split; [exact Hm2|].
  destruct (buildSignal_fields sqrt token sym candles1h candles15m p stamp)
    as (Hc & Hs & _).
  cbv zeta in Hc, Hs. fold s sig in Hc, Hs.
  pose proof (confidence_of_votes s) as Hconf. cbv zeta in Hconf.
  pose proof (final_of_votes s (fst (UltimateStrategy.calculateConfidence s))) as Hfin.
  cbv zeta in Hfin.
  rewrite Hc, Hs. rewrite Hfin. clear Hfin Hc Hs.
  assert (Hvals : UltimateStrategy.values s =
                  [ UltimateStrategy.maCrossover_1h s; UltimateStrategy.rsi_1h s; None;
                    UltimateStrategy.bollingerBands_1h s; UltimateStrategy.maCrossover_15m s;
                    UltimateStrategy.rsi_15m s; None; UltimateStrategy.volumeConfirmation s;
                    UltimateStrategy.trendStrength s; UltimateStrategy.srBounce s ]).
  { unfold UltimateStrategy.values, UltimateStrategy.entries. cbn [map snd].
    rewrite Hm1, Hm2. reflexivity. }
  rewrite Hvals in *. clear Hvals.
  generalize dependent (UltimateStrategy.maCrossover_1h s). intros v1.
  generalize (UltimateStrategy.rsi_1h s). intros v2.
  generalize (UltimateStrategy.bollingerBands_1h s). intros v3.
  generalize (UltimateStrategy.maCrossover_15m s). intros v4.
  generalize (UltimateStrategy.rsi_15m s). intros v5.
  generalize (UltimateStrategy.volumeConfirmation s). intros v6.
  generalize (UltimateStrategy.trendStrength s). intros v7.
  generalize (UltimateStrategy.srBounce s). intros v8.
  intros Hconf.
  rewrite !votes_cons in *.
  change (votes BUY []) with 0%nat in *. change (votes SELL []) with 0%nat in *.
  pose proof (votes_one BUY v1) as [B1 B1']. pose proof (votes_one SELL v1) as [S1 S1'].
  pose proof (votes_one BUY v2) as [B2 B2']. pose proof (votes_one SELL v2) as [S2 S2'].
  pose proof (votes_one BUY v3) as [B3 B3']. pose proof (votes_one SELL v3) as [S3 S3'].
  pose proof (votes_one BUY v4) as [B4 B4']. pose proof (votes_one SELL v4) as [S4 S4'].
  pose proof (votes_one BUY v5) as [B5 B5']. pose proof (votes_one SELL v5) as [S5 S5'].
  pose proof (votes_one BUY v6) as [B6 B6']. pose proof (votes_one SELL v6) as [S6 S6'].
  pose proof (votes_one BUY v7) as [B7 B7']. pose proof (votes_one SELL v7) as [S7 S7'].
  pose proof (votes_one BUY v8) as [B8 B8']. pose proof (votes_one SELL v8) as [S8 S8'].
  set (b1 := match v1 with Some x => if Side_eqb x BUY then 1%nat else 0%nat | None => 0%nat end) in *.
  set (b2 := match v2 with Some x => if Side_eqb x BUY then 1%nat else 0%nat | None => 0%nat end) in *.
  set (b3 := match v3 with Some x => if Side_eqb x BUY then 1%nat else 0%nat | None => 0%nat end) in *.
  set (b4 := match v4 with Some x => if Side_eqb x BUY then 1%nat else 0%nat | None => 0%nat end) in *.
  set (b5 := match v5 with Some x => if Side_eqb x BUY then 1%nat else 0%nat | None => 0%nat end) in *.
  set (b6 := match v6 with Some x => if Side_eqb x BUY then 1%nat else 0%nat | None => 0%nat end) in *.
  set (b7 := match v7 with Some x => if Side_eqb x BUY then 1%nat else 0%nat | None => 0%nat end) in *.
  set (b8 := match v8 with Some x => if Side_eqb x BUY then 1%nat else 0%nat | None => 0%nat end) in *.
  set (s1 := match v1 with Some x => if Side_eqb x SELL then 1%nat else 0%nat | None => 0%nat end) in *.
  set (s2 := match v2 with Some x => if Side_eqb x SELL then 1%nat else 0%nat | None => 0%nat end) in *.
  set (s3 := match v3 with Some x => if Side_eqb x SELL then 1%nat else 0%nat | None => 0%nat end) in *.
  set (s4 := match v4 with Some x => if Side_eqb x SELL then 1%nat else 0%nat | None => 0%nat end) in *.
  set (s5 := match v5 with Some x => if Side_eqb x SELL then 1%nat else 0%nat | None => 0%nat end) in *.
  set (s6 := match v6 with Some x => if Side_eqb x SELL then 1%nat else 0%nat | None => 0%nat end) in *.
  set (s7 := match v7 with Some x => if Side_eqb x SELL then 1%nat else 0%nat | None => 0%nat end) in *.
  set (s8 := match v8 with Some x => if Side_eqb x SELL then 1%nat else 0%nat | None => 0%nat end) in *.
  set (b := (b1 + (b2 + (0 + (b3 + (b4 + (b5 + (0 + (b6 + (b7 + (b8 + 0))))))))))%nat) in *.
  set (c := (s1 + (s2 + (0 + (s3 + (s4 + (s5 + (0 + (s6 + (s7 + (s8 + 0))))))))))%nat) in *.
  assert (Hb : (b <= 8)%nat) by (unfold b; lia).
  assert (Hc : (c <= 8)%nat) by (unfold c; lia).
  assert (Hnum : forall n, (n <= 8)%nat -> 10 * JS.num n <= 80).
  { intros n Hn. pose proof (num_le n 8 Hn) as H8. change (JS.num 8) with 8 in H8. lra. }
  assert (Hfull : forall n, (n <= 8)%nat -> 80 <= 10 * JS.num n -> n = 8%nat).
  { intros n Hn Hge. destruct (Nat.eq_dec n 8) as [|Hne]; [assumption|].
    assert (H7 : (n <= 7)%nat) by lia.
    pose proof (num_le n 7 H7) as H7'. change (JS.num 7) with 7 in H7'. lra. }
  split.
  - rewrite Hconf. destruct (c <? b)%nat; [|destruct (b <? c)%nat].
    + rewrite confidence_of_count. now apply Hnum.
    + rewrite confidence_of_count. now apply Hnum.
    + discriminate.
  - intros d Hd. rewrite Hconf in *. clear Hconf.
    destruct (JS.ltb _ 80) eqn:Hlow; [discriminate|]. apply ltb_ge in Hlow.
    destruct (c <? b)%nat eqn:Hcb.
    + inversion Hd; subst d. rewrite confidence_of_count in *.
      assert (b = 8%nat) by now apply Hfull.
      split; [subst b; replace (b1 + _)%nat with 8%nat by lia; reflexivity|].
      unfold b in *.
      repeat constructor; [apply B1'|apply B2'|apply B3'|apply B4'|apply B5'
                           |apply B6'|apply B7'|apply B8']; lia.
    + destruct (b <? c)%nat eqn:Hbc; [|discriminate].
      inversion Hd; subst d. rewrite confidence_of_count in *.
      assert (c = 8%nat) by now apply Hfull.
      split; [subst c; replace (s1 + _)%nat with 8%nat by lia; reflexivity|].
      unfold c in *.
      repeat constructor; [apply S1'|apply S2'|apply S3'|apply S4'|apply S5'
                           |apply S6'|apply S7'|apply S8']; lia.
Qed.

(** X9: both MACD opinions of an analysis are always absent, so at most
    eight of the ten opinions can agree: every resolved analysis has a
    confidence of at most 80, and it has a direction only when its confidence
    is exactly 80 and all eight other opinions, on the candles the gateway
    answered with, name that direction. *)
Theorem direction_needs_all_eight {W : Type} `{ZerodhaClient W}
  (sqrt : Q -> Q) (token : Z) (sym : string) (qty : Q) (w w' : World W)
  (sig : UltimateStrategy.UltimateStrategySignal) :
  UltimateStrategy.analyzeSymbol sqrt token sym qty w = (Resolved sig, w') ->
  exists candles1h candles15m,
    let s := UltimateStrategy.runAllSignals sqrt candles1h candles15m in
    (exists fromDate toDate,
        answers (getHistoricalData token "hour" fromDate toDate) candles1h)
    /\ (exists fromDate toDate,
          answers (getHistoricalData token "15minute" fromDate toDate) candles15m)
    /\ UltimateStrategy.macd_1h s = None
    /\ UltimateStrategy.macd_15m s = None
    /\ UltimateStrategy.confidence sig <= 80
    /\ forall d,
         UltimateStrategy.signal sig = Some d ->
         UltimateStrategy.confidence sig == 80
         /\ Forall (fun v => v = Some d)
              [ UltimateStrategy.maCrossover_1h s; UltimateStrategy.rsi_1h s;
                UltimateStrategy.bollingerBands_1h s; UltimateStrategy.maCrossover_15m s;
                UltimateStrategy.rsi_15m s; UltimateStrategy.volumeConfirmation s;
                UltimateStrategy.trendStrength s; UltimateStrategy.srBounce s ].
Proof.
  intros Hrun.
  destruct (analyzeSymbol_resolved _ _ _ _ _ _ _ Hrun)
    as (candles1h & candles15m & quote & stamp & Hhour & Hquarter & _ & ->).
  exists candles1h, candles15m. cbv zeta.
  split; [exact Hhour|]. split; [exact Hquarter|].
  exact (buildSignal_consensus sqrt token sym candles1h candles15m
           (lastPriceOr0 quote token) stamp).
Qed.

(** The analysis of the sample BUY market: all eight say BUY. *)
Lemma direction_needs_all_eight_witness :
  exists sig w',
    Sim.analysis 100 = (Resolved sig, w')
    /\ UltimateStrategy.signal sig = Some BUY
    /\ UltimateStrategy.confidence sig <= 80.
Proof.
  assert (Hrun : exists sig w',
             UltimateStrategy.analyzeSymbol Samples.sqrt6 738561 "RELIANCE" 1
               (mkWorld (Sim.buy_market [100] Sim.accepted (Resolved tt) []) [])
             = (Resolved sig, w')
             /\ UltimateStrategy.signal sig = Some BUY).
  { do 2 eexists. split; vm_compute; reflexivity. }
  destruct Hrun as (sig & w' & Hrun & Hbuy). exists sig, w'.
  destruct (direction_needs_all_eight Samples.sqrt6 738561 "RELIANCE" 1 _ w' sig Hrun)
    as (candles1h & candles15m & _ & _ & _ & _ & Hle & _).
  split; [exact Hrun|]. split; [exact Hbuy | exact Hle].
Defined.

(** ** The historical-data cache *)

Lemma JSMap_get_set_same {V} (m : JSMap.t V) (k : string) (v : V) :
  JSMap.get (JSMap.set m k v) k = Some v.
Proof.
  unfold JSMap.get. induction m as [|[k0 v0] m IH]; simpl.
  - now rewrite String.eqb_refl.
  - destruct (String.eqb k0 k) eqn:E; simpl.
    + now rewrite String.eqb_refl.
    + rewrite E. exact IH.
Qed.

Section HistoricalData.
Context {W : Type} `{ZerodhaClient W}.

Lemma service_liftW_run {A} (m : M (World W) A) (s : HistoricalDataService.Service W) :
  HistoricalDataService.liftW m s
  = (fst (m (HistoricalDataService.world s)),
     HistoricalDataService.mkService (HistoricalDataService.cache s)
       (HistoricalDataService.zerodhaClient s) (snd (m (HistoricalDataService.world s)))).
Proof.
  unfold HistoricalDataService.liftW.
  destruct (m (HistoricalDataService.world s)); reflexivity.
Qed.

(** The fetch: two clock readings, one request, and on success a third clock
    reading and one new cache entry. *)
Lemma fetchAndCache_spec (token : Z) (sym itv : string) (daysBack : Z)
  (s s' : HistoricalDataService.Service W) (r : Outcome (list Candle)) :
  HistoricalDataService.fetchAndCache token sym itv daysBack s = (r, s') ->
  HistoricalDataService.zerodhaClient s' = HistoricalDataService.zerodhaClient s
  /\ exists l fromDate toDate,
       calls (HistoricalDataService.world s')
       = calls (HistoricalDataService.world s) ++ [l]
       /\ call l = CallGetHistoricalData token itv fromDate toDate
       /\ fromDate = UltimateStrategy.dateBefore
                       (fst (Date_now (host (HistoricalDataService.world s)))) daysBack
       /\ match r with
          | Resolved fetched =>
              failure l = None
              /\ exists updated,
                   HistoricalDataService.cache s'
                   = JSMap.set (HistoricalDataService.cache s)
                       (HistoricalDataService.cacheKey sym itv)
                       (HistoricalDataService.mkCache sym token itv fetched updated
                          HistoricalDataService.cacheExpiry)
          | Rejected e =>
              failure l = Some e
              /\ HistoricalDataService.cache s' = HistoricalDataService.cache s
          end.
Proof.
  unfold HistoricalDataService.fetchAndCache. rewrite try_catch_rethrow.
  destruct s as [c z [h log]].
  unfold HistoricalDataService.liftW, HistoricalDataService.getDateBefore, new_Date,
    zerodha_getHistoricalData, request, HistoricalDataService.cache_set, modify, bind, ret.
  cbn [HistoricalDataService.world HistoricalDataService.cache
       HistoricalDataService.zerodhaClient host calls fst snd].
  destruct (Date_now h) as [t1 h1].
  cbn [HistoricalDataService.world HistoricalDataService.cache
       HistoricalDataService.zerodhaClient host calls fst snd].
  destruct (Date_now h1) as [t2 h2].
  cbn [HistoricalDataService.world HistoricalDataService.cache
       HistoricalDataService.zerodhaClient host calls fst snd].
  destruct (getHistoricalData token itv (UltimateStrategy.dateBefore t1 daysBack) t2 h2)
    as [[fetched|e] h3];
    cbn [HistoricalDataService.world HistoricalDataService.cache
         HistoricalDataService.zerodhaClient host calls fst snd rejection].
  - destruct (Date_now h3) as [t3 h4].
    cbn [HistoricalDataService.world HistoricalDataService.cache
         HistoricalDataService.zerodhaClient host calls fst snd].
    intros E. inversion E; subst; clear E.
    cbn [HistoricalDataService.world HistoricalDataService.cache
         HistoricalDataService.zerodhaClient host calls].
    split; [reflexivity|]. do 3 eexists.
    split; [reflexivity|]. split; [reflexivity|]. split; [reflexivity|].
    split; [reflexivity|]. eexists. reflexivity.
  - intros E. inversion E; subst; clear E.
    cbn [HistoricalDataService.world HistoricalDataService.cache
         HistoricalDataService.zerodhaClient host calls].
    split; [reflexivity|]. do 3 eexists.
    split; [reflexivity|]. split; [reflexivity|]. split; [reflexivity|].
    split; reflexivity.
Qed.

End HistoricalData.

(** X14: while a cache entry for the symbol and interval is fresh,
    [getHistoricalData] answers with the cached candles whatever instrument
    token and whatever number of days it is asked for, sends nothing to the
    gateway and leaves the cache as it is. *)
Theorem cached_candles_served {W : Type} `{ZerodhaClient W}
  (token : Z) (sym itv : string) (daysBack : Z)
  (s : HistoricalDataService.Service W)
  (cached : HistoricalDataService.HistoricalDataCache) :
  HistoricalDataService.zerodhaClient s = true ->
  JSMap.get (HistoricalDataService.cache s) (HistoricalDataService.cacheKey sym itv)
  = Some cached ->
  (fst (Date_now (host (HistoricalDataService.world s)))
   < HistoricalDataService.lastUpdated cached + HistoricalDataService.expiryTime cached)%Z ->
  exists s',
    HistoricalDataService.getHistoricalData token sym itv daysBack s
    = (Resolved (HistoricalDataService.data cached), s')
    /\ HistoricalDataService.cache s' = HistoricalDataService.cache s
    /\ calls (HistoricalDataService.world s') = calls (HistoricalDataService.world s).
Proof.
  intros Hclient Hentry Hfresh.
  unfold HistoricalDataService.getHistoricalData, bind, get.
  rewrite Hclient, Hentry. cbn [negb].
  rewrite service_liftW_run, new_Date_run. cbn [fst snd].
  apply Z.ltb_lt in Hfresh. rewrite Hfresh.
  unfold console_log, ret. eexists. split; [reflexivity|]. split; reflexivity.
Qed.

(** The warmed service is asked again, for another token and 30 days. *)
Lemma cached_candles_served_witness :
  exists cached s',
    JSMap.get (HistoricalDataService.cache HistorySamples.warmed)
      (HistoricalDataService.cacheKey "RELIANCE" "hour") = Some cached
    /\ HistoricalDataService.getHistoricalData 1 "RELIANCE" "hour" 30 HistorySamples.warmed
       = (Resolved (HistoricalDataService.data cached), s')
    /\ calls (HistoricalDataService.world s')
       = calls (HistoricalDataService.world HistorySamples.warmed).
Proof.
  eexists.
  assert (Hclient : HistoricalDataService.zerodhaClient HistorySamples.warmed = true)
    by (vm_compute; reflexivity).
  assert (Hentry : JSMap.get (HistoricalDataService.cache HistorySamples.warmed)
                     (HistoricalDataService.cacheKey "RELIANCE" "hour")
                   = Some (HistoricalDataService.mkCache "RELIANCE" 738561 "hour"
                             Samples.hourly_buy 1700000000002
                             HistoricalDataService.cacheExpiry))
    by (vm_compute; reflexivity).
  destruct (cached_candles_served 1 "RELIANCE" "hour" 30 HistorySamples.warmed _
              Hclient Hentry) as (s' & Hrun & _ & Hlog).
  { vm_compute. reflexivity. }
  exists s'. split; [exact Hentry|]. split; [exact Hrun | exact Hlog].
Defined.

(** X15: when the service has a client and no fresh entry for the symbol and
    interval, [getHistoricalData] sends exactly one request, for candles from
    the day [daysBack] days before the clock reading; if it is answered the
    candles are returned and stored under the key with an expiry of five
    minutes, and if it is rejected the error is passed on and the cache is as
    before. *)
Theorem cache_miss_fetches {W : Type} `{ZerodhaClient W}
  (token : Z) (sym itv : string) (daysBack : Z)
  (s s' : HistoricalDataService.Service W) (r : Outcome (list Candle)) :
  HistoricalDataService.zerodhaClient s = true ->
  (forall cached,
      JSMap.get (HistoricalDataService.cache s) (HistoricalDataService.cacheKey sym itv)
      = Some cached ->
      (HistoricalDataService.lastUpdated cached + HistoricalDataService.expiryTime cached
       <= fst (Date_now (host (HistoricalDataService.world s))))%Z) ->
  HistoricalDataService.getHistoricalData token sym itv daysBack s = (r, s') ->
  exists l fromDate toDate,
    calls (HistoricalDataService.world s') = calls (HistoricalDataService.world s) ++ [l]
    /\ call l = CallGetHistoricalData token itv fromDate toDate
    /\ match r with
       | Resolved fetched =>
           failure l = None
           /\ exists updated,
                HistoricalDataService.cache s'
                = JSMap.set (HistoricalDataService.cache s)
                    (HistoricalDataService.cacheKey sym itv)
                    (HistoricalDataService.mkCache sym token itv fetched updated 300000)
       | Rejected e =>
           failure l = Some e
           /\ HistoricalDataService.cache s' = HistoricalDataService.cache s
       end.
Proof.
  intros Hclient Hstale.
  unfold HistoricalDataService.getHistoricalData. unfold bind at 1. unfold get.
  rewrite Hclient. cbn [negb].
  destruct (JSMap.get (HistoricalDataService.cache s)
              (HistoricalDataService.cacheKey sym itv)) as [cached|] eqn:Hentry.
  - specialize (Hstale cached eq_refl).
    unfold bind at 1. rewrite service_liftW_run, new_Date_run. cbn [fst snd].
    apply Z.ltb_ge in Hstale. rewrite Hstale.
    intros Hrun. apply fetchAndCache_spec in Hrun.
    destruct Hrun as (_ & l & fromDate & toDate & Hlog & Hcall & _ & Hr).
    exists l, fromDate, toDate. cbn [HistoricalDataService.world HistoricalDataService.cache calls] in *.
    split; [exact Hlog|]. split; [exact Hcall | exact Hr].
  - intros Hrun. apply fetchAndCache_spec in Hrun.
    destruct Hrun as (_ & l & fromDate & toDate & Hlog & Hcall & _ & Hr).
    exists l, fromDate, toDate.
    split; [exact Hlog|]. split; [exact Hcall | exact Hr].
Qed.

Lemma cache_miss_fetches_witness :
  exists s' l fromDate toDate,
    HistoricalDataService.getHistoricalData 738561 "RELIANCE" "hour" 5
      (HistorySamples.fresh HistorySamples.market) = (Resolved Samples.hourly_buy, s')
    /\ calls (HistoricalDataService.world s') = [] ++ [l]
    /\ call l = CallGetHistoricalData 738561 "hour" fromDate toDate
    /\ failure l = None
    /\ exists updated,
         HistoricalDataService.cache s'
         = JSMap.set [] (HistoricalDataService.cacheKey "RELIANCE" "hour")
             (HistoricalDataService.mkCache "RELIANCE" 738561 "hour" Samples.hourly_buy
                updated 300000).
Proof.
  eexists.
  assert (Hclient : HistoricalDataService.zerodhaClient
                      (HistorySamples.fresh HistorySamples.market) = true) by reflexivity.
  assert (Hstale : forall cached,
             JSMap.get (HistoricalDataService.cache
                          (HistorySamples.fresh HistorySamples.market))
               (HistoricalDataService.cacheKey "RELIANCE" "hour") = Some cached ->
             (HistoricalDataService.lastUpdated cached
              + HistoricalDataService.expiryTime cached
              <= fst (Date_now (host (HistoricalDataService.world
                                        (HistorySamples.fresh HistorySamples.market)))))%Z)
    by (intros cached Hc; vm_compute in Hc; discriminate).
  assert (Hrun : HistoricalDataService.getHistoricalData 738561 "RELIANCE" "hour" 5
                   (HistorySamples.fresh HistorySamples.market)
                 = (Resolved Samples.hourly_buy, HistorySamples.warmed))
    by (vm_compute; reflexivity).
  destruct (cache_miss_fetches 738561 "RELIANCE" "hour" 5 _ _ _ Hclient Hstale Hrun)
    as (l & fromDate & toDate & Hlog & Hcall & Hnone & Hcache).
  exists l, fromDate, toDate.
  split; [exact Hrun|]. split; [exact Hlog|]. split; [exact Hcall|].
  split; [exact Hnone | exact Hcache].
Defined.

(** X16: whenever [getHistoricalData] rejects, the cache is as it was.  Without
    a client it rejects with 'Zerodha client not initialized' before anything
    else happens; with a client the error is the one the gateway rejected the
    single candle request with. *)
Theorem getHistoricalData_rejection {W : Type} `{ZerodhaClient W}
  (token : Z) (sym itv : string) (daysBack : Z)
  (s s' : HistoricalDataService.Service W) (e : Error) :
  HistoricalDataService.getHistoricalData token sym itv daysBack s = (Rejected e, s') ->
  HistoricalDataService.cache s' = HistoricalDataService.cache s
  /\ (HistoricalDataService.zerodhaClient s = false
      /\ e = mkError "Zerodha client not initialized" /\ s' = s
      \/ HistoricalDataService.zerodhaClient s = true
         /\ exists fromDate toDate,
              calls (HistoricalDataService.world s')
              = calls (HistoricalDataService.world s)
                ++ [mkLogged (CallGetHistoricalData token itv fromDate toDate) (Some e)]).
Proof.
  unfold HistoricalDataService.getHistoricalData. unfold bind at 1. unfold get.
  destruct (HistoricalDataService.zerodhaClient s) eqn:Hclient; cbn [negb].
  2:{ unfold throw. intros E. inversion E; subst. split; [reflexivity|]. left. tauto. }
  assert (Hfetch : forall s0,
             HistoricalDataService.cache s0 = HistoricalDataService.cache s ->
             calls (HistoricalDataService.world s0) = calls (HistoricalDataService.world s) ->
             HistoricalDataService.fetchAndCache token sym itv daysBack s0 = (Rejected e, s') ->
             HistoricalDataService.cache s' = HistoricalDataService.cache s
             /\ exists fromDate toDate,
                  calls (HistoricalDataService.world s')
                  = calls (HistoricalDataService.world s)
                    ++ [mkLogged (CallGetHistoricalData token itv fromDate toDate) (Some e)]).
  { intros s0 Hc0 Hl0 Hrun. apply fetchAndCache_spec in Hrun.
    destruct Hrun as (_ & l & fromDate & toDate & Hlog & Hcall & _ & Hfail & Hcache).
    split; [congruence|]. exists fromDate, toDate. rewrite Hlog, Hl0.
    destruct l as [c f]. simpl in Hcall, Hfail. now subst. }
  destruct (JSMap.get (HistoricalDataService.cache s)
              (HistoricalDataService.cacheKey sym itv)) as [cached|].
  - unfold bind at 1. rewrite service_liftW_run, new_Date_run. cbn [fst snd].
    destruct (_ <? _)%Z.
    + unfold bind, console_log, ret. discriminate.
    + intros Hrun. apply Hfetch in Hrun; [|reflexivity|reflexivity].
      destruct Hrun as [Hc Hl]. split; [exact Hc|]. right. split; [reflexivity | exact Hl].
  - intros Hrun. apply Hfetch in Hrun; [|reflexivity|reflexivity].
    destruct Hrun as [Hc Hl]. split; [exact Hc|]. right. split; [reflexivity | exact Hl].
Qed.

Lemma getHistoricalData_rejection_witness :
  exists s',
    HistoricalDataService.getHistoricalData 738561 "RELIANCE" "hour" 5
      (HistorySamples.fresh HistorySamples.offline) = (Rejected Sim.networkError, s')
    /\ HistoricalDataService.cache s' = [].
Proof.
  eexists.
  assert (Hrun : HistoricalDataService.getHistoricalData 738561 "RELIANCE" "hour" 5
                   (HistorySamples.fresh HistorySamples.offline)
                 = (Rejected Sim.networkError,
                    snd (HistoricalDataService.getHistoricalData 738561 "RELIANCE" "hour" 5
                           (HistorySamples.fresh HistorySamples.offline))))
    by (vm_compute; reflexivity).
  split; [exact Hrun|].
  exact (proj1 (getHistoricalData_rejection 738561 "RELIANCE" "hour" 5 _ _ _ Hrun)).
Defined.

Lemma JSMap_get_filter {V} (p : string -> bool) (m : JSMap.t V) (k : string) :
  JSMap.get (filter (fun kv => p (fst kv)) m) k = if p k then JSMap.get m k else None.
Proof.
  unfold JSMap.get. induction m as [|[k0 v0] m IH]; simpl.
  - now destruct (p k).
  - destruct (p k0) eqn:Ep; simpl.
    + destruct (String.eqb k0 k) eqn:E.
      * apply String.eqb_eq in E. subst k0. now rewrite Ep.
      * exact IH.
    + destruct (String.eqb k0 k) eqn:E.
      * apply String.eqb_eq in E. subst k0. rewrite Ep in IH |- *. exact IH.
      * exact IH.
Qed.

Lemma truthy_nonempty (x : string) : x <> ""%string -> HistoricalDataService.truthy (Some x) = true.
Proof.
  intros Hx. unfold HistoricalDataService.truthy. apply negb_true_iff.
  now apply String.eqb_neq.
Qed.

(** X17: [clearCache(symbol, interval)] forgets the one key of that symbol
    and interval; [clearCache(symbol)] forgets every key that starts with the
    symbol, and with it the entries of every other symbol whose name starts
    the same way; every other entry is kept in both cases. *)
Theorem clearCache_forgets {W : Type} (sym itv : string)
  (s : HistoricalDataService.Service W) (k : string) :
  sym <> ""%string -> itv <> ""%string ->
  JSMap.get (HistoricalDataService.cache
               (HistoricalDataService.clearCache (Some sym) (Some itv) s)) k
  = (if String.eqb k (HistoricalDataService.cacheKey sym itv) then None
     else JSMap.get (HistoricalDataService.cache s) k)
  /\ JSMap.get (HistoricalDataService.cache
                  (HistoricalDataService.clearCache (Some sym) None s)) k
     = (if String.prefix sym k then None
        else JSMap.get (HistoricalDataService.cache s) k)
  /\ HistoricalDataService.cache (HistoricalDataService.clearCache None None s) = [].
Proof.
  intros Hsym Hitv. unfold HistoricalDataService.clearCache.
  rewrite (truthy_nonempty sym Hsym), (truthy_nonempty itv Hitv).
  cbn [andb HistoricalDataService.truthy HistoricalDataService.text
       HistoricalDataService.cache].
  split; [|split; [|reflexivity]].
  - destruct (String.eqb k (HistoricalDataService.cacheKey sym itv)) eqn:E.
    + apply String.eqb_eq in E. subst k. apply JSMap_get_delete_same.
    + apply String.eqb_neq in E. now apply JSMap_get_delete_other.
  - rewrite (JSMap_get_filter (fun key => negb (String.prefix sym key))).
    now destruct (String.prefix sym k).
Qed.

(** Clearing NIFTY also forgets NIFTYBANK. *)
Lemma clearCache_forgets_witness :
  ("NIFTY" <> "" /\ "day" <> "")%string
  /\ JSMap.get (HistoricalDataService.cache
                  (HistoricalDataService.clearCache (Some "NIFTY"%string) None
                     HistorySamples.three_symbols)) "NIFTYBANK_day" = None
  /\ map fst (HistoricalDataService.cache
                (HistoricalDataService.clearCache (Some "NIFTY"%string) None
                   HistorySamples.three_symbols)) = ["TCS_day"%string]
  /\ map fst (HistoricalDataService.cache
                (HistoricalDataService.clearCache (Some "NIFTY"%string) (Some "day"%string)
                   HistorySamples.three_symbols)) = ["NIFTYBANK_day"; "TCS_day"]%string.
Proof.
  assert (Hsym : "NIFTY"%string <> ""%string) by discriminate.
  assert (Hitv : "day"%string <> ""%string) by discriminate.
  split; [split; assumption|].
  split; [|split; vm_compute; reflexivity].
  rewrite (proj1 (proj2 (clearCache_forgets "NIFTY" "day" HistorySamples.three_symbols
                           "NIFTYBANK_day" Hsym Hitv))).
  reflexivity.
Defined.

(** ** Data quality *)



Lemma filter_length_le {A} (f : A -> bool) (xs : list A) :
  (List.length (filter f xs) <= List.length xs)%nat.
Proof. induction xs as [|x xs IH]; simpl; [lia|]. destruct (f x); simpl; lia. Qed.



(** ** Market analysis *)

Lemma clamp100_range (x : Q) :
  0 <= AIMarketAnalysisService.clamp100 x /\ AIMarketAnalysisService.clamp100 x <= 100.
Proof.
  unfold AIMarketAnalysisService.clamp100. split; [apply Q.le_max_l|].
  apply Q.max_lub; [discriminate | apply Q.le_min_l].
Qed.

Lemma market_rsi_range (prices : list Q) (period : nat) :
  (1 <= period)%nat ->
  0 <= AIMarketAnalysisService.calculateRSI prices period
  /\ AIMarketAnalysisService.calculateRSI prices period < 100.
Proof.
  intros Hperiod. pose proof (num_pos period Hperiod) as Hn.
  unfold AIMarketAnalysisService.calculateRSI.
  destruct (List.length prices <? period + 1)%nat; [split; [discriminate|reflexivity]|].
  cbv zeta. apply rsi_of_strength.
  destruct (JS.eqb _ 0) eqn:E; [lra|]. apply eqb_neq in E.
  set (changes := JS.map_with_prev (fun p prev => p - prev) prices) in *.
  pose proof (Qabs_nonneg (JS.sum (filter (fun c => JS.ltb c 0) changes))) as Hl.
  pose proof (sum_nonneg _ (Forall_filter_gt changes)) as Hg.
  pose proof (div_nonneg _ _ Hl Hn) as Hal.
  pose proof (div_nonneg _ _ Hg Hn) as Hag.
  apply div_nonneg; [exact Hag|]. lra.
Qed.

(** The four adjustments of the AI score cannot leave 23..95: the clamp of
    [calculateAIScore] never acts. *)
Lemma calculateAIScore_range (sqrt : Q -> Q) (candles : list Candle)
  (signals : AIMarketAnalysisService.Signals) :
  23 <= AIMarketAnalysisService.calculateAIScore sqrt candles signals
  /\ AIMarketAnalysisService.calculateAIScore sqrt candles signals <= 95.
Proof.
  unfold AIMarketAnalysisService.calculateAIScore. cbv zeta.
  repeat match goal with
         | |- context [if ?c then _ else _] => destruct c
         end;
    split; apply Qle_bool_iff; reflexivity.
Qed.

Lemma calculateConfidence_le (aiScore technicalScore : Q) (patterns : list string) :
  AIMarketAnalysisService.calculateConfidence aiScore technicalScore patterns <= 100.
Proof. unfold AIMarketAnalysisService.calculateConfidence. cbv zeta. apply Q.le_min_l. Qed.

Lemma opposite_pair (a b : Q) (x y : bool) :
  JS.gtb a b && x = true -> JS.ltb a b && y = true -> False.
Proof.
  intros H1 H2. apply andb_true_iff in H1, H2. destruct H1 as [H1 _], H2 as [H2 _].
  apply gtb_gt in H1. apply ltb_lt in H2. lra.
Qed.

Lemma opposite_triple (a b : Q) (x y x' y' : bool) :
  JS.gtb a b && x && y = true -> JS.ltb a b && x' && y' = true -> False.
Proof.
  intros H1 H2. apply andb_true_iff in H1, H2. destruct H1 as [H1 _], H2 as [H2 _].
  exact (opposite_pair _ _ _ _ H1 H2).
Qed.

Lemma opposite_pair' (a b : Q) (x y : bool) :
  JS.ltb a b && x = true -> JS.gtb a b && y = true -> False.
Proof. intros H1 H2. exact (opposite_pair _ _ _ _ H2 H1). Qed.

(** X11: on at least five candles [detectPatterns] finds at most three
    patterns, and the two members of an opposite pair never occur together:
    double bottom and double top, higher highs and lower highs, bullish and
    bearish engulfing. *)
Theorem detectPatterns_opposites (candles : list Candle) :
  (5 <= List.length candles)%nat ->
  let ps := AIMarketAnalysisService.detectPatterns candles in
  (List.length ps <= 3)%nat
  /\ AIMarketAnalysisService.has_pattern ps "DOUBLE_BOTTOM"
     && AIMarketAnalysisService.has_pattern ps "DOUBLE_TOP" = false
  /\ AIMarketAnalysisService.has_pattern ps "HIGHER_HIGHS"
     && AIMarketAnalysisService.has_pattern ps "LOWER_HIGHS" = false
  /\ AIMarketAnalysisService.has_pattern ps "BULLISH_ENGULFING"
     && AIMarketAnalysisService.has_pattern ps "BEARISH_ENGULFING" = false.
Proof.
  intros _. unfold AIMarketAnalysisService.detectPatterns. cbv zeta.
  set (closes := map close candles). set (opens := map open candles).
  set (n := List.length closes).
  set (recent5 := JS.slice_last 5 closes).
  destruct (JS.gtb (AIMarketAnalysisService.at_ closes (n - 1))
                   (AIMarketAnalysisService.at_ closes (n - 2))
            && JS.ltb (AIMarketAnalysisService.at_ closes (n - 2))
                      (AIMarketAnalysisService.at_ closes (n - 3))) eqn:E1;
  destruct (JS.ltb (AIMarketAnalysisService.at_ closes (n - 1))
                   (AIMarketAnalysisService.at_ closes (n - 2))
            && JS.gtb (AIMarketAnalysisService.at_ closes (n - 2))
                      (AIMarketAnalysisService.at_ closes (n - 3))) eqn:E2;
  try (exfalso; exact (opposite_pair _ _ _ _ E1 E2));
  destruct (JS.gtb (AIMarketAnalysisService.at_ recent5 4)
                   (AIMarketAnalysisService.at_ recent5 3)
            && JS.gtb (AIMarketAnalysisService.at_ recent5 3)
                      (AIMarketAnalysisService.at_ recent5 2)
            && JS.gtb (AIMarketAnalysisService.at_ recent5 2)
                      (AIMarketAnalysisService.at_ recent5 1)) eqn:E3;
  destruct (JS.ltb (AIMarketAnalysisService.at_ recent5 4)
                   (AIMarketAnalysisService.at_ recent5 3)
            && JS.ltb (AIMarketAnalysisService.at_ recent5 3)
                      (AIMarketAnalysisService.at_ recent5 2)
            && JS.ltb (AIMarketAnalysisService.at_ recent5 2)
                      (AIMarketAnalysisService.at_ recent5 1)) eqn:E4;
  try (exfalso; exact (opposite_triple _ _ _ _ _ _ E3 E4));
  destruct (JS.gtb (AIMarketAnalysisService.at_ closes (n - 1))
                   (AIMarketAnalysisService.at_ opens (n - 1))
            && JS.ltb (AIMarketAnalysisService.at_ closes (n - 2))
                      (AIMarketAnalysisService.at_ opens (n - 2))
            && JS.ltb (AIMarketAnalysisService.at_ opens (n - 1))
                      (AIMarketAnalysisService.at_ closes (n - 2))) eqn:E5;
  destruct (JS.ltb (AIMarketAnalysisService.at_ closes (n - 1))
                   (AIMarketAnalysisService.at_ opens (n - 1))
            && JS.gtb (AIMarketAnalysisService.at_ closes (n - 2))
                      (AIMarketAnalysisService.at_ opens (n - 2))
            && JS.gtb (AIMarketAnalysisService.at_ opens (n - 1))
                      (AIMarketAnalysisService.at_ closes (n - 2))) eqn:E6;
  try (exfalso; exact (opposite_triple _ _ _ _ _ _ E5 E6));
  (split; [simpl; lia | repeat split; reflexivity]).
Qed.

(** X10: [analyzeMarket] rejects exactly the inputs of fewer than 50 candles,
    with its 'Insufficient data' error; on every other input it resolves with
    a technical score in 0..100, an AI score in 23..95 (its clamp to 0..100
    never acts), a confidence of at most 100, and the symbol and time frame it
    was asked for. *)
Theorem analyzeMarket_outcome (sqrt : Q -> Q) (candles : list Candle) (sym : string) :
  match AIMarketAnalysisService.analyzeMarket sqrt candles sym with
  | Rejected e =>
      (List.length candles < 50)%nat
      /\ e = mkError "Insufficient data for analysis. Need at least 50 candles."
  | Resolved r =>
      (50 <= List.length candles)%nat
      /\ 0 <= AIMarketAnalysisService.technicalScore r
      /\ AIMarketAnalysisService.technicalScore r <= 100
      /\ 23 <= AIMarketAnalysisService.aiScore r
      /\ AIMarketAnalysisService.aiScore r <= 95
      /\ AIMarketAnalysisService.confidence r <= 100
      /\ AIMarketAnalysisService.symbol r = sym
      /\ AIMarketAnalysisService.timeframe r = "1H"%string
  end.
Proof.
  unfold AIMarketAnalysisService.analyzeMarket.
  destruct (List.length candles <? 50)%nat eqn:Hlen.
  - apply Nat.ltb_lt in Hlen. split; [exact Hlen | reflexivity].
  - apply Nat.ltb_ge in Hlen. cbv zeta. simpl.
    split; [exact Hlen|].
    split; [apply clamp100_range|]. split; [apply clamp100_range|].
    split; [apply calculateAIScore_range|]. split; [apply calculateAIScore_range|].
    split; [apply calculateConfidence_le|]. split; reflexivity.
Qed.

Lemma detectPatterns_opposites_witness :
  (5 <= List.length MarketSamples.rising50)%nat
  /\ AIMarketAnalysisService.detectPatterns MarketSamples.rising50 = ["HIGHER_HIGHS"%string]
  /\ AIMarketAnalysisService.has_pattern
       (AIMarketAnalysisService.detectPatterns MarketSamples.rising50) "HIGHER_HIGHS"
     && AIMarketAnalysisService.has_pattern
          (AIMarketAnalysisService.detectPatterns MarketSamples.rising50) "LOWER_HIGHS"
     = false.
Proof.
  assert (Hlen : (5 <= List.length MarketSamples.rising50)%nat) by (vm_compute; lia).
  split; [exact Hlen|]. split; [vm_compute; reflexivity|].
  exact (proj1 (proj2 (proj2 (detectPatterns_opposites MarketSamples.rising50 Hlen)))).
Defined.

(** The probability of [predictMarketDirection]: the score term is at most
    1, so adding or subtracting 10 pushes it out of 0.5..0.99 and the clamp
    decides. *)
Lemma predictMarketDirection_spec (candles : list Candle)
  (signals : AIMarketAnalysisService.Signals) (aiScore technicalScore : Q) :
  0 <= aiScore -> aiScore <= 100 -> 0 <= technicalScore -> technicalScore <= 100 ->
  0 <= AIMarketAnalysisService.rsi signals -> AIMarketAnalysisService.rsi signals <= 100 ->
  let closes := map close candles in
  let n := List.length closes in
  let recentTrend :=
    (AIMarketAnalysisService.at_ closes (n - 1) - AIMarketAnalysisService.at_ closes (n - 5))
    / AIMarketAnalysisService.at_ closes (n - 5) in
  let pr := AIMarketAnalysisService.predictMarketDirection candles signals
              aiScore technicalScore in
  (0 < recentTrend -> AIMarketAnalysisService.probability pr == 99)
  /\ (recentTrend <= 0 -> AIMarketAnalysisService.probability pr == 50)
  /\ (AIMarketAnalysisService.direction pr = AIMarketAnalysisService.UP ->
      50 < AIMarketAnalysisService.rsi signals).
Proof.
  intros Ha0 Ha1 Ht0 Ht1 Hr0 Hr1. cbv zeta.
  unfold AIMarketAnalysisService.predictMarketDirection. cbv zeta.
  cbn [AIMarketAnalysisService.probability AIMarketAnalysisService.direction].
  set (combined := (aiScore * (1 # 2) + technicalScore * (1 # 2)
                    + AIMarketAnalysisService.rsi signals) / 3).
  set (trend := (_ - _) / _).
  assert (Ec : combined == (aiScore * (1 # 2) + technicalScore * (1 # 2)
                            + AIMarketAnalysisService.rsi signals) * (1 # 3))
    by (unfold combined; field).
  assert (Hc0 : 0 <= combined) by lra.
  assert (Hc1 : combined <= 200 # 3) by lra.
  assert (Ep : Qabs (combined - 50) / 50 == Qabs (combined - 50) * (1 # 50)) by field.
  pose proof (Qabs_nonneg (combined - 50)) as Hn.
  assert (Hb : Qabs (combined - 50) <= 50) by (apply Qabs_Qle_condition; split; lra).
  assert (Hp0 : 0 <= Qabs (combined - 50) / 50) by lra.
  assert (Hp1 : Qabs (combined - 50) / 50 <= 1) by lra.
  split; [|split].
  - intros Hup. apply gtb_gt in Hup. rewrite Hup.
    rewrite Q.min_l by lra. rewrite Q.max_r by discriminate. reflexivity.
  - intros Hdown. apply ltb_ge in Hdown. unfold JS.gtb. rewrite Hdown.
    rewrite Q.min_r by lra. rewrite Q.max_l by lra. reflexivity.
  - destruct (JS.gtb combined 50) eqn:E; [|discriminate]. intros _.
    apply gtb_gt in E. lra.
Qed.

(** The fields of a resolved analysis that the prediction depends on. *)
Lemma analyzeMarket_fields (sqrt : Q -> Q) (candles : list Candle) (sym : string)
  (r : AIMarketAnalysisService.MarketAnalysisResult) :
  AIMarketAnalysisService.analyzeMarket sqrt candles sym = Resolved r ->
  let signals := AIMarketAnalysisService.calculateAllSignals sqrt candles in
  let technicalScore := AIMarketAnalysisService.calculateTechnicalScore signals candles in
  let aiScore := AIMarketAnalysisService.calculateAIScore sqrt candles signals in
  let prediction :=
    AIMarketAnalysisService.predictMarketDirection candles signals aiScore technicalScore in
  (50 <= List.length candles)%nat
  /\ AIMarketAnalysisService.signals r = signals
  /\ AIMarketAnalysisService.technicalScore r = technicalScore
  /\ AIMarketAnalysisService.aiScore r = aiScore
  /\ AIMarketAnalysisService.predictedDirection r
     = AIMarketAnalysisService.direction prediction
  /\ AIMarketAnalysisService.predictedProbability r
     = AIMarketAnalysisService.probability prediction.
Proof.
  intros E.
  assert (Hlen : (List.length candles <? 50)%nat = false).
  { destruct (List.length candles <? 50)%nat eqn:Hl; [|reflexivity].
    unfold AIMarketAnalysisService.analyzeMarket in E. rewrite Hl in E. discriminate. }
  assert (Hr : r = match AIMarketAnalysisService.analyzeMarket sqrt candles sym with
                   | Resolved x => x
                   | Rejected _ => r
                   end) by (rewrite E; reflexivity).
  rewrite Hr. unfold AIMarketAnalysisService.analyzeMarket. rewrite Hlen. cbv zeta.
  cbn [AIMarketAnalysisService.signals AIMarketAnalysisService.technicalScore
       AIMarketAnalysisService.aiScore AIMarketAnalysisService.predictedDirection
       AIMarketAnalysisService.predictedProbability].
  split; [now apply Nat.ltb_ge|]. repeat split.
Qed.

(** X12: the predicted probability of a market analysis carries no
    information from the scores: it is 99 when the last close is above the
    (positive) close four candles earlier and 50 otherwise; and the predicted
    direction is UP only if the RSI is above 50. *)
Theorem analyzeMarket_prediction (sqrt : Q -> Q) (candles : list Candle) (sym : string)
  (r : AIMarketAnalysisService.MarketAnalysisResult) :
  AIMarketAnalysisService.analyzeMarket sqrt candles sym = Resolved r ->
  let closes := map close candles in
  let n := List.length closes in
  0 < AIMarketAnalysisService.at_ closes (n - 5) ->
  (AIMarketAnalysisService.at_ closes (n - 5) < AIMarketAnalysisService.at_ closes (n - 1) ->
   AIMarketAnalysisService.predictedProbability r == 99)
  /\ (AIMarketAnalysisService.at_ closes (n - 1) <= AIMarketAnalysisService.at_ closes (n - 5) ->
      AIMarketAnalysisService.predictedProbability r == 50)
  /\ (AIMarketAnalysisService.predictedDirection r = AIMarketAnalysisService.UP ->
      50 < AIMarketAnalysisService.rsi (AIMarketAnalysisService.signals r)).
Proof.
  intros E closes n Hpos.
  destruct (analyzeMarket_fields sqrt candles sym r E) as (_ & Hs & _ & _ & Hd & Hp).
  rewrite Hs, Hd, Hp. clear Hs Hd Hp E.
  set (signals := AIMarketAnalysisService.calculateAllSignals sqrt candles).
  set (tech := AIMarketAnalysisService.calculateTechnicalScore signals candles).
  set (ai := AIMarketAnalysisService.calculateAIScore sqrt candles signals).
  assert (Ht : 0 <= tech /\ tech <= 100) by apply clamp100_range.
  assert (Ha : 23 <= ai /\ ai <= 95) by apply calculateAIScore_range.
  assert (Hr : 0 <= AIMarketAnalysisService.rsi signals
               /\ AIMarketAnalysisService.rsi signals < 100).
  { apply market_rsi_range. lia. }
  destruct Ht as [Ht0 Ht1], Ha as [Ha0 Ha1], Hr as [Hr0 Hr1].
  destruct (predictMarketDirection_spec candles signals ai tech)
    as (Hup & Hdown & Hdir); try lra.
  cbv zeta in Hup, Hdown. fold closes in Hup, Hdown. fold n in Hup, Hdown.
  set (last := AIMarketAnalysisService.at_ closes (n - 1)) in *.
  set (back := AIMarketAnalysisService.at_ closes (n - 5)) in *.
  assert (Hinv : 0 < / back) by now apply Qinv_lt_0_compat.
  split; [|split].
  - intros Hrise. apply Hup. unfold Qdiv. apply Qmult_lt_0_compat; lra.
  - intros Hfall. apply Hdown.
    assert (0 <= (back - last) * / back) by (apply Qmult_le_0_compat; lra).
    unfold Qdiv. lra.
  - exact Hdir.
Qed.

Lemma analyzeMarket_prediction_witness :
  exists r,
    AIMarketAnalysisService.analyzeMarket Samples.sqrt6 MarketSamples.late_rise "NIFTY"
    = Resolved r
    /\ AIMarketAnalysisService.predictedProbability r == 99.
Proof.
  eexists. split.
  - unfold AIMarketAnalysisService.analyzeMarket.
    change (List.length MarketSamples.late_rise <? 50)%nat with false.
    cbv zeta. cbv iota. reflexivity.
  - refine (proj1 (analyzeMarket_prediction Samples.sqrt6 MarketSamples.late_rise "NIFTY" _
                     _ _) _).
    + unfold AIMarketAnalysisService.analyzeMarket.
      change (List.length MarketSamples.late_rise <? 50)%nat with false.
      cbv zeta. cbv iota. reflexivity.
    + vm_compute. reflexivity.
    + vm_compute. reflexivity.
Defined.


(** ** The trading engine *)

Lemma JSMap_size_set {V} (m : JSMap.t V) (k : string) (v : V) :
  JSMap.size (JSMap.set m k v)
  = if JSMap.has m k then JSMap.size m else S (JSMap.size m).
Proof.
  unfold JSMap.size, JSMap.has, JSMap.get.
  induction m as [|[k0 v0] m IH]; simpl; [reflexivity|].
  destruct (String.eqb k0 k) eqn:E; simpl; [reflexivity|].
  rewrite IH. destruct (find _ m); reflexivity.
Qed.

(** The bracket order that [executeSignal] places for a signal. *)
Lemma executeSignal_spec {W : Type} `{ZerodhaClient W}
  (signal : TradingEngineService.TradingSignal) (e : TradingEngineService.Engine W) :
  let riskReward :=
    TradingEngineService.calculateRiskReward (TradingEngineService.sig_entry signal)
      (TradingEngineService.sig_target signal) (TradingEngineService.sig_stoploss signal) in
  let order :=
    {| bo_symbol := TradingEngineService.sig_symbol signal;
       bo_quantity := TradingEngineService.sig_quantity signal;
       bo_side := TradingEngineService.sig_action signal;
       bo_price := TradingEngineService.sig_entry signal;
       bo_target := TradingEngineService.sig_target signal;
       bo_stoploss := TradingEngineService.sig_stoploss signal |} in
  exists r e',
    TradingEngineService.executeSignal signal e = (Resolved r, e')
    /\ (riskReward < 3 # 2 -> r = None /\ e' = e)
    /\ (3 # 2 <= riskReward ->
        exists l,
          calls (TradingEngineService.world e')
          = calls (TradingEngineService.world e) ++ [l]
          /\ call l = CallPlaceBracketOrder order
          /\ match r with
             | None =>
                 failure l <> None
                 /\ TradingEngineService.activeTrades e' = TradingEngineService.activeTrades e
             | Some t =>
                 failure l = None
                 /\ TradingEngineService.activeTrades e'
                    = JSMap.set (TradingEngineService.activeTrades e)
                        (TradingEngineService.id t) t
                 /\ TradingEngineService.id t
                    = TradingEngineService.trade_id
                        (fst (Date_now (snd (placeBracketOrder order
                                               (host (TradingEngineService.world e))))))
                 /\ TradingEngineService.status t = TradingEngineService.PENDING
                 /\ (exists oid, TradingEngineService.entryOrderId t = Some oid)
                 /\ TradingEngineService.symbol t = TradingEngineService.sig_symbol signal
                 /\ TradingEngineService.action t = TradingEngineService.sig_action signal
                 /\ TradingEngineService.entryPrice t = TradingEngineService.sig_entry signal
                 /\ TradingEngineService.targetPrice t = TradingEngineService.sig_target signal
                 /\ TradingEngineService.stoplossPrice t
                    = TradingEngineService.sig_stoploss signal
                 /\ TradingEngineService.quantity t = TradingEngineService.sig_quantity signal
             end).
Proof.
  cbv zeta. destruct e as [m [h log]].
  unfold TradingEngineService.executeSignal, try_catch.
  destruct (JS.ltb _ (3 # 2)) eqn:Hgate.
  - apply ltb_lt in Hgate. unfold bind, console_log, ret.
    do 2 eexists. split; [reflexivity|]. split; [intros _; split; reflexivity|].
    intros Hge. exfalso. lra.
  - apply ltb_ge in Hgate.
    unfold TradingEngineService.liftW, zerodha_placeBracketOrder, request, new_Date,
      TradingEngineService.activeTrades_set, modify, bind, console_log, ret.
    cbn [TradingEngineService.world TradingEngineService.activeTrades host calls fst snd].
    destruct (placeBracketOrder _ h) as [[resp|err] h1];
      cbn [TradingEngineService.world TradingEngineService.activeTrades host calls
           fst snd rejection].
    + destruct (Date_now h1) as [t1 h2].
      cbn [TradingEngineService.world TradingEngineService.activeTrades host calls fst snd].
      destruct (Date_now h2) as [t2 h3].
      cbn [TradingEngineService.world TradingEngineService.activeTrades host calls fst snd].
      destruct (Date_now h3) as [t3 h4].
      cbn [TradingEngineService.world TradingEngineService.activeTrades host calls fst snd
           TradingEngineService.id].
      do 2 eexists. split; [reflexivity|]. split; [intros Hlt; exfalso; lra|].
      intros _. eexists. split; [reflexivity|]. split; [reflexivity|].
      cbn [failure TradingEngineService.activeTrades TradingEngineService.id
           TradingEngineService.status TradingEngineService.entryOrderId
           TradingEngineService.symbol TradingEngineService.action
           TradingEngineService.entryPrice TradingEngineService.targetPrice
           TradingEngineService.stoplossPrice TradingEngineService.quantity].
      repeat split; eauto.
    + do 2 eexists. split; [reflexivity|]. split; [intros Hlt; exfalso; lra|].
      intros _. eexists. split; [reflexivity|]. split; [reflexivity|].
      split; [discriminate | reflexivity].
Qed.


(** X20: the engine names a trade after the millisecond alone.  When two
    signals are executed successfully and the clock reads the same
    millisecond for both, the second trade takes the place of the first: two
    orders are at the gateway and the engine tracks one trade. *)
Theorem executeSignal_same_millisecond {W : Type} `{ZerodhaClient W}
  (signal1 signal2 : TradingEngineService.TradingSignal)
  (e e1 e2 : TradingEngineService.Engine W)
  (t1 t2 : TradingEngineService.AutomaticTrade) :
  TradingEngineService.executeSignal signal1 e = (Resolved (Some t1), e1) ->
  TradingEngineService.executeSignal signal2 e1 = (Resolved (Some t2), e2) ->
  TradingEngineService.id t1 = TradingEngineService.id t2 ->
  JSMap.get (TradingEngineService.activeTrades e2) (TradingEngineService.id t1) = Some t2
  /\ JSMap.size (TradingEngineService.activeTrades e2)
     = JSMap.size (TradingEngineService.activeTrades e1)
  /\ exists l1 l2,
       calls (TradingEngineService.world e2)
       = calls (TradingEngineService.world e) ++ [l1; l2]
       /\ (exists o1, call l1 = CallPlaceBracketOrder o1) /\ failure l1 = None
       /\ (exists o2, call l2 = CallPlaceBracketOrder o2) /\ failure l2 = None.
Proof.
  intros Hrun1 Hrun2 Hid.
  destruct (executeSignal_spec signal1 e) as (r1 & e1' & Hrun1' & Hlow1 & Hhigh1).
  rewrite Hrun1 in Hrun1'. inversion Hrun1'; subst r1 e1'; clear Hrun1'.
  destruct (executeSignal_spec signal2 e1) as (r2 & e2' & Hrun2' & Hlow2 & Hhigh2).
  rewrite Hrun2 in Hrun2'. inversion Hrun2'; subst r2 e2'; clear Hrun2'.
  cbv zeta in *.
  destruct (Qlt_le_dec (TradingEngineService.calculateRiskReward
                          (TradingEngineService.sig_entry signal1)
                          (TradingEngineService.sig_target signal1)
                          (TradingEngineService.sig_stoploss signal1)) (3 # 2)) as [Hl1|Hg1];
    [destruct (Hlow1 Hl1); discriminate|].
  destruct (Qlt_le_dec (TradingEngineService.calculateRiskReward
                          (TradingEngineService.sig_entry signal2)
                          (TradingEngineService.sig_target signal2)
                          (TradingEngineService.sig_stoploss signal2)) (3 # 2)) as [Hl2|Hg2];
    [destruct (Hlow2 Hl2); discriminate|].
  destruct (Hhigh1 Hg1) as (l1 & Hlog1 & Hcall1 & Hnone1 & Hmap1 & _).
  destruct (Hhigh2 Hg2) as (l2 & Hlog2 & Hcall2 & Hnone2 & Hmap2 & _).
  split; [|split].
  - rewrite Hmap2, Hid. apply JSMap_get_set_same.
  - rewrite Hmap2, JSMap_size_set. unfold JSMap.has.
    rewrite <- Hid, Hmap1, JSMap_get_set_same. reflexivity.
  - exists l1, l2. rewrite Hlog2, Hlog1, <- app_assoc. split; [reflexivity|].
    repeat split; eauto.
Qed.

(** Two different signals on a gateway whose clock stands still. *)
Lemma executeSignal_same_millisecond_witness :
  exists t1 e1 t2 e2,
    @TradingEngineService.executeSignal _ EngineSamples.still_client
      EngineSamples.buy_signal EngineSamples.fresh_still = (Resolved (Some t1), e1)
    /\ @TradingEngineService.executeSignal _ EngineSamples.still_client
         EngineSamples.sell_signal e1 = (Resolved (Some t2), e2)
    /\ TradingEngineService.id t1 = TradingEngineService.id t2
    /\ TradingEngineService.symbol t1 = "RELIANCE"%string
    /\ TradingEngineService.symbol t2 = "TCS"%string
    /\ JSMap.get (TradingEngineService.activeTrades e2) (TradingEngineService.id t1) = Some t2
    /\ JSMap.size (TradingEngineService.activeTrades e2) = 1%nat.
Proof.
  assert (Hruns : exists t1 e1 t2 e2,
             @TradingEngineService.executeSignal _ EngineSamples.still_client
               EngineSamples.buy_signal EngineSamples.fresh_still = (Resolved (Some t1), e1)
             /\ @TradingEngineService.executeSignal _ EngineSamples.still_client
                  EngineSamples.sell_signal e1 = (Resolved (Some t2), e2)
             /\ TradingEngineService.id t1 = TradingEngineService.id t2
             /\ TradingEngineService.symbol t1 = "RELIANCE"%string
             /\ TradingEngineService.symbol t2 = "TCS"%string
             /\ JSMap.size (TradingEngineService.activeTrades e1) = 1%nat).
  { do 4 eexists. split; [vm_compute; reflexivity|].
    split; [vm_compute; reflexivity|]. repeat split; vm_compute; reflexivity. }
  destruct Hruns as (t1 & e1 & t2 & e2 & Hrun1 & Hrun2 & Hid & Hs1 & Hs2 & Hsize).
  exists t1, e1, t2, e2.
  destruct (@executeSignal_same_millisecond _ EngineSamples.still_client _ _ _ _ _ _ _
              Hrun1 Hrun2 Hid) as (Hget & Hsame & _).
  repeat split; try assumption. now rewrite Hsame.
Defined.

(** Every way [cancelTrade] can go. *)
Lemma cancelTrade_spec {W : Type} `{ZerodhaClient W}
  (tradeId : string) (e : TradingEngineService.Engine W) :
  exists b e',
    TradingEngineService.cancelTrade tradeId e = (Resolved b, e')
    /\ match JSMap.get (TradingEngineService.activeTrades e) tradeId with
       | None => b = false /\ e' = e
       | Some trade =>
           match TradingEngineService.entryOrderId trade with
           | None => b = false /\ e' = e
           | Some orderId =>
               if String.eqb orderId "" then b = false /\ e' = e
               else
                 exists l,
                   calls (TradingEngineService.world e')
                   = calls (TradingEngineService.world e) ++ [l]
                   /\ call l = CallCancelOrder orderId
                   /\ if b
                      then failure l = None
                           /\ exists now,
                                TradingEngineService.activeTrades e'
                                = JSMap.set (TradingEngineService.activeTrades e) tradeId
                                    (TradingEngineService.cancelled_at now trade)
                      else failure l <> None
                           /\ TradingEngineService.activeTrades e'
                              = TradingEngineService.activeTrades e
           end
       end.
Proof.
  destruct e as [m [h log]].
  unfold TradingEngineService.cancelTrade, try_catch. unfold bind at 1. unfold get.
  cbn [TradingEngineService.activeTrades].
  destruct (JSMap.get m tradeId) as [trade|].
  2:{ do 2 eexists. split; [reflexivity|]. split; reflexivity. }
  destruct (TradingEngineService.entryOrderId trade) as [orderId|].
  2:{ do 2 eexists. split; [reflexivity|]. split; reflexivity. }
  destruct (String.eqb orderId "").
  { do 2 eexists. split; [reflexivity|]. split; reflexivity. }
  unfold TradingEngineService.liftW, zerodha_cancelOrder, request, new_Date,
    TradingEngineService.activeTrades_set, modify, bind, console_log, ret.
  cbn [TradingEngineService.world TradingEngineService.activeTrades host calls fst snd].
  destruct (cancelOrder orderId h) as [[[]|err] h1];
    cbn [TradingEngineService.world TradingEngineService.activeTrades host calls
         fst snd rejection].
  - destruct (Date_now h1) as [now h2].
    cbn [TradingEngineService.world TradingEngineService.activeTrades host calls fst snd].
    do 2 eexists. split; [reflexivity|].
    eexists. split; [reflexivity|]. split; [reflexivity|].
    split; [reflexivity|]. eexists. reflexivity.
  - do 2 eexists. split; [reflexivity|].
    eexists. split; [reflexivity|]. split; [reflexivity|].
    split; [discriminate | reflexivity].
Qed.

(** X21: [cancelTrade] never rejects, sends at most one request, which is
    the cancellation of the trade's entry order, and answers true exactly when
    that cancellation was sent and accepted.  After true the trade is still
    in the map, marked CANCELLED with a new update time; after false the map
    is as before, and for an unknown id, or a trade without an entry order
    id, nothing at all has happened. *)
Theorem cancelTrade_outcomes {W : Type} `{ZerodhaClient W}
  (tradeId : string) (e : TradingEngineService.Engine W) :
  exists b e' new,
    TradingEngineService.cancelTrade tradeId e = (Resolved b, e')
    /\ calls (TradingEngineService.world e') = calls (TradingEngineService.world e) ++ new
    /\ (List.length new <= 1)%nat
    /\ (forall l, In l new ->
         exists trade orderId,
           JSMap.get (TradingEngineService.activeTrades e) tradeId = Some trade
           /\ TradingEngineService.entryOrderId trade = Some orderId
           /\ orderId <> ""%string
           /\ call l = CallCancelOrder orderId)
    /\ (b = true <-> exists l, new = [l] /\ failure l = None)
    /\ (b = true ->
        exists trade now,
          JSMap.get (TradingEngineService.activeTrades e) tradeId = Some trade
          /\ JSMap.get (TradingEngineService.activeTrades e') tradeId
             = Some (TradingEngineService.cancelled_at now trade)
          /\ TradingEngineService.status (TradingEngineService.cancelled_at now trade)
             = TradingEngineService.CANCELLED)
    /\ (b = false ->
        TradingEngineService.activeTrades e' = TradingEngineService.activeTrades e)
    /\ (new = [] -> e' = e).
Proof.
  destruct (cancelTrade_spec tradeId e) as (b & e' & Hrun & Hcase).
  exists b, e'.
  assert (Hquiet : b = false /\ e' = e ->
            exists new : list LoggedCall,
              TradingEngineService.cancelTrade tradeId e = (Resolved b, e')
              /\ calls (TradingEngineService.world e')
                 = calls (TradingEngineService.world e) ++ new
              /\ (List.length new <= 1)%nat
              /\ (forall l, In l new ->
                   exists trade orderId,
                     JSMap.get (TradingEngineService.activeTrades e) tradeId = Some trade
                     /\ TradingEngineService.entryOrderId trade = Some orderId
                     /\ orderId <> ""%string
                     /\ call l = CallCancelOrder orderId)
              /\ (b = true <-> exists l, new = [l] /\ failure l = None)
              /\ (b = true ->
                  exists trade now,
                    JSMap.get (TradingEngineService.activeTrades e) tradeId = Some trade
                    /\ JSMap.get (TradingEngineService.activeTrades e') tradeId
                       = Some (TradingEngineService.cancelled_at now trade)
                    /\ TradingEngineService.status
                         (TradingEngineService.cancelled_at now trade)
                       = TradingEngineService.CANCELLED)
              /\ (b = false ->
                  TradingEngineService.activeTrades e'
                  = TradingEngineService.activeTrades e)
              /\ (new = [] -> e' = e)).
  { intros [-> ->]. exists []. split; [exact Hrun|]. rewrite app_nil_r.
    split; [reflexivity|]. split; [simpl; lia|]. split; [intros l []|].
    split; [split; [discriminate | intros (l & Hl & _); discriminate]|].
    split; [discriminate|]. split; reflexivity. }
  destruct (JSMap.get (TradingEngineService.activeTrades e) tradeId) as [trade|] eqn:Hget;
    [|exact (Hquiet Hcase)].
  destruct (TradingEngineService.entryOrderId trade) as [orderId|] eqn:Hoid;
    [|exact (Hquiet Hcase)].
  destruct (String.eqb orderId "") eqn:Hempty; [exact (Hquiet Hcase)|].
  apply String.eqb_neq in Hempty. clear Hquiet.
  destruct Hcase as (l & Hlog & Hcall & Hb).
  exists [l]. split; [exact Hrun|]. split; [exact Hlog|]. split; [simpl; lia|].
  split.
  { intros l' [<-|[]]. exists trade, orderId. repeat split; assumption. }
  destruct b.
  - destruct Hb as (Hnone & now & Hmap).
    split; [split; [intros _; exists l; split; [reflexivity | exact Hnone] | reflexivity]|].
    split.
    { intros _. exists trade, now. split; [reflexivity|].
      split; [rewrite Hmap; apply JSMap_get_set_same | reflexivity]. }
    split; [discriminate | discriminate].
  - destruct Hb as (Hsome & Hmap).
    split.
    { split; [discriminate|]. intros (l' & Hl & Hnone). inversion Hl; subst l'.
      contradiction. }
    split; [discriminate|]. split; [intros _; exact Hmap | discriminate].
Qed.

(** X22: a cancelled trade is still an active trade of the engine: after a
    successful [cancelTrade] the trade is listed by [getActiveTrades] with
    status CANCELLED, and cancelling it once more sends another cancellation
    for the same order to the gateway. *)
Theorem cancelTrade_twice {W : Type} `{ZerodhaClient W}
  (tradeId : string) (e e1 : TradingEngineService.Engine W) :
  TradingEngineService.cancelTrade tradeId e = (Resolved true, e1) ->
  exists trade orderId,
    JSMap.get (TradingEngineService.activeTrades e1) tradeId = Some trade
    /\ In trade (TradingEngineService.getActiveTrades e1)
    /\ TradingEngineService.status trade = TradingEngineService.CANCELLED
    /\ TradingEngineService.entryOrderId trade = Some orderId
    /\ calls (TradingEngineService.world e1)
       = calls (TradingEngineService.world e) ++ [mkLogged (CallCancelOrder orderId) None]
    /\ exists b e2 l,
         TradingEngineService.cancelTrade tradeId e1 = (Resolved b, e2)
         /\ calls (TradingEngineService.world e2)
            = calls (TradingEngineService.world e1) ++ [l]
         /\ call l = CallCancelOrder orderId.
Proof.
  intros Hrun.
  destruct (cancelTrade_spec tradeId e) as (b & e1' & Hrun' & Hcase).
  rewrite Hrun in Hrun'. inversion Hrun'; subst b e1'; clear Hrun'.
  destruct (JSMap.get (TradingEngineService.activeTrades e) tradeId) as [trade|];
    [|destruct Hcase; discriminate].
  destruct (TradingEngineService.entryOrderId trade) as [orderId|] eqn:Hoid;
    [|destruct Hcase; discriminate].
  destruct (String.eqb orderId "") eqn:Hempty; [destruct Hcase; discriminate|].
  destruct Hcase as (l & Hlog & Hcall & Hnone & now & Hmap).
  assert (Hget : JSMap.get (TradingEngineService.activeTrades e1) tradeId
                 = Some (TradingEngineService.cancelled_at now trade)).
  { rewrite Hmap. apply JSMap_get_set_same. }
  exists (TradingEngineService.cancelled_at now trade), orderId.
  split; [exact Hget|]. split.
  { unfold TradingEngineService.getActiveTrades, JSMap.values.
    unfold JSMap.get in Hget.
    destruct (find _ (TradingEngineService.activeTrades e1)) as [[k v]|] eqn:Hfind;
      [|discriminate].
    inversion Hget; subst v. apply find_some in Hfind. destruct Hfind as [Hin _].
    apply in_map_iff. exists (k, TradingEngineService.cancelled_at now trade).
    split; [reflexivity | exact Hin]. }
  split; [reflexivity|]. split; [exact Hoid|]. split.
  { rewrite Hlog. destruct l as [c f]. simpl in Hcall, Hnone. now subst. }
  destruct (cancelTrade_spec tradeId e1) as (b & e2 & Hrun2 & Hcase2).
  rewrite Hget in Hcase2. cbn [TradingEngineService.cancelled_at
                               TradingEngineService.entryOrderId] in Hcase2.
  rewrite Hoid, Hempty in Hcase2. destruct Hcase2 as (l2 & Hlog2 & Hcall2 & _).
  exists b, e2, l2. split; [exact Hrun2|]. split; [exact Hlog2 | exact Hcall2].
Qed.

Lemma cancelTrade_twice_witness :
  exists e1 trade,
    TradingEngineService.cancelTrade "TRADE_1700000000000" EngineSamples.bought
    = (Resolved true, e1)
    /\ In trade (TradingEngineService.getActiveTrades e1)
    /\ TradingEngineService.status trade = TradingEngineService.CANCELLED.
Proof.
  assert (Hrun : exists e1,
             TradingEngineService.cancelTrade "TRADE_1700000000000" EngineSamples.bought
             = (Resolved true, e1)).
  { eexists. vm_compute. reflexivity. }
  destruct Hrun as (e1 & Hrun). exists e1.
  destruct (cancelTrade_twice "TRADE_1700000000000" EngineSamples.bought e1 Hrun)
    as (trade & orderId & _ & Hin & Hst & _).
  exists trade. split; [exact Hrun|]. split; [exact Hin | exact Hst].
Defined.

(** ** Two risk/reward functions *)


(** ** Opening a trade *)

Section OpeningConditions.
Context {W : Type} `{ZerodhaClient W}.
Variable Math_sqrt : Q -> Q.
Variable config : AutomaticTradeExecutor.AutomaticTradeConfig.

Import AutomaticTradeExecutor.

(** What [executeTrade] copies into the trade it creates. *)
Lemma executeTrade_copies (signal : UltimateStrategy.UltimateStrategySignal)
  (side : Side) (e e' : Executor W) (t : ExecutedTrade) :
  executeTrade config signal side e = (Resolved t, e') ->
  symbol t = UltimateStrategy.symbol signal
  /\ entryPrice t = UltimateStrategy.price signal
  /\ quantity t = cfg_quantity config
  /\ target t = UltimateStrategy.target signal
  /\ stoploss t = UltimateStrategy.stoploss signal
  /\ confidence t = UltimateStrategy.confidence signal.
Proof.
  unfold executeTrade. rewrite try_catch_rethrow. intros Hrun.
  apply bind_resolved in Hrun. destruct Hrun as (? & e0 & E0 & Hrun).
  apply bind_resolved in Hrun. destruct Hrun as (resp & e1 & E1 & Hrun).
  apply bind_resolved in Hrun. destruct Hrun as (now & e2 & E2 & Hrun).
  apply bind_resolved in Hrun. destruct Hrun as (created & e3 & E3 & Hrun).
  cbv zeta in Hrun. unfold bind, activeTrades_set, modify, console_log, ret in Hrun.
  inversion Hrun; subst; clear Hrun. repeat split.
Qed.

(** The gates a run of the execution loop has passed when it opens a trade. *)
Lemma executeTradeSignals_opened (e e' : Executor W) (t : ExecutedTrade) :
  executeTradeSignals Math_sqrt config e = (Resolved (Some t), e') ->
  JS.num (JSMap.size (activeTrades e)) < cfg_maxOpenTrades config
  /\ exists signal w w',
       UltimateStrategy.analyzeSymbol Math_sqrt (cfg_instrumentToken config)
         (cfg_symbol config) (cfg_quantity config) w = (Resolved signal, w')
       /\ UltimateStrategy.signal signal = Some (type t)
       /\ cfg_minConfidence config <= UltimateStrategy.confidence signal
       /\ symbol t = UltimateStrategy.symbol signal
       /\ entryPrice t = UltimateStrategy.price signal
       /\ quantity t = cfg_quantity config
       /\ target t = UltimateStrategy.target signal
       /\ stoploss t = UltimateStrategy.stoploss signal
       /\ confidence t = UltimateStrategy.confidence signal.
Proof.
  unfold executeTradeSignals. rewrite try_catch_rethrow. intros Hrun.
  apply bind_resolved in Hrun. destruct Hrun as (e0 & e0' & E0 & Hrun).
  inversion E0; subst e0 e0'; clear E0.
  destruct (JS.geb _ _) eqn:Hcap.
  { apply bind_resolved in Hrun. destruct Hrun as (? & ? & _ & Hrun). discriminate. }
  split.
  { unfold JS.geb in Hcap. apply Qnot_le_lt. intros Hle.
    apply Qle_bool_iff in Hle. congruence. }
  apply bind_resolved in Hrun. destruct Hrun as (signal & e1 & E1 & Hrun).
  apply bind_resolved in Hrun. destruct Hrun as (? & e2 & E2 & Hrun).
  inversion E2; subst e2; clear E2.
  rewrite liftW_run in E1. inversion E1 as [[Hsig He1]]. clear E1.
  destruct (UltimateStrategy.signal signal) as [side|] eqn:Hside.
  2:{ apply bind_resolved in Hrun. destruct Hrun as (? & ? & _ & Hrun). discriminate. }
  destruct (JS.ltb _ _) eqn:Hconf.
  { apply bind_resolved in Hrun. destruct Hrun as (? & ? & _ & Hrun). discriminate. }
  apply ltb_ge in Hconf.
  apply bind_resolved in Hrun. destruct Hrun as (t' & e3 & E3 & Hrun).
  inversion Hrun; subst t' e3; clear Hrun.
  destruct (executeTrade_resolved _ _ _ _ _ _ E3) as (_ & _ & _ & _ & Htype & _).
  destruct (executeTrade_copies _ _ _ _ _ E3) as (Hs & Hp & Hq & Ht & Hl & Hc).
  exists signal, (world e),
    (snd (UltimateStrategy.analyzeSymbol Math_sqrt (cfg_instrumentToken config)
            (cfg_symbol config) (cfg_quantity config) (world e))).
  split.
  { rewrite <- Hsig. apply surjective_pairing. }
  rewrite Htype. repeat split; assumption.
Qed.

End OpeningConditions.

(** X24: the execution loop opens a trade only below the limit on open trades
    and only on an analysis of confidence exactly 80 that clears the
    configured minimum, so a minimum above 80 never trades; the trade is for
    the configured symbol and quantity, carries the confidence of the
    analysis, and is stored under its id. *)
Theorem opened_trade_conditions {W : Type} `{ZerodhaClient W}
  (sqrt : Q -> Q) (config : AutomaticTradeExecutor.AutomaticTradeConfig)
  (e e' : AutomaticTradeExecutor.Executor W) (t : AutomaticTradeExecutor.ExecutedTrade) :
  AutomaticTradeExecutor.executeTradeSignals sqrt config e = (Resolved (Some t), e') ->
  JS.num (JSMap.size (AutomaticTradeExecutor.activeTrades e))
  < AutomaticTradeExecutor.cfg_maxOpenTrades config
  /\ AutomaticTradeExecutor.cfg_minConfidence config <= 80
  /\ AutomaticTradeExecutor.confidence t == 80
  /\ AutomaticTradeExecutor.symbol t = AutomaticTradeExecutor.cfg_symbol config
  /\ AutomaticTradeExecutor.quantity t = AutomaticTradeExecutor.cfg_quantity config
  /\ JSMap.get (AutomaticTradeExecutor.activeTrades e') (AutomaticTradeExecutor.id t)
     = Some t.
Proof.
  intros Hrun.
  destruct (executeTradeSignals_opened sqrt config e e' t Hrun)
    as (Hcap & signal & w & w' & Hsig & Hside & Hmin & Hs & _ & Hq & _ & _ & Hc).
  destruct (executeTradeSignals_resolved sqrt config e e' t Hrun) as (_ & _ & _ & _ & Hmap).
  destruct (analyzeSymbol_resolved _ _ _ _ _ _ _ Hsig)
    as (candles1h & candles15m & quote & stamp & _ & _ & _ & ->).
  destruct (buildSignal_consensus sqrt (AutomaticTradeExecutor.cfg_instrumentToken config)
              (AutomaticTradeExecutor.cfg_symbol config) candles1h candles15m
              (lastPriceOr0 quote (AutomaticTradeExecutor.cfg_instrumentToken config)) stamp)
    as (_ & _ & Hle & Hdir).
  cbv zeta in Hle, Hdir. destruct (Hdir _ Hside) as [H80 _].
  split; [exact Hcap|]. split; [lra|]. split; [rewrite Hc; exact H80|].
  split; [rewrite Hs; reflexivity|]. split; [exact Hq|].
  rewrite Hmap. apply JSMap_get_set_same.
Qed.

Lemma opened_trade_conditions_witness :
  let e := Sim.fresh (Sim.buy_market [100; 110] Sim.accepted (Resolved tt) []) in
  exists t e',
    AutomaticTradeExecutor.executeTradeSignals Samples.sqrt6 Sim.config e
    = (Resolved (Some t), e')
    /\ AutomaticTradeExecutor.confidence t == 80
    /\ JSMap.get (AutomaticTradeExecutor.activeTrades e') (AutomaticTradeExecutor.id t)
       = Some t.
Proof.
  intros e.
  assert (Hrun : exists t e',
             AutomaticTradeExecutor.executeTradeSignals Samples.sqrt6 Sim.config e
             = (Resolved (Some t), e')).
  { do 2 eexists. vm_compute. reflexivity. }
  destruct Hrun as (t & e' & Hrun). exists t, e'.
  destruct (opened_trade_conditions Samples.sqrt6 Sim.config e e' t Hrun)
    as (_ & _ & H80 & _ & _ & Hget).
  split; [exact Hrun|]. split; [exact H80 | exact Hget].
Defined.

(** ** Closing by hand, in full *)

Section ManualClose.
Context {W : Type} `{ZerodhaClient W}.
Variable config : AutomaticTradeExecutor.AutomaticTradeConfig.

Import AutomaticTradeExecutor.

(** Every way [closeTrade] can go for a trade that is in the map. *)
Lemma closeTrade_spec (tradeId : string) (trade : ExecutedTrade)
  (e e' : Executor W) (r : Outcome bool) :
  JSMap.get (activeTrades e) tradeId = Some trade ->
  closeTrade config tradeId e = (r, e') ->
  exists lq,
    call lq = CallGetQuote [cfg_instrumentToken config]
    /\ ((exists err,
           failure lq = Some err /\ r = Rejected err
           /\ exec_log e' = exec_log e ++ [lq]
           /\ activeTrades e' = activeTrades e)
        \/ (failure lq = None
            /\ exists quote now lc,
                 answers (getQuote [cfg_instrumentToken config]) quote
                 /\ call lc = CallCancelOrder (orderId trade)
                 /\ exec_log e' = exec_log e ++ [lq; lc]
                 /\ let exit := lastPriceOr0 quote (cfg_instrumentToken config) in
                    let trade' :=
                      set_closedAt now
                        (set_pnl (pnl_at trade exit)
                           (set_exitPrice exit (set_status CLOSED trade))) in
                    (exists err,
                        failure lc = Some err /\ r = Rejected err
                        /\ activeTrades e' = JSMap.set (activeTrades e) tradeId trade')
                    \/ (failure lc = None /\ r = Resolved true
                        /\ activeTrades e'
                           = JSMap.delete (JSMap.set (activeTrades e) tradeId trade')
                               tradeId))).
Proof.
  intros Hget. unfold closeTrade. rewrite try_catch_rethrow.
  destruct e as [m [h log]]. unfold exec_log. cbn [activeTrades world calls] in *.
  unfold bind at 1. unfold get. cbn [activeTrades]. rewrite Hget.
  unfold liftW, zerodha_getQuote, zerodha_cancelOrder, request, new_Date,
    activeTrades_set, activeTrades_delete, modify, bind, console_log, ret.
  cbn [world activeTrades host calls fst snd].
  destruct (getQuote [cfg_instrumentToken config] h) as [[quote|err] h1] eqn:Equote;
    cbn [world activeTrades host calls fst snd rejection].
  - destruct (Date_now h1) as [now h2].
    cbn [world activeTrades host calls fst snd orderId set_closedAt set_pnl set_exitPrice
         set_status].
    destruct (cancelOrder (orderId trade) h2) as [[[]|err] h3];
      cbn [world activeTrades host calls fst snd rejection];
      intros E; inversion E; subst; clear E; cbn [world activeTrades calls];
      exists (mkLogged (CallGetQuote [cfg_instrumentToken config]) None);
      (split; [reflexivity|]); right; (split; [reflexivity|]).
    + exists quote, now, (mkLogged (CallCancelOrder (orderId trade)) None).
      split; [exists h, h1; exact Equote|]. split; [reflexivity|].
      split; [rewrite <- app_assoc; reflexivity|]. cbv zeta.
      right. split; [reflexivity|]. split; reflexivity.
    + exists quote, now, (mkLogged (CallCancelOrder (orderId trade)) (Some err)).
      split; [exists h, h1; exact Equote|]. split; [reflexivity|].
      split; [rewrite <- app_assoc; reflexivity|]. cbv zeta.
      left. exists err. split; [reflexivity|]. split; reflexivity.
  - intros E; inversion E; subst; clear E. cbn [world activeTrades calls].
    exists (mkLogged (CallGetQuote [cfg_instrumentToken config]) (Some err)).
    split; [reflexivity|]. left. exists err. repeat split.
Qed.

End ManualClose.

(** X25: a manual close of a tracked trade asks for a quote and then cancels
    the trade's order.  If the quote fails nothing changes.  Otherwise the
    trade is rewritten as CLOSED with the quoted exit price and its P&L before
    the cancellation is sent: when the cancellation is rejected the rewritten
    trade stays in the active set and the error is passed on, and when it is
    accepted the trade leaves the active set and the answer is true. *)
Theorem closeTrade_outcomes {W : Type} `{ZerodhaClient W}
  (config : AutomaticTradeExecutor.AutomaticTradeConfig) (tradeId : string)
  (trade : AutomaticTradeExecutor.ExecutedTrade)
  (e e' : AutomaticTradeExecutor.Executor W) (r : Outcome bool) :
  JSMap.get (AutomaticTradeExecutor.activeTrades e) tradeId = Some trade ->
  AutomaticTradeExecutor.closeTrade config tradeId e = (r, e') ->
  exists lq,
    call lq = CallGetQuote [AutomaticTradeExecutor.cfg_instrumentToken config]
    /\ ((exists err,
           failure lq = Some err /\ r = Rejected err
           /\ exec_log e' = exec_log e ++ [lq]
           /\ AutomaticTradeExecutor.activeTrades e' = AutomaticTradeExecutor.activeTrades e)
        \/ (failure lq = None
            /\ exists quote now lc,
                 answers (getQuote [AutomaticTradeExecutor.cfg_instrumentToken config]) quote
                 /\ call lc = CallCancelOrder (AutomaticTradeExecutor.orderId trade)
                 /\ exec_log e' = exec_log e ++ [lq; lc]
                 /\ let exit :=
                      lastPriceOr0 quote (AutomaticTradeExecutor.cfg_instrumentToken config) in
                    let trade' :=
                      AutomaticTradeExecutor.set_closedAt now
                        (AutomaticTradeExecutor.set_pnl
                           (AutomaticTradeExecutor.pnl_at trade exit)
                           (AutomaticTradeExecutor.set_exitPrice exit
                              (AutomaticTradeExecutor.set_status
                                 AutomaticTradeExecutor.CLOSED trade))) in
                    (exists err,
                        failure lc = Some err /\ r = Rejected err
                        /\ JSMap.get (AutomaticTradeExecutor.activeTrades e') tradeId
                           = Some trade')
                    \/ (failure lc = None /\ r = Resolved true
                        /\ JSMap.get (AutomaticTradeExecutor.activeTrades e') tradeId
                           = None))).
Proof.
  intros Hget Hrun.
  destruct (closeTrade_spec config tradeId trade e e' r Hget Hrun) as (lq & Hcall & Hcases).
  exists lq. split; [exact Hcall|].
  destruct Hcases as [Hfail | (Hnone & quote & now & lc & Hans & Hlc & Hlog & Hrest)];
    [left; exact Hfail|].
  right. split; [exact Hnone|]. exists quote, now, lc.
  split; [exact Hans|]. split; [exact Hlc|]. split; [exact Hlog|].
  cbv zeta in *. destruct Hrest as [(err & Hf & Hr & Hmap) | (Hf & Hr & Hmap)].
  - left. exists err. split; [exact Hf|]. split; [exact Hr|].
    rewrite Hmap. apply JSMap_get_set_same.
  - right. split; [exact Hf|]. split; [exact Hr|].
    rewrite Hmap. apply JSMap_get_delete_same.
Qed.

Lemma closeTrade_outcomes_witness :
  let e := Sim.opened (Rejected Sim.networkError) [] in
  exists trade r e',
    JSMap.get (AutomaticTradeExecutor.activeTrades e) Sim.opened_id = Some trade
    /\ AutomaticTradeExecutor.closeTrade Sim.config Sim.opened_id e = (r, e')
    /\ exists lq,
         call lq = CallGetQuote [AutomaticTradeExecutor.cfg_instrumentToken Sim.config].
Proof.
  intros e.
  assert (Hget : exists trade,
             JSMap.get (AutomaticTradeExecutor.activeTrades e) Sim.opened_id = Some trade).
  { eexists. vm_compute. reflexivity. }
  destruct Hget as (trade & Hget).
  exists trade, (fst (AutomaticTradeExecutor.closeTrade Sim.config Sim.opened_id e)),
    (snd (AutomaticTradeExecutor.closeTrade Sim.config Sim.opened_id e)).
  assert (Hrun : AutomaticTradeExecutor.closeTrade Sim.config Sim.opened_id e
                 = (fst (AutomaticTradeExecutor.closeTrade Sim.config Sim.opened_id e),
                    snd (AutomaticTradeExecutor.closeTrade Sim.config Sim.opened_id e)))
    by apply surjective_pairing.
  split; [exact Hget|]. split; [exact Hrun|].
  destruct (closeTrade_outcomes Sim.config Sim.opened_id trade e _ _ Hget Hrun)
    as (lq & Hcall & _).
  exists lq. exact Hcall.
Defined.

(** ** The keys of the active trades *)

Lemma JSMap_set_keys {V} (m : JSMap.t V) (k : string) (v : V) :
  map fst (JSMap.set m k v)
  = if JSMap.has m k then map fst m else map fst m ++ [k].
Proof.
  unfold JSMap.has, JSMap.get. induction m as [|[k0 v0] m IH]; simpl; [reflexivity|].
  destruct (String.eqb k0 k) eqn:E; simpl.
  - apply String.eqb_eq in E. now subst.
  - rewrite IH. destruct (find _ m); reflexivity.
Qed.

Lemma JSMap_has_in {V} (m : JSMap.t V) (k : string) :
  JSMap.has m k = true <-> In k (map fst m).
Proof.
  unfold JSMap.has, JSMap.get. induction m as [|[k0 v0] m IH]; simpl.
  - split; [discriminate | tauto].
  - destruct (String.eqb k0 k) eqn:E.
    + apply String.eqb_eq in E. split; [now left | reflexivity].
    + apply String.eqb_neq in E. rewrite IH. split; [now right | intros [?|?]; tauto].
Qed.

Lemma JSMap_set_NoDup {V} (m : JSMap.t V) (k : string) (v : V) :
  NoDup (map fst m) -> NoDup (map fst (JSMap.set m k v)).
Proof.
  intros Hnd. rewrite JSMap_set_keys. destruct (JSMap.has m k) eqn:Hhas; [exact Hnd|].
  apply NoDup_app; [exact Hnd | repeat constructor; tauto |].
  intros x Hx [<-|[]]. apply JSMap_has_in in Hx. congruence.
Qed.

Lemma JSMap_delete_NoDup {V} (m : JSMap.t V) (k : string) :
  NoDup (map fst m) -> NoDup (map fst (JSMap.delete m k)).
Proof.
  unfold JSMap.delete. induction m as [|[k0 v0] m IH]; simpl; intros Hnd; [constructor|].
  inversion Hnd as [|? ? Hnotin Hnd']; subst.
  destruct (String.eqb k0 k); simpl; [now apply IH|].
  constructor; [|now apply IH].
  intros Hin. apply Hnotin. apply in_map_iff in Hin. destruct Hin as (kv & Hk & Hin).
  apply filter_In in Hin. apply in_map_iff. exists kv. tauto.
Qed.

Lemma JSMap_size_delete {V} (m : JSMap.t V) (k : string) :
  NoDup (map fst m) -> JSMap.has m k = true ->
  S (JSMap.size (JSMap.delete m k)) = JSMap.size m.
Proof.
  unfold JSMap.size, JSMap.delete, JSMap.has, JSMap.get.
  induction m as [|[k0 v0] m IH]; simpl; intros Hnd Hhas; [discriminate|].
  inversion Hnd as [|? ? Hnotin Hnd']; subst.
  destruct (String.eqb k0 k) eqn:E; simpl.
  - apply String.eqb_eq in E. subst k0. f_equal.
    assert (Hall : forall kv, In kv m -> negb (String.eqb (fst kv) k) = true).
    { intros kv Hin. apply negb_true_iff, String.eqb_neq. intros <-.
      apply Hnotin. now apply in_map. }
    clear -Hall. induction m as [|kv m IH]; simpl; [reflexivity|].
    rewrite (Hall kv) by now left. simpl. f_equal. apply IH.
    intros kv' Hin. apply Hall. now right.
  - f_equal. now apply IH.
Qed.

Section KeysInvariant.
Context {W : Type} `{ZerodhaClient W}.
Variable Math_sqrt : Q -> Q.
Variable config : AutomaticTradeExecutor.AutomaticTradeConfig.

Import AutomaticTradeExecutor.

(** The monitoring loop over the entries [entries] of a map whose keys are
    distinct: distinct keys afterwards, every returned trade CLOSED and
    stamped, and one entry fewer for every trade returned. *)
Lemma monitor_loop_conserves (entries : list (string * ExecutedTrade)) :
  forall (closed : list ExecutedTrade) (e e' : Executor W)
         (r : Outcome (list ExecutedTrade)),
    monitor_loop config closed entries e = (r, e') ->
    NoDup (map fst entries) ->
    NoDup (map fst (activeTrades e)) ->
    (forall k, In k (map fst entries) -> JSMap.has (activeTrades e) k = true) ->
    exists new,
      r = Resolved (closed ++ new)
      /\ Forall (fun t => status t = CLOSED /\ exists now, closedAt t = Some now) new
      /\ NoDup (map fst (activeTrades e'))
      /\ (List.length new + JSMap.size (activeTrades e') = JSMap.size (activeTrades e))%nat.
Proof.
  induction entries as [|[k0 t0] rest IH]; intros closed e e' r Hrun Hnd Hmap Hin.
  - simpl in Hrun. inversion Hrun; subst. exists []. rewrite app_nil_r.
    repeat split; [constructor | exact Hmap].
  - change (monitor_loop config closed ((k0, t0) :: rest) e)
      with (bind (monitor_step config closed (k0, t0))
                 (fun closed' => monitor_loop config closed' rest) e) in Hrun.
    unfold bind in Hrun.
    destruct (monitor_step config closed (k0, t0) e) as [[closed1|err] e1] eqn:Estep.
    2:{ destruct (monitor_step_spec _ _ _ _ _ _ _ Estep)
          as (l & _ & [(_ & Hr & _) | (_ & [(now & Hr & _) | (Hr & _)])]);
        discriminate. }
    simpl in Hnd. inversion Hnd as [|? ? Hnotin Hnd']; subst.
    assert (Hk0 : JSMap.has (activeTrades e) k0 = true) by (apply Hin; now left).
    assert (Hstep : NoDup (map fst (activeTrades e1))
                    /\ (forall k, In k (map fst rest) -> JSMap.has (activeTrades e1) k = true)
                    /\ (closed1 = closed
                        /\ JSMap.size (activeTrades e1) = JSMap.size (activeTrades e)
                        \/ (exists now,
                               closed1 = closed ++ [set_closedAt now (set_status CLOSED t0)])
                           /\ S (JSMap.size (activeTrades e1)) = JSMap.size (activeTrades e))).
    { assert (Hother : forall k, In k (map fst rest) ->
                JSMap.has (activeTrades e1) k = JSMap.has (activeTrades e) k).
      { intros k Hk. unfold JSMap.has.
        rewrite (monitor_step_other _ _ _ _ _ _ _ _ Estep); [reflexivity|].
        intros ->. tauto. }
      assert (Hrest : forall k, In k (map fst rest) -> JSMap.has (activeTrades e1) k = true).
      { intros k Hk. rewrite Hother by exact Hk. apply Hin. now right. }
      destruct (monitor_step_spec _ _ _ _ _ _ _ Estep) as (l & _ & Hcases).
      destruct Hcases as [(_ & Hr & Hm) | (_ & [(now & Hr & Hm) | (Hr & [Hm | Hm])])];
        inversion Hr; subst closed1; rewrite Hm in *.
      - split; [exact Hmap|]. split; [exact Hrest|]. left. split; reflexivity.
      - split; [now apply JSMap_delete_NoDup|]. split; [exact Hrest|]. right.
        split; [now exists now|]. now apply JSMap_size_delete.
      - split; [exact Hmap|]. split; [exact Hrest|]. left. split; reflexivity.
      - split; [now apply JSMap_set_NoDup|]. split; [exact Hrest|]. left.
        split; [reflexivity|]. rewrite JSMap_size_set, Hk0. reflexivity. }
    destruct Hstep as (Hmap1 & Hin1 & Hsize).
    destruct (IH _ _ _ _ Hrun Hnd' Hmap1 Hin1) as (new & Hr & Hall & Hnd2 & Hcount).
    destruct Hsize as [(-> & Hs) | ((now & ->) & Hs)].
    + exists new. split; [exact Hr|]. split; [exact Hall|]. split; [exact Hnd2|]. lia.
    + exists (set_closedAt now (set_status CLOSED t0) :: new).
      split; [rewrite Hr, <- app_assoc; reflexivity|].
      split; [constructor; [split; [reflexivity | now exists now] | exact Hall]|].
      split; [exact Hnd2|]. simpl. lia.
Qed.

End KeysInvariant.

(** X26: monitoring loses no trade.  On a map with distinct keys
    [monitorActiveTrades] resolves with trades that are all CLOSED and
    stamped with a closing time, the map has exactly that many entries fewer
    afterwards, and its keys are still distinct. *)
Theorem monitoring_conserves_trades {W : Type} `{ZerodhaClient W}
  (config : AutomaticTradeExecutor.AutomaticTradeConfig)
  (e e' : AutomaticTradeExecutor.Executor W)
  (r : Outcome (list AutomaticTradeExecutor.ExecutedTrade)) :
  NoDup (map fst (AutomaticTradeExecutor.activeTrades e)) ->
  AutomaticTradeExecutor.monitorActiveTrades config e = (r, e') ->
  exists closed,
    r = Resolved closed
    /\ Forall (fun t => AutomaticTradeExecutor.status t = AutomaticTradeExecutor.CLOSED
                        /\ exists now, AutomaticTradeExecutor.closedAt t = Some now) closed
    /\ (List.length closed + JSMap.size (AutomaticTradeExecutor.activeTrades e')
        = JSMap.size (AutomaticTradeExecutor.activeTrades e))%nat
    /\ NoDup (map fst (AutomaticTradeExecutor.activeTrades e')).
Proof.
  intros Hnd Hrun.
  unfold AutomaticTradeExecutor.monitorActiveTrades, bind, get in Hrun.
  destruct (monitor_loop_conserves config _ _ _ _ _ Hrun Hnd Hnd)
    as (new & Hr & Hall & Hnd' & Hcount).
  { intros k Hk. now apply JSMap_has_in. }
  exists new. split; [exact Hr|]. split; [exact Hall|]. split; [exact Hcount | exact Hnd'].
Qed.

Lemma monitoring_conserves_trades_witness :
  let e := Sim.opened (Resolved tt) [] in
  exists closed e',
    NoDup (map fst (AutomaticTradeExecutor.activeTrades e))
    /\ AutomaticTradeExecutor.monitorActiveTrades Sim.config e = (Resolved closed, e')
    /\ (List.length closed + JSMap.size (AutomaticTradeExecutor.activeTrades e')
        = JSMap.size (AutomaticTradeExecutor.activeTrades e))%nat.
Proof.
  intros e.
  assert (Hnd : NoDup (map fst (AutomaticTradeExecutor.activeTrades e))).
  { vm_compute. repeat constructor. intros []. }
  assert (Hrun : exists closed e',
             AutomaticTradeExecutor.monitorActiveTrades Sim.config e = (Resolved closed, e')).
  { do 2 eexists. vm_compute. reflexivity. }
  destruct Hrun as (closed & e' & Hrun). exists closed, e'.
  destruct (monitoring_conserves_trades Sim.config e e' _ Hnd Hrun)
    as (closed' & Hr & _ & Hcount & _).
  inversion Hr; subst closed'.
  split; [exact Hnd|]. split; [exact Hrun | exact Hcount].
Defined.

(** X27: the keys of the active trades stay distinct: from a map with
    distinct keys, a run of the execution loop and a manual close both leave
    a map with distinct keys, whatever their outcome. *)
Theorem trade_keys_stay_distinct {W : Type} `{ZerodhaClient W}
  (sqrt : Q -> Q) (config : AutomaticTradeExecutor.AutomaticTradeConfig)
  (e : AutomaticTradeExecutor.Executor W) :
  NoDup (map fst (AutomaticTradeExecutor.activeTrades e)) ->
  NoDup (map fst (AutomaticTradeExecutor.activeTrades
                    (snd (AutomaticTradeExecutor.executeTradeSignals sqrt config e))))
  /\ forall tradeId,
       NoDup (map fst (AutomaticTradeExecutor.activeTrades
                         (snd (AutomaticTradeExecutor.closeTrade config tradeId e)))).
Proof.
  intros Hnd. split.
  - destruct (AutomaticTradeExecutor.executeTradeSignals sqrt config e) as [[[t|]|err] e']
      eqn:Hrun; cbn [snd].
    + destruct (executeTradeSignals_resolved sqrt config e e' t Hrun) as (_ & _ & _ & _ & ->).
      now apply JSMap_set_NoDup.
    + assert (Hkeep : AutomaticTradeExecutor.activeTrades e'
                      = AutomaticTradeExecutor.activeTrades e).
      { revert Hrun. unfold AutomaticTradeExecutor.executeTradeSignals.
        rewrite try_catch_rethrow. intros Hrun.
        apply bind_resolved in Hrun. destruct Hrun as (e0 & e0' & E0 & Hrun).
        inversion E0; subst e0 e0'; clear E0.
        destruct (JS.geb _ _).
        { apply bind_resolved in Hrun. destruct Hrun as (? & ? & E & Hrun).
          inversion E; subst. inversion Hrun; subst. reflexivity. }
        apply bind_resolved in Hrun. destruct Hrun as (signal & e1 & E1 & Hrun).
        apply keeps_liftW in E1.
        apply bind_resolved in Hrun. destruct Hrun as (? & e2 & E2 & Hrun).
        inversion E2; subst e2; clear E2.
        destruct (UltimateStrategy.signal signal) as [side|].
        - destruct (JS.ltb _ _).
          + apply bind_resolved in Hrun. destruct Hrun as (? & ? & E & Hrun).
            inversion E; subst. inversion Hrun; subst. exact E1.
          + apply bind_resolved in Hrun. destruct Hrun as (? & ? & _ & Hrun). discriminate.
        - apply bind_resolved in Hrun. destruct Hrun as (? & ? & E & Hrun).
          inversion E; subst. inversion Hrun; subst. exact E1. }
      rewrite Hkeep. exact Hnd.
    + rewrite (executeTradeSignals_atomic sqrt config _ _ _ Hrun). exact Hnd.
  - intros tradeId.
    destruct (AutomaticTradeExecutor.closeTrade config tradeId e) as [r e'] eqn:Hrun.
    cbn [snd].
    destruct (JSMap.get (AutomaticTradeExecutor.activeTrades e) tradeId) as [trade|] eqn:Hget.
    + destruct (closeTrade_spec config tradeId trade e e' r Hget Hrun)
        as (lq & _ & [(err & _ & _ & _ & ->)
                     | (_ & quote & now & lc & _ & _ & _ & Hrest)]); [exact Hnd|].
      cbv zeta in Hrest. destruct Hrest as [(err & _ & _ & ->) | (_ & _ & ->)].
      * now apply JSMap_set_NoDup.
      * now apply JSMap_delete_NoDup, JSMap_set_NoDup.
    + revert Hrun. unfold AutomaticTradeExecutor.closeTrade.
      rewrite try_catch_rethrow. unfold bind, get. rewrite Hget. unfold throw.
      intros E. inversion E; subst. exact Hnd.
Qed.

Lemma trade_keys_stay_distinct_witness :
  let e := Sim.opened (Resolved tt) [] in
  NoDup (map fst (AutomaticTradeExecutor.activeTrades e))
  /\ NoDup (map fst (AutomaticTradeExecutor.activeTrades
                       (snd (AutomaticTradeExecutor.closeTrade Sim.config Sim.opened_id e)))).
Proof.
  intros e.
  assert (Hnd : NoDup (map fst (AutomaticTradeExecutor.activeTrades e))).
  { vm_compute. repeat constructor. intros []. }
  split; [exact Hnd|].
  exact (proj2 (trade_keys_stay_distinct Samples.sqrt6 Sim.config e Hnd) Sim.opened_id).
Defined.

(** ** Statistics, whatever the map holds *)

Lemma filter_partition_length {A} (f : A -> bool) (xs : list A) :
  (List.length (filter (fun x => negb (f x)) xs) + List.length (filter f xs)
   = List.length xs)%nat.
Proof. induction xs as [|x xs IH]; simpl; [reflexivity|]. destruct (f x); simpl; lia. Qed.

Lemma toFixed2_percent (x : Q) :
  0 <= x -> x <= 100 -> 0 <= JS.toFixed2 x /\ JS.toFixed2 x <= 100.
Proof.
  intros H0 H100. unfold JS.toFixed2.
  assert (Hpos : Qle_bool 0 x = true) by now apply Qle_bool_iff.
  rewrite Hpos.
  assert (Hlo : (0 <= Qfloor (x * 100 + (1 # 2)))%Z).
  { change 0%Z with (Qfloor 0). apply Qfloor_resp_le. lra. }
  assert (Hhi : (Qfloor (x * 100 + (1 # 2)) <= 10000)%Z).
  { change 10000%Z with (Qfloor (10000 + (1 # 2))). apply Qfloor_resp_le. lra. }
  rewrite Zle_Qle in Hlo, Hhi.
  change (inject_Z 0) with 0 in Hlo. change (inject_Z 10000) with 10000 in Hhi.
  split.
  - apply Qle_shift_div_l; [reflexivity|]. lra.
  - apply Qle_shift_div_r; [reflexivity|]. lra.
Qed.

Lemma Qle_bool_wd (a b x y : Q) : a == b -> x == y -> Qle_bool a x = Qle_bool b y.
Proof.
  intros Hab Hxy. destruct (Qle_bool a x) eqn:E1; destruct (Qle_bool b y) eqn:E2;
    try reflexivity.
  - apply Qle_bool_iff in E1. rewrite Hab, Hxy in E1. apply Qle_bool_iff in E1. congruence.
  - apply Qle_bool_iff in E2. rewrite <- Hab, <- Hxy in E2. apply Qle_bool_iff in E2.
    congruence.
Qed.

Lemma Qfloor_wd (x y : Q) : x == y -> Qfloor x = Qfloor y.
Proof. intros Hxy. now rewrite Hxy. Qed.

Lemma toFixed2_wd (x y : Q) : x == y -> JS.toFixed2 x == JS.toFixed2 y.
Proof.
  intros Hxy. unfold JS.toFixed2. rewrite (Qle_bool_wd 0 0 x y (Qeq_refl 0) Hxy).
  destruct (Qle_bool 0 y).
  - rewrite (Qfloor_wd (x * 100 + (1 # 2)) (y * 100 + (1 # 2))) by (rewrite Hxy; reflexivity).
    reflexivity.
  - rewrite (Qfloor_wd (- x * 100 + (1 # 2)) (- y * 100 + (1 # 2)))
      by (rewrite Hxy; reflexivity).
    reflexivity.
Qed.

(** [if (trade.pnl) totalPnL += trade.pnl] adds every P&L there is. *)
Lemma calculateTotalPnL_sum {W : Type} (e : AutomaticTradeExecutor.Executor W) :
  AutomaticTradeExecutor.calculateTotalPnL e
  == JS.sum (map (fun t => match AutomaticTradeExecutor.pnl t with
                           | Some p => p
                           | None => 0
                           end)
                 (AutomaticTradeExecutor.getActiveTrades e)).
Proof.
  unfold AutomaticTradeExecutor.calculateTotalPnL, AutomaticTradeExecutor.getActiveTrades.
  generalize (JSMap.values (AutomaticTradeExecutor.activeTrades e)). intros ts.
  assert (Hacc : forall a,
             fold_left AutomaticTradeExecutor.add_pnl ts a
             == a + JS.sum (map (fun t => match AutomaticTradeExecutor.pnl t with
                                          | Some p => p
                                          | None => 0
                                          end) ts)).
  { induction ts as [|t ts IH]; intros a; simpl.
    - change (JS.sum []) with 0. ring.
    - rewrite IH, sum_cons. unfold AutomaticTradeExecutor.add_pnl.
      destruct (AutomaticTradeExecutor.pnl t) as [p|]; [|ring].
      destruct (JS.eqb p 0) eqn:E; [|ring]. apply eqb_eq in E. rewrite E. ring. }
  rewrite Hacc. ring.
Qed.

(** X28: in the statistics of any executor the active and the closed count
    add up to the size of the map, the profitable trades are among the closed
    ones, the win rate is a percentage (between 0 and 100, and 0 when no
    trade in the map is closed), and the total P&L is the plain sum of the
    P&L of the trades in the map that have one: the truthiness test of
    [calculateTotalPnL] leaves out nothing but zeros. *)
Theorem getStatistics_invariants {W : Type} (e : AutomaticTradeExecutor.Executor W) :
  let stats := AutomaticTradeExecutor.getStatistics e in
  (AutomaticTradeExecutor.activeTradesCount stats
   + AutomaticTradeExecutor.closedTradesCount stats
   = JSMap.size (AutomaticTradeExecutor.activeTrades e))%nat
  /\ (AutomaticTradeExecutor.profitableTradesCount stats
      <= AutomaticTradeExecutor.closedTradesCount stats)%nat
  /\ 0 <= AutomaticTradeExecutor.winRate stats
  /\ AutomaticTradeExecutor.winRate stats <= 100
  /\ (AutomaticTradeExecutor.closedTradesCount stats = 0%nat ->
      AutomaticTradeExecutor.winRate stats == 0)
  /\ AutomaticTradeExecutor.totalPnL stats
     == JS.toFixed2
          (JS.sum (map (fun t => match AutomaticTradeExecutor.pnl t with
                                 | Some p => p
                                 | None => 0
                                 end)
                       (AutomaticTradeExecutor.getActiveTrades e))).
Proof.
  cbv zeta. unfold AutomaticTradeExecutor.getStatistics. cbv zeta.
  cbn [AutomaticTradeExecutor.activeTradesCount AutomaticTradeExecutor.closedTradesCount
       AutomaticTradeExecutor.profitableTradesCount AutomaticTradeExecutor.winRate
       AutomaticTradeExecutor.totalPnL].
  set (trades := JSMap.values (AutomaticTradeExecutor.activeTrades e)).
  set (closed := filter (fun t => AutomaticTradeExecutor.Status_eqb
                                    (AutomaticTradeExecutor.status t)
                                    AutomaticTradeExecutor.CLOSED) trades).
  set (profitable := filter AutomaticTradeExecutor.is_profitable closed).
  assert (Hle : (List.length profitable <= List.length closed)%nat)
    by apply filter_length_le.
  split.
  { unfold closed. rewrite filter_partition_length. unfold trades, JSMap.values, JSMap.size.
    apply length_map. }
  split; [exact Hle|].
  assert (Htotal : JS.toFixed2 (AutomaticTradeExecutor.calculateTotalPnL e)
                   == JS.toFixed2
                        (JS.sum (map (fun t => match AutomaticTradeExecutor.pnl t with
                                               | Some p => p
                                               | None => 0
                                               end)
                                     (AutomaticTradeExecutor.getActiveTrades e)))).
  { apply toFixed2_wd. apply calculateTotalPnL_sum. }
  destruct (0 <? List.length closed)%nat eqn:Hsome.
  - apply Nat.ltb_lt in Hsome.
    assert (Hc : 0 < JS.num (List.length closed)) by (apply num_pos; lia).
    pose proof (num_nonneg (List.length profitable)) as Hp.
    pose proof (num_le _ _ Hle) as Hpc.
    assert (Hfrac0 : 0 <= JS.num (List.length profitable) / JS.num (List.length closed))
      by now apply div_nonneg.
    assert (Hfrac1 : JS.num (List.length profitable) / JS.num (List.length closed) <= 1).
    { apply Qle_shift_div_r; [exact Hc|]. lra. }
    destruct (toFixed2_percent
                (JS.num (List.length profitable) / JS.num (List.length closed) * 100))
      as [H0 H100]; [lra | lra |].
    split; [exact H0|]. split; [exact H100|]. split; [intros Hzero; lia | exact Htotal].
  - split; [discriminate|]. split; [discriminate|].
    split; [intros _; reflexivity | exact Htotal].
Qed.

(** ** The requests of one analysis *)

(** X29: one analysis sends its requests in a fixed order (hourly candles,
    15-minute candles, then the quote, each for the analysed token) and stops
    at the first one that is rejected: a resolved analysis has made all three
    and none failed, and a rejected one fails with the error of the last
    request it made, every earlier one having been answered. *)
Theorem analyzeSymbol_requests {W : Type} `{ZerodhaClient W}
  (sqrt : Q -> Q) (token : Z) (sym : string) (qty : Q)
  (w w' : World W) (r : Outcome UltimateStrategy.UltimateStrategySignal) :
  UltimateStrategy.analyzeSymbol sqrt token sym qty w = (r, w') ->
  exists new from1h to1h from15m to15m,
    calls w' = calls w ++ new
    /\ map call new
       = firstn (List.length new)
           [ CallGetHistoricalData token "hour" from1h to1h;
             CallGetHistoricalData token "15minute" from15m to15m;
             CallGetQuote [token] ]
    /\ match r with
       | Resolved _ =>
           List.length new = 3%nat /\ Forall (fun l => failure l = None) new
       | Rejected err =>
           exists earlier l,
             new = earlier ++ [l] /\ failure l = Some err
             /\ Forall (fun l => failure l = None) earlier
       end.
Proof.
  unfold UltimateStrategy.analyzeSymbol. rewrite try_catch_rethrow.
  destruct w as [h log].
  unfold UltimateStrategy.getDateBefore, zerodha_getHistoricalData, zerodha_getQuote,
    request, new_Date, bind, ret.
  cbn [host calls fst snd].
  destruct (Date_now h) as [n1 h1]. cbn [host calls fst snd].
  destruct (Date_now h1) as [n2 h2]. cbn [host calls fst snd].
  destruct (getHistoricalData token "hour" (UltimateStrategy.dateBefore n1 2) n2 h2)
    as [[candles1h|err] h3]; cbn [host calls fst snd rejection].
  2:{ intros E. inversion E; subst; clear E. cbn [calls].
      exists [mkLogged (CallGetHistoricalData token "hour"
                          (UltimateStrategy.dateBefore n1 2) n2) (Some err)],
        (UltimateStrategy.dateBefore n1 2), n2, 0%Z, 0%Z.
      split; [reflexivity|]. split; [reflexivity|].
      exists [], (mkLogged (CallGetHistoricalData token "hour"
                              (UltimateStrategy.dateBefore n1 2) n2) (Some err)).
      split; [reflexivity|]. split; [reflexivity | constructor]. }
  destruct (Date_now h3) as [n3 h4]. cbn [host calls fst snd].
  destruct (Date_now h4) as [n4 h5]. cbn [host calls fst snd].
  destruct (getHistoricalData token "15minute" (UltimateStrategy.dateBefore n3 1) n4 h5)
    as [[candles15m|err] h6]; cbn [host calls fst snd rejection].
  2:{ intros E. inversion E; subst; clear E. cbn [calls].
      exists [mkLogged (CallGetHistoricalData token "hour"
                          (UltimateStrategy.dateBefore n1 2) n2) None;
              mkLogged (CallGetHistoricalData token "15minute"
                          (UltimateStrategy.dateBefore n3 1) n4) (Some err)],
        (UltimateStrategy.dateBefore n1 2), n2, (UltimateStrategy.dateBefore n3 1), n4.
      split; [rewrite <- app_assoc; reflexivity|]. split; [reflexivity|].
      exists [mkLogged (CallGetHistoricalData token "hour"
                          (UltimateStrategy.dateBefore n1 2) n2) None],
        (mkLogged (CallGetHistoricalData token "15minute"
                     (UltimateStrategy.dateBefore n3 1) n4) (Some err)).
      split; [reflexivity|]. split; [reflexivity | repeat constructor]. }
  destruct (getQuote [token] h6) as [[quote|err] h7]; cbn [host calls fst snd rejection].
  - destruct (Date_now h7) as [n5 h8]. cbn [host calls fst snd].
    intros E. inversion E; subst; clear E. cbn [calls].
    exists [mkLogged (CallGetHistoricalData token "hour"
                        (UltimateStrategy.dateBefore n1 2) n2) None;
            mkLogged (CallGetHistoricalData token "15minute"
                        (UltimateStrategy.dateBefore n3 1) n4) None;
            mkLogged (CallGetQuote [token]) None],
      (UltimateStrategy.dateBefore n1 2), n2, (UltimateStrategy.dateBefore n3 1), n4.
    split; [rewrite <- !app_assoc; reflexivity|]. split; [reflexivity|].
    split; [reflexivity | repeat constructor].
  - intros E. inversion E; subst; clear E. cbn [calls].
    exists [mkLogged (CallGetHistoricalData token "hour"
                        (UltimateStrategy.dateBefore n1 2) n2) None;
            mkLogged (CallGetHistoricalData token "15minute"
                        (UltimateStrategy.dateBefore n3 1) n4) None;
            mkLogged (CallGetQuote [token]) (Some err)],
      (UltimateStrategy.dateBefore n1 2), n2, (UltimateStrategy.dateBefore n3 1), n4.
    split; [rewrite <- !app_assoc; reflexivity|]. split; [reflexivity|].
    exists [mkLogged (CallGetHistoricalData token "hour"
                        (UltimateStrategy.dateBefore n1 2) n2) None;
            mkLogged (CallGetHistoricalData token "15minute"
                        (UltimateStrategy.dateBefore n3 1) n4) None],
      (mkLogged (CallGetQuote [token]) (Some err)).
    split; [reflexivity|]. split; [reflexivity | repeat constructor].
Qed.

Lemma analyzeSymbol_requests_witness :
  exists sig w' new,
    Sim.analysis 100 = (Resolved sig, w')
    /\ calls w' = [] ++ new
    /\ List.length new = 3%nat.
Proof.
  assert (Hrun : exists sig w',
             UltimateStrategy.analyzeSymbol Samples.sqrt6 738561 "RELIANCE" 1
               (mkWorld (Sim.buy_market [100] Sim.accepted (Resolved tt) []) [])
             = (Resolved sig, w')).
  { do 2 eexists. vm_compute. reflexivity. }
  destruct Hrun as (sig & w' & Hrun). exists sig, w'.
  destruct (analyzeSymbol_requests Samples.sqrt6 738561 "RELIANCE" 1 _ w' _ Hrun)
    as (new & _ & _ & _ & _ & Hlog & _ & Hlen & _).
  exists new. split; [exact Hrun|]. split; [exact Hlog | exact Hlen].
Defined.

(** ** Recommendations *)

(** X30: whichever trend [determineTrend] names, the recommendations open
    with the advice for that trend: 'Consider BUY position' for BUY and
    STRONG_BUY, 'Consider SELL position' for SELL and STRONG_SELL, and the two
    consolidation lines for NEUTRAL; there are never more than eight. *)
Theorem generateRecommendations_by_trend (trend : AIMarketAnalysisService.Trend)
  (signals : AIMarketAnalysisService.Signals) (patterns : list string)
  (volatility momentum : Q) :
  let rs := AIMarketAnalysisService.generateRecommendations
              (AIMarketAnalysisService.Trend_toString trend) signals patterns
              volatility momentum in
  hd_error rs
  = Some (match trend with
          | AIMarketAnalysisService.T_STRONG_BUY | AIMarketAnalysisService.T_BUY =>
              "Consider BUY position"
          | AIMarketAnalysisService.T_SELL | AIMarketAnalysisService.T_STRONG_SELL =>
              "Consider SELL position"
          | AIMarketAnalysisService.T_NEUTRAL =>
              "Market in consolidation - wait for breakout"
          end)%string
  /\ (List.length rs <= 8)%nat
  /\ (trend = AIMarketAnalysisService.T_NEUTRAL ->
      nth_error rs 1 = Some "Use range trading strategy"%string).
Proof.
  cbv zeta. unfold AIMarketAnalysisService.generateRecommendations. cbv zeta.
  destruct (AIMarketAnalysisService.has_pattern patterns "BULLISH_ENGULFING");
  destruct (AIMarketAnalysisService.has_pattern patterns "BEARISH_ENGULFING");
  destruct (AIMarketAnalysisService.has_pattern patterns "DOUBLE_BOTTOM");
  destruct (AIMarketAnalysisService.has_pattern patterns "DOUBLE_TOP");
  destruct trend;
  change (AIMarketAnalysisService.includes
            (AIMarketAnalysisService.Trend_toString AIMarketAnalysisService.T_STRONG_BUY)
            "BUY") with true;
  change (AIMarketAnalysisService.includes
            (AIMarketAnalysisService.Trend_toString AIMarketAnalysisService.T_BUY)
            "BUY") with true;
  change (AIMarketAnalysisService.includes
            (AIMarketAnalysisService.Trend_toString AIMarketAnalysisService.T_NEUTRAL)
            "BUY") with false;
  change (AIMarketAnalysisService.includes
            (AIMarketAnalysisService.Trend_toString AIMarketAnalysisService.T_NEUTRAL)
            "SELL") with false;
  change (AIMarketAnalysisService.includes
            (AIMarketAnalysisService.Trend_toString AIMarketAnalysisService.T_SELL)
            "BUY") with false;
  change (AIMarketAnalysisService.includes
            (AIMarketAnalysisService.Trend_toString AIMarketAnalysisService.T_SELL)
            "SELL") with true;
  change (AIMarketAnalysisService.includes
            (AIMarketAnalysisService.Trend_toString AIMarketAnalysisService.T_STRONG_SELL)
            "BUY") with false;
  change (AIMarketAnalysisService.includes
            (AIMarketAnalysisService.Trend_toString AIMarketAnalysisService.T_STRONG_SELL)
            "SELL") with true;
  cbv iota;
  repeat match goal with
         | |- context [if ?c then _ else _] => destruct c
         end;
  (split; [reflexivity|]; split; [simpl; lia|]; intros Ht; try discriminate; reflexivity).
Qed.
